(** * manus-clone: a shallow embedding of the agent pipeline

    The development follows the Python sources file by file:
    - [agents/task_executor.py]  (intent classifier, rate limiter, response
      parsers, result de-duplication, search and scraping phases),
    - [agents/task_updater.py]   (task tracker and its queries),
    - [agents/report_generator.py] (statistics, report rendering, the
      analysis read from plain text),
    - [main.py]                  (workflow steps, data assembler, results),
    - [api_server.py]            (the run endpoint, the background task and
      the read endpoints),
    - [scrapers/linkedin_scraper.py] (the skills of a profile),
    - [agents/user_requirement_analysis.py] (the parsed request).

    Python values are modelled as the code has them: a [str] is a sequence of
    Unicode code points, a [float] the code computes with is a binary64
    number, a dict whose order of insertion is read is an association list,
    a dict used as a map only is a [gmap]. Calls that leave the repository
    (the hosted LLM, the browser, the template engine, [re], [json],
    [str.lower]) are parameters of the definitions that use them, and so
    are the readings of the wall clock the rate limiter takes, which are
    binary64 numbers of seconds. A function that invokes components of the
    pipeline returns, with its result, the trace of the components invoked. *)

From Stdlib Require Import ZArith QArith NArith List String Ascii Bool Sorted.
From Stdlib Require Import Lia Lqa Floats Uint63.
From stdpp Require Import base option list gmap sets.

Set Warnings "-inexact-float,-clear-no-such-hyp,-register-all".
Set Default Proof Using "Type".

Local Open Scope list_scope.

(* ===================================================================== *)
(** * Python strings *)
(* ===================================================================== *)

(** A Python [str] is a sequence of code points. *)
Definition codepoint := N.
Definition pystr := list codepoint.

(** A literal of the source, written with ASCII characters only. *)
Definition lit (s : String.string) : pystr :=
  List.map N_of_ascii (list_ascii_of_string s).

(** The bullet U+2022, the one non-ASCII literal of the sources. *)
Definition bullet : codepoint := 8226%N.

(** [s.startswith(p)] *)
Fixpoint startswith (p s : pystr) : bool :=
  match p, s with
  | [], _ => true
  | _ :: _, [] => false
  | a :: p', b :: s' => N.eqb a b && startswith p' s'
  end.

(** [sub in s] on strings: [sub] occurs in [s] as a contiguous block. *)
Fixpoint contains (sub s : pystr) : bool :=
  startswith sub s ||
  match s with
  | [] => false
  | _ :: s' => contains sub s'
  end.

(** [any(w in s for w in words)] *)
Definition any_in (words : list pystr) (s : pystr) : bool :=
  existsb (fun w => contains w s) words.

(** The specification of [in]: an occurrence at some offset. *)
Definition occurs_in (sub s : pystr) : Prop :=
  exists pre post, s = pre ++ sub ++ post.

(** [c.isspace()]: the code points [str.strip()] removes. *)
Definition isspace (c : codepoint) : bool :=
  ((9 <=? c) && (c <=? 13) || (28 <=? c) && (c <=? 32) || (c =? 133)
   || (c =? 160) || (c =? 5760) || (8192 <=? c) && (c <=? 8202)
   || (c =? 8232) || (c =? 8233) || (c =? 8239) || (c =? 8287)
   || (c =? 12288))%N.

Fixpoint drop_while (f : codepoint -> bool) (s : pystr) : pystr :=
  match s with
  | [] => []
  | c :: s' => if f c then drop_while f s' else s
  end.

(** [s.lstrip()], [s.rstrip()], [s.strip()] *)
Definition lstrip (s : pystr) : pystr := drop_while isspace s.
Definition rstrip (s : pystr) : pystr := rev (drop_while isspace (rev s)).
Definition strip (s : pystr) : pystr := rstrip (lstrip s).

(** [s.lstrip(chars)]: leading code points that belong to [chars] go. *)
Definition lstrip_chars (chars s : pystr) : pystr :=
  drop_while (fun c => existsb (N.eqb c) chars) s.

(** [s.split(' ')[0]]: the text before the first space. *)
Fixpoint before_space (s : pystr) : pystr :=
  match s with
  | [] => []
  | c :: s' => if (c =? 32)%N then [] else c :: before_space s'
  end.

(** Line boundaries of [str.splitlines()] other than carriage return. *)
Definition is_linebreak (c : codepoint) : bool :=
  ((c =? 10) || (c =? 11) || (c =? 12) || (c =? 28) || (c =? 29)
   || (c =? 30) || (c =? 133) || (c =? 8232) || (c =? 8233))%N.

(** [s.splitlines()], the current line carried in [cur]; a carriage return
    followed by a line feed is one boundary, and no empty line is reported
    after the last boundary. *)
Fixpoint splitlines_from (cur s : pystr) : list pystr :=
  match s with
  | [] => match cur with [] => [] | _ :: _ => [cur] end
  | c :: rest =>
      if (c =? 13)%N then
        match rest with
        | d :: rest' =>
            if (d =? 10)%N then cur :: splitlines_from [] rest'
            else cur :: splitlines_from [] rest
        | [] => [cur]
        end
      else if is_linebreak c then cur :: splitlines_from [] rest
      else splitlines_from (cur ++ [c]) rest
  end.
Definition splitlines (s : pystr) : list pystr := splitlines_from [] s.

(** [sep.join(parts)] *)
Fixpoint join (sep : pystr) (parts : list pystr) : pystr :=
  match parts with
  | [] => []
  | [p] => p
  | p :: rest => p ++ sep ++ join sep rest
  end.

(** ASCII case folding: the instance of [str.lower] used to evaluate the
    model on concrete inputs. The definitions below take [lower] as a
    parameter, since Python's [str.lower] is the Unicode mapping. *)
Definition ascii_lower_cp (c : codepoint) : codepoint :=
  if (65 <=? c)%N && (c <=? 90)%N then (c + 32)%N else c.
Definition ascii_lower (s : pystr) : pystr := List.map ascii_lower_cp s.

(* ===================================================================== *)
(** * agents/task_executor.py *)
(* ===================================================================== *)

Definition fact_keywords : list pystr :=
  [ lit "average"; lit "avg"; lit "salary"; lit "salaries"; lit "what is";
    lit "who is"; lit "define"; lit "definition"; lit "statistics";
    lit "stats"; lit "market size"; lit "trend"; lit "trends";
    lit "overview"; lit "comparison"; lit "vs"; lit "benefits"; lit "cons";
    lit "pros"; lit "how much"; lit "how many"; lit "price"; lit "cost" ].

Section TaskExecutorClassifier.
Variable lower : pystr -> pystr.

(** [TaskExecutorAgent._analyze_task_type] *)
Definition _analyze_task_type (user_input : pystr) : pystr :=
  let input_lower := lower user_input in
  if any_in [lit "linkedin"; lit "profile"; lit "professional profile";
             lit "resume"; lit "cv"] input_lower
  then lit "linkedin_search"
  else if any_in fact_keywords input_lower
  then lit "web_only"
  else if any_in [lit "scrape"; lit "extract"; lit "data from"; lit "crawl"]
                 input_lower
  then lit "data_scraping"
  else if any_in [lit "search"; lit "find"; lit "look for"] input_lower
  then lit "web_search"
  else lit "web_only".
End TaskExecutorClassifier.

(** Truth value of a [str]: the non-empty strings. *)
Definition str_truthy (s : pystr) : bool :=
  match s with [] => false | _ :: _ => true end.

(** [class SearchResult(BaseModel)] *)
Record SearchResult := mkSearchResult {
  title : pystr;
  url : pystr;
  snippet : pystr;
  source : pystr;
  relevance_score : float
}.

(** The loop of [_deduplicate_results], with its two locals. *)
Fixpoint dedup_loop (results : list SearchResult) (seen_urls : gset pystr)
    (unique_results : list SearchResult) : list SearchResult :=
  match results with
  | [] => unique_results
  | result :: rest =>
      if str_truthy (url result) && negb (bool_decide (url result ∈ seen_urls))
      then dedup_loop rest ({[ url result ]} ∪ seen_urls)
                      (unique_results ++ [result])
      else if negb (str_truthy (url result))
      then dedup_loop rest seen_urls (unique_results ++ [result])
      else dedup_loop rest seen_urls unique_results
  end.

(** [TaskExecutorAgent._deduplicate_results] *)
Definition _deduplicate_results (results : list SearchResult)
    : list SearchResult :=
  dedup_loop results ∅ [].

(** ** The rate limiter

    [time.time()] and [asyncio.sleep] belong to the runtime. A reading of
    the clock is a binary64 number of seconds, and the code computes with
    the readings in binary64. The two readings [_rate_limit] takes are
    parameters: [now] is what the first [time.time()] returns, [woke] what
    the second returns, after the sleep when there is one. *)
Record RateLimiter := mkRateLimiter {
  last_api_call : float;
  rate_limit_delay : float
}.

(** [TaskExecutorAgent._rate_limit]; the first component is the argument of
    [asyncio.sleep] when the branch is taken. *)
Definition _rate_limit (now woke : float) (self : RateLimiter)
    : option float * RateLimiter :=
  let current_time := now in
  let time_since_last_call := (current_time - last_api_call self)%float in
  let sleep_time :=
    if (time_since_last_call <? rate_limit_delay self)%float
    then Some (rate_limit_delay self - time_since_last_call)%float
    else None in
  (sleep_time,
   {| last_api_call := woke; rate_limit_delay := rate_limit_delay self |}).

(** The limiter as [__init__] sets it: the integers 0 and 3, which the
    operations with a [float] convert exactly. *)
Definition RateLimiter_init : RateLimiter :=
  {| last_api_call := 0; rate_limit_delay := 3 |}.

(** ** The parser of structured search responses *)

(** The local [cur] of [_parse_structured_search_response]. *)
Inductive Cur := CurAnswer | CurSources | CurLinkedin.

Global Instance Cur_eq_dec : EqDecision Cur.
Proof. solve_decision. Defined.

(** The [sections] dictionary, its three keys as fields. *)
Record Sections := mkSections {
  answer : pystr;
  sources : list pystr;
  linkedin_profiles : list pystr
}.

(** The locals of the loop over the lines. *)
Record ParseState := mkParseState {
  ps_sections : Sections;
  ps_cur : option Cur;
  ps_buffer : list pystr
}.

Definition newline : pystr := [10%N].

(** [if cur == 'answer': sections['answer'] = '\n'.join(buffer).strip()] *)
Definition flush_answer (st : ParseState) : Sections :=
  match ps_cur st with
  | Some CurAnswer =>
      {| answer := strip (join newline (ps_buffer st));
         sources := sources (ps_sections st);
         linkedin_profiles := linkedin_profiles (ps_sections st) |}
  | _ => ps_sections st
  end.

(** [ln.startswith('-') or ln.startswith('•')] *)
Definition is_bullet_line (ln : pystr) : bool :=
  startswith (lit "-") ln || startswith [bullet] ln.

(** [ln[1:].strip().lstrip('*•- ').strip()] *)
Definition bullet_text (ln : pystr) : pystr :=
  strip (lstrip_chars [42%N; bullet; 45%N; 32%N] (strip (drop 1 ln))).

(** The nested function [clean]. *)
Definition clean (urls : list pystr) : list pystr :=
  List.map before_space (List.filter (startswith (lit "http")) urls).

Section TaskExecutorParsers.
Variable lower : pystr -> pystr.

(** Which header a line is, if any: the first three branches of the loop. *)
Definition header_of (ln : pystr) : option Cur :=
  let low := lower ln in
  if startswith (lit "answer:") low then Some CurAnswer
  else if startswith (lit "sources:") low then Some CurSources
  else if startswith (lit "linkedin profiles") low then Some CurLinkedin
  else None.

(** One iteration of [for ln in lines]. *)
Definition parse_line (st : ParseState) (ln : pystr) : ParseState :=
  match header_of ln with
  | Some CurAnswer =>
      {| ps_sections := flush_answer st;
         ps_cur := Some CurAnswer;
         ps_buffer := [strip (drop (length (lit "answer:")) ln)] |}
  | Some CurSources =>
      {| ps_sections := flush_answer st;
         ps_cur := Some CurSources;
         ps_buffer := [] |}
  | Some CurLinkedin =>
      {| ps_sections := flush_answer st;
         ps_cur := Some CurLinkedin;
         ps_buffer := [] |}
  | None =>
      match ps_cur st with
      | Some CurAnswer =>
          {| ps_sections := ps_sections st; ps_cur := ps_cur st;
             ps_buffer := ps_buffer st ++ [ln] |}
      | Some CurSources =>
          if is_bullet_line ln then
            {| ps_sections :=
                 {| answer := answer (ps_sections st);
                    sources := sources (ps_sections st) ++ [bullet_text ln];
                    linkedin_profiles := linkedin_profiles (ps_sections st) |};
               ps_cur := ps_cur st; ps_buffer := ps_buffer st |}
          else st
      | Some CurLinkedin =>
          if is_bullet_line ln then
            {| ps_sections :=
                 {| answer := answer (ps_sections st);
                    sources := sources (ps_sections st);
                    linkedin_profiles :=
                      linkedin_profiles (ps_sections st) ++ [bullet_text ln] |};
               ps_cur := ps_cur st; ps_buffer := ps_buffer st |}
          else st
      | None => st
      end
  end.

Definition parse_init : ParseState :=
  {| ps_sections := {| answer := []; sources := []; linkedin_profiles := [] |};
     ps_cur := None; ps_buffer := [] |}.

(** [TaskExecutorAgent._parse_structured_search_response]. No operation
    of the [try] block raises on a [str], so the handler is never run. *)
Definition _parse_structured_search_response (content : pystr) : Sections :=
  let lines := List.map strip (splitlines content) in
  let st := fold_left parse_line lines parse_init in
  let sections := ps_sections st in
  let answer' :=
    match ps_cur st with
    | Some CurAnswer =>
        if negb (str_truthy (answer sections))
        then strip (join newline (ps_buffer st))
        else answer sections
    | _ => answer sections
    end in
  {| answer := answer';
     sources := clean (sources sections);
     linkedin_profiles := clean (linkedin_profiles sections) |}.
End TaskExecutorParsers.

(** ** The RESULTS_JSON block *)

(** What [json.loads] returns. *)
Inductive JSON :=
| JNull
| JBool (b : bool)
| JNumber (x : float)
| JString (s : pystr)
| JArray (items : list JSON)
| JObject (members : list (pystr * JSON)).

(** [d.get(key)] on a parsed object. *)
Fixpoint members_get (members : list (pystr * JSON)) (key : pystr)
    : option JSON :=
  match members with
  | [] => None
  | (k, v) :: rest =>
      if bool_decide (k = key) then Some v else members_get rest key
  end.

(** [s.find(c)]: the first index of [c], if any. *)
Fixpoint find_index (c : codepoint) (s : pystr) : option nat :=
  match s with
  | [] => None
  | d :: s' => if (d =? c)%N then Some 0 else S <$> find_index c s'
  end.

(** [block[block.find('{'):]]; when [find] returns -1 the slice [block[-1:]]
    is the last code point. *)
Definition from_first_brace (block : pystr) : pystr :=
  match find_index 123%N block with
  | Some i => drop i block
  | None => drop (length block - 1) block
  end.

(** The double quote. *)
Definition dquote : codepoint := 34%N.

(** The two patterns of [_extract_results_json], as the raw strings of the
    source spell them: a block that follows the label RESULTS_JSON, and an
    object with a results array. *)
Definition labelled_pattern : pystr :=
  lit "RESULTS_JSON\s*\n\s*\{[\s\S]*?\}\s*$".
Definition results_object_pattern : pystr :=
  lit "\{\s*\" ++ [dquote] ++ lit "results\" ++ [dquote]
  ++ lit "\s*:\s*\[.[\s\S]*?\]\s*\}".

Section ResultsJson.
(** [re.search(pattern, content, re.IGNORECASE)]: the matched text
    ([m.group(0)]), or [None]. *)
Variable re_search : pystr -> pystr -> option pystr.
(** [json.loads]; [None] when it raises. *)
Variable json_loads : pystr -> option JSON.

(** The block the two searches settle on. *)
Definition results_block (content : pystr) : option pystr :=
  match re_search labelled_pattern content with
  | Some m => Some m
  | None => re_search results_object_pattern content
  end.

(** [TaskExecutorAgent._extract_results_json] *)
Definition _extract_results_json (content : pystr) : list JSON :=
  match results_block content with
  | None => []
  | Some block =>
      let json_str := from_first_brace block in
      match json_loads json_str with
      | None => []
      | Some (JObject members) =>
          match members_get members (lit "results") with
          | Some (JArray results) => results
          | _ => []
          end
      | Some _ => []
      end
  end.
End ResultsJson.

(* ===================================================================== *)
(** * Python dictionaries and numbers *)
(* ===================================================================== *)

(** [d[k] = v] on a dictionary kept in insertion order: a present key keeps
    its place, a new key goes last. *)
Fixpoint dict_set {V : Type} (d : list (pystr * V)) (k : pystr) (v : V)
    : list (pystr * V) :=
  match d with
  | [] => [(k, v)]
  | (k', v') :: rest =>
      if bool_decide (k' = k) then (k, v) :: rest
      else (k', v') :: dict_set rest k v
  end.

(** [d.get(k)] *)
Fixpoint dict_get {V : Type} (d : list (pystr * V)) (k : pystr) : option V :=
  match d with
  | [] => None
  | (k', v') :: rest =>
      if bool_decide (k' = k) then Some v' else dict_get rest k
  end.

(** [max(a, b)] and [min(a, b)] of Python: the first argument is returned
    unless the second compares strictly above (below) it. *)
Definition py_max (a b : float) : float :=
  if PrimFloat.ltb a b then b else a.
Definition py_min (a b : float) : float :=
  if PrimFloat.ltb b a then b else a.

(* ===================================================================== *)
(** * agents/task_updater.py *)
(* ===================================================================== *)

Module TaskUpdater.

Inductive TaskStatus :=
| PENDING | IN_PROGRESS | COMPLETED | FAILED | CANCELLED.

Inductive TaskType :=
| WEB_SEARCH | LINKEDIN_SCRAPING | OTHER_SCRAPING | DATA_CLEANING
| REPORT_GENERATION.

(** [class TaskProgress(BaseModel)]. The time stamps and the free-form
    [details] are written and never read by the tracker; [ended] stands
    for [end_time is not None]. *)
Record TaskProgress := mkTaskProgress {
  task_id : pystr;
  task_type : TaskType;
  status : TaskStatus;
  progress_percentage : float;
  ended : bool;
  error_message : option pystr
}.

(** The fields of [TaskUpdaterAgent] that the operations change. *)
Record TaskUpdaterAgent := mkAgent {
  tasks : list (pystr * TaskProgress);
  overall_progress : float
}.

(** [__init__] *)
Definition init : TaskUpdaterAgent :=
  {| tasks := []; overall_progress := 0.0 |}.

(** [create_task] *)
Definition create_task (id : pystr) (ty : TaskType)
    (self : TaskUpdaterAgent) : TaskUpdaterAgent :=
  let task := {| task_id := id; task_type := ty; status := PENDING;
                 progress_percentage := 0.0; ended := false;
                 error_message := None |} in
  {| tasks := dict_set (tasks self) id task;
     overall_progress := overall_progress self |}.

(** [task_weights.get(task.task_type, 0.1)] *)
Definition task_weight (ty : TaskType) : float :=
  match ty with
  | LINKEDIN_SCRAPING => 0.6
  | OTHER_SCRAPING => 0.2
  | DATA_CLEANING => 0.1
  | REPORT_GENERATION => 0.1
  | WEB_SEARCH => 0.1
  end.

(** The body of the loop of [_update_overall_progress] over the pair
    [(total_weight, weighted_progress)]. *)
Definition accumulate (acc : float * float) (task : TaskProgress)
    : float * float :=
  let weight := task_weight (task_type task) in
  let total_weight := (fst acc + weight)%float in
  let weighted_progress :=
    match status task with
    | COMPLETED => (snd acc + weight * 100.0)%float
    | IN_PROGRESS => (snd acc + weight * progress_percentage task)%float
    | FAILED =>
        (snd acc + weight * py_min (progress_percentage task) 50.0)%float
    | _ => snd acc
    end in
  (total_weight, weighted_progress).

(** [_update_overall_progress] *)
Definition _update_overall_progress (self : TaskUpdaterAgent)
    : TaskUpdaterAgent :=
  match tasks self with
  | [] => {| tasks := tasks self; overall_progress := 0.0 |}
  | _ :: _ =>
      let acc := fold_left accumulate (List.map snd (tasks self))
                           (0%float, 0%float) in
      {| tasks := tasks self;
         overall_progress :=
           if PrimFloat.ltb 0 (fst acc) then (snd acc / fst acc)%float
           else 0.0 |}
  end.

(** [status in [COMPLETED, FAILED, CANCELLED]] *)
Definition is_final (s : TaskStatus) : bool :=
  match s with COMPLETED | FAILED | CANCELLED => true | _ => false end.

(** [update_task_status] *)
Definition update_task_status (id : pystr) (new_status : TaskStatus)
    (progress : option float) (error : option pystr)
    (self : TaskUpdaterAgent) : TaskUpdaterAgent :=
  match dict_get (tasks self) id with
  | None => self
  | Some task =>
      let task' :=
        {| task_id := task_id task;
           task_type := task_type task;
           status := new_status;
           progress_percentage :=
             match progress with
             | Some p => py_min (py_max p 0.0) 100.0
             | None => progress_percentage task
             end;
           ended := is_final new_status || ended task;
           error_message :=
             match error with
             | Some (c :: m) => Some (c :: m)
             | _ => error_message task
             end |} in
      _update_overall_progress
        {| tasks := dict_set (tasks self) id task';
           overall_progress := overall_progress self |}
  end.

(** [log_error]; [error] is [str(error)]. *)
Definition log_error (id : pystr) (error : pystr)
    (self : TaskUpdaterAgent) : TaskUpdaterAgent :=
  update_task_status id FAILED None (Some error) self.

(** [reset_workflow] *)
Definition reset_workflow (self : TaskUpdaterAgent) : TaskUpdaterAgent :=
  {| tasks := []; overall_progress := 0.0 |}.

(** The operations a client of the tracker can perform. *)
Inductive Op :=
| CreateTask (id : pystr) (ty : TaskType)
| UpdateTaskStatus (id : pystr) (new_status : TaskStatus)
                   (progress : option float) (error : option pystr)
| LogError (id : pystr) (error : pystr)
| ResetWorkflow.

Definition step (self : TaskUpdaterAgent) (op : Op) : TaskUpdaterAgent :=
  match op with
  | CreateTask id ty => create_task id ty self
  | UpdateTaskStatus id s p e => update_task_status id s p e self
  | LogError id e => log_error id e self
  | ResetWorkflow => reset_workflow self
  end.

Definition run (ops : list Op) (self : TaskUpdaterAgent)
    : TaskUpdaterAgent :=
  fold_left step ops self.

(** The calls a complete run of [ManusCloneWorkflow.execute_workflow]
    makes on the tracker: each of the three steps creates its task, sets
    it in progress at 0 and completes it at 100. *)
Definition workflow_ops : list Op :=
  [ ResetWorkflow;
    CreateTask (lit "task_execution") LINKEDIN_SCRAPING;
    UpdateTaskStatus (lit "task_execution") IN_PROGRESS (Some 0%float) None;
    UpdateTaskStatus (lit "task_execution") COMPLETED (Some 100%float) None;
    CreateTask (lit "prepare_dataframe") DATA_CLEANING;
    UpdateTaskStatus (lit "prepare_dataframe") IN_PROGRESS (Some 0%float) None;
    UpdateTaskStatus (lit "prepare_dataframe") COMPLETED (Some 100%float) None;
    CreateTask (lit "report_generation") REPORT_GENERATION;
    UpdateTaskStatus (lit "report_generation") IN_PROGRESS (Some 0%float) None;
    UpdateTaskStatus (lit "report_generation") COMPLETED (Some 100%float) None ].

(** A number is out of the range 0-100 when it compares below 0 or
    above 100. *)
Definition out_of_range (x : float) : bool :=
  PrimFloat.ltb x 0 || PrimFloat.ltb 100 x.

(** No tracked task has a progress out of the range. *)
Definition tasks_in_range (self : TaskUpdaterAgent) : Prop :=
  Forall (fun kv => out_of_range (progress_percentage (snd kv)) = false)
         (tasks self).

End TaskUpdater.

(* ===================================================================== *)
(** * api_server.py *)
(* ===================================================================== *)

Module ApiServer.

(** [class RunRequest(BaseModel)] *)
Record RunRequest := mkRunRequest {
  input : pystr;
  max_results : Z;
  verbose : bool
}.

(** [class JobState(BaseModel)]; [results] is filled by the background
    task only and is kept as the report text. *)
Record JobState := mkJobState {
  id : pystr;
  status : pystr;
  created_at : pystr;
  updated_at : pystr;
  job_input : pystr;
  job_max_results : Z;
  job_verbose : bool;
  progress : float;
  logs : list pystr;
  results : option pystr;
  error : option pystr
}.

Record HTTPException := mkHTTPException {
  status_code : Z;
  detail : pystr
}.

(** The module-level [jobs] dictionary, and the coroutines handed to
    [asyncio.create_task], which have not run when [api_run] returns. *)
Record Server := mkServer {
  jobs : gmap pystr JobState;
  scheduled : list pystr
}.

(** [api_run]. [job_id] is [uuid.uuid4().hex[:12]] and [now] is
    [datetime.utcnow().isoformat()]; the result is the exception raised
    or the JSON body returned. *)
Definition api_run (job_id now : pystr) (req : RunRequest) (srv : Server)
    : (HTTPException + pystr) * Server :=
  if negb (str_truthy (input req)) || negb (str_truthy (strip (input req)))
  then (inl {| status_code := 400; detail := lit "input is required" |}, srv)
  else
    let job :=
      {| id := job_id;
         status := lit "queued";
         created_at := now;
         updated_at := now;
         job_input := strip (input req);
         job_max_results := Z.max (max_results req) 1;
         job_verbose := verbose req;
         progress := 0.0;
         logs := [lit "Job queued"; lit "Input: " ++ strip (input req)];
         results := None;
         error := None |} in
    (inr job_id,
     {| jobs := <[ job_id := job ]> (jobs srv);
        scheduled := scheduled srv ++ [job_id] |}).

End ApiServer.

(* ===================================================================== *)
(** * Python values and the pandas DataFrame *)
(* ===================================================================== *)

(** The values a cell of a DataFrame or an entry of a dictionary holds. *)
Inductive PyVal :=
| PNone                               (* None *)
| PStr (s : pystr)
| PNum (x : float)                    (* bool, int and float *)
| PList (items : list PyVal)
| PDict (members : list (pystr * PyVal)).

Definition pydict := list (pystr * PyVal).

(** The missing cell of pandas: the float NaN. *)
Definition NaN : PyVal := PNum PrimFloat.nan.

(** [len(v)]; [None] is the [TypeError] of a value without a length. *)
Definition py_len (v : PyVal) : option nat :=
  match v with
  | PStr s => Some (length s)
  | PList items => Some (length items)
  | PDict members => Some (length members)
  | PNone | PNum _ => None
  end.

(** Values that can be hashed: what pandas' [nunique] and [value_counts]
    accept in an object column. *)
Definition hashable (v : PyVal) : bool :=
  match v with
  | PNone | PStr _ | PNum _ => true
  | PList _ | PDict _ => false
  end.

(** Equality of hashable values. *)
Definition key_eqb (a b : PyVal) : bool :=
  match a, b with
  | PStr s, PStr t => bool_decide (s = t)
  | PNum x, PNum y => PrimFloat.eqb x y
  | _, _ => false
  end.

(** [pd.isna(v)]: [None] and NaN. *)
Definition is_null (v : PyVal) : bool :=
  match v with
  | PNone => true
  | PNum x => negb (PrimFloat.eqb x x)
  | _ => false
  end.

(** [isinstance(v, str)] *)
Definition is_str (v : PyVal) : bool :=
  match v with PStr _ => true | _ => false end.

(** [d.get(k, default)] *)
Definition get_default (d : pydict) (k : pystr) (default : PyVal) : PyVal :=
  match dict_get d k with Some v => v | None => default end.

(** A DataFrame with the default index: the column labels and the rows,
    each row giving its cells by column label. *)
Record DataFrame := mkDataFrame {
  columns : list pystr;
  rows : list pydict
}.

(** [len(df)] *)
Definition df_len (df : DataFrame) : nat := length (rows df).

(** [df.empty]: either axis has length 0. *)
Definition df_empty (df : DataFrame) : bool :=
  match columns df, rows df with
  | _ :: _, _ :: _ => false
  | _, _ => true
  end.

(** [name in df.columns] *)
Definition has_column (df : DataFrame) (name : pystr) : bool :=
  bool_decide (name ∈ columns df).

(** [df[name]] as the list of its values; a cell that a row lacks is NaN. *)
Definition column (df : DataFrame) (name : pystr) : list PyVal :=
  List.map (fun r => get_default r name NaN) (rows df).

(** The column labels of [pd.DataFrame(records)]: the keys of the records
    in the order of their first appearance. *)
Definition add_keys (acc : list pystr) (r : pydict) : list pystr :=
  fold_left (fun acc k => if bool_decide (k ∈ acc) then acc else acc ++ [k])
            (List.map fst r) acc.

(** [pd.DataFrame(records)] for a list of dictionaries. *)
Definition DataFrame_of_records (records : list pydict) : DataFrame :=
  let cols := fold_left add_keys records [] in
  {| columns := cols;
     rows := List.map (fun r =>
               List.map (fun c => (c, get_default r c NaN)) cols) records |}.

(** [df[name] = values], the values given row by row. *)
Definition set_column (df : DataFrame) (name : pystr) (values : list PyVal)
    : DataFrame :=
  {| columns := if has_column df name then columns df
                else columns df ++ [name];
     rows := zip_with (fun r v => dict_set r name v) (rows df) values |}.

(** [series.apply(len)] *)
Definition lens (col : list PyVal) : option (list nat) := mapM py_len col.

(** The distinct values of a list, in the order of first appearance. *)
Fixpoint distinct (vals : list PyVal) : list PyVal :=
  match vals with
  | [] => []
  | v :: rest => v :: List.filter (fun w => negb (key_eqb v w)) (distinct rest)
  end.

(** [series.nunique()]: missing values are not counted, a value that
    cannot be hashed raises. *)
Definition nunique (col : list PyVal) : option nat :=
  if forallb hashable col
  then Some (length (distinct (List.filter (fun v => negb (is_null v)) col)))
  else None.

(** Insertion into a list sorted by decreasing count, after the entries
    of the same count. *)
Fixpoint insert_by_count (e : PyVal * nat) (l : list (PyVal * nat))
    : list (PyVal * nat) :=
  match l with
  | [] => [e]
  | e' :: rest =>
      if (snd e' <? snd e)%nat then e :: l else e' :: insert_by_count e rest
  end.

(** [series.value_counts()]: the count of each value that is not missing,
    by decreasing count (equal counts in the order of first appearance). *)
Definition value_counts (col : list PyVal) : option (list (PyVal * nat)) :=
  if forallb hashable col then
    let present := List.filter (fun v => negb (is_null v)) col in
    let tally := List.map (fun v =>
                   (v, length (List.filter (key_eqb v) present)))
                   (distinct present) in
    Some (fold_right insert_by_count [] (rev tally))
  else None.

(** The conversion of a count to [float]. *)
Definition float_of_nat (n : nat) : float :=
  PrimFloat.of_uint63 (Uint63.of_Z (Z.of_nat n)).

(** [series.mean()] of a series of integers. *)
Definition mean (xs : list nat) : float :=
  (float_of_nat (fold_right Nat.add 0%nat xs) / float_of_nat (length xs))%float.

(* ===================================================================== *)
(** * agents/report_generator.py: the statistics *)
(* ===================================================================== *)

(** The dictionary [levels] of [_analyze_experience_levels], whose five
    keys are fixed. *)
Record Levels := mkLevels {
  entry : nat;
  mid : nat;
  senior : nat;
  executive : nat;
  unknown : nat
}.

Definition no_levels : Levels :=
  {| entry := 0; mid := 0; senior := 0; executive := 0; unknown := 0 |}.

(** The dictionary [_generate_summary_statistics] returns;
    [experience_levels] is [None] for the empty dictionary. *)
Record SummaryStats := mkSummaryStats {
  total_records : nat;
  unique_locations : nat;
  records_with_skills : nat;
  records_with_experience : nat;
  avg_skills_per_record : float;
  top_locations : list (PyVal * nat);
  source_distribution : list (PyVal * nat);
  experience_levels : option Levels
}.

(** The all-zero dictionary of the empty and of the failing case. *)
Definition zero_stats : SummaryStats :=
  {| total_records := 0; unique_locations := 0; records_with_skills := 0;
     records_with_experience := 0; avg_skills_per_record := 0%float;
     top_locations := []; source_distribution := [];
     experience_levels := None |}.

Definition count_positive (ns : list nat) : nat :=
  length (List.filter (fun n => (0 <? n)%nat) ns).

Section ReportStatistics.
Variable lower : pystr -> pystr.

(** One iteration of the loop over [data['headline']]. *)
Definition count_headline (levels : Levels) (headline : PyVal) : Levels :=
  match headline with
  | PStr h =>
      let headline_lower := lower h in
      if any_in [lit "senior"; lit "lead"; lit "principal"] headline_lower
      then {| entry := entry levels; mid := mid levels;
              senior := senior levels + 1;
              executive := executive levels; unknown := unknown levels |}
      else if any_in [lit "junior"; lit "entry"; lit "associate"]
                     headline_lower
      then {| entry := entry levels + 1; mid := mid levels;
              senior := senior levels;
              executive := executive levels; unknown := unknown levels |}
      else if any_in [lit "director"; lit "vp"; lit "cto"; lit "ceo"]
                     headline_lower
      then {| entry := entry levels; mid := mid levels;
              senior := senior levels;
              executive := executive levels + 1; unknown := unknown levels |}
      else if any_in [lit "engineer"; lit "developer"; lit "analyst"]
                     headline_lower
      then {| entry := entry levels; mid := mid levels + 1;
              senior := senior levels;
              executive := executive levels; unknown := unknown levels |}
      else {| entry := entry levels; mid := mid levels;
              senior := senior levels;
              executive := executive levels; unknown := unknown levels + 1 |}
  | _ => levels
  end.

(** [ReportGeneratorAgent._analyze_experience_levels]; nothing in its
    [try] block raises. *)
Definition _analyze_experience_levels (data : DataFrame) : Levels :=
  if df_empty data then no_levels
  else if has_column data (lit "headline")
  then fold_left count_headline (column data (lit "headline")) no_levels
  else no_levels.

(** The dictionary display of [_generate_summary_statistics], entry by
    entry in the order of evaluation; [None] when an entry raises. *)
Definition compute_stats (data : DataFrame) : option SummaryStats :=
  n_locations ←
    (if has_column data (lit "location")
     then nunique (column data (lit "location")) else Some 0%nat);
  n_skills ←
    (if has_column data (lit "all_skills")
     then count_positive <$> lens (column data (lit "all_skills"))
     else Some 0%nat);
  n_experience ←
    (if has_column data (lit "experience")
     then count_positive <$> lens (column data (lit "experience"))
     else Some 0%nat);
  avg_skills ←
    (if has_column data (lit "all_skills")
     then mean <$> lens (column data (lit "all_skills"))
     else Some 0%float);
  locations ←
    (if has_column data (lit "location")
     then take 10 <$> value_counts (column data (lit "location"))
     else Some []);
  distribution ←
    (if has_column data (lit "source")
     then value_counts (column data (lit "source")) else Some []);
  Some {| total_records := df_len data;
          unique_locations := n_locations;
          records_with_skills := n_skills;
          records_with_experience := n_experience;
          avg_skills_per_record := avg_skills;
          top_locations := locations;
          source_distribution := distribution;
          experience_levels := Some (_analyze_experience_levels data) |}.

(** [ReportGeneratorAgent._generate_summary_statistics] *)
Definition _generate_summary_statistics (data : DataFrame) : SummaryStats :=
  if df_empty data then zero_stats
  else match compute_stats data with
       | Some stats => stats
       | None => zero_stats
       end.

(** The level the cascade gives a headline. *)
Inductive Level := Senior | Entry | Executive | Mid | Unknown.

Definition level_of (h : pystr) : Level :=
  let headline_lower := lower h in
  if any_in [lit "senior"; lit "lead"; lit "principal"] headline_lower
  then Senior
  else if any_in [lit "junior"; lit "entry"; lit "associate"] headline_lower
  then Entry
  else if any_in [lit "director"; lit "vp"; lit "cto"; lit "ceo"]
                 headline_lower
  then Executive
  else if any_in [lit "engineer"; lit "developer"; lit "analyst"]
                 headline_lower
  then Mid
  else Unknown.

Definition level_count (l : Level) (levels : Levels) : nat :=
  match l with
  | Senior => senior levels
  | Entry => entry levels
  | Executive => executive levels
  | Mid => mid levels
  | Unknown => unknown levels
  end.
End ReportStatistics.

Global Instance Level_eq_dec : EqDecision Level.
Proof. solve_decision. Defined.

(** The string-valued headlines of a DataFrame (none without the column). *)
Definition string_headlines (data : DataFrame) : list pystr :=
  if has_column data (lit "headline")
  then omap (fun v => match v with PStr h => Some h | _ => None end)
            (column data (lit "headline"))
  else [].

(** No aggregation of [_generate_summary_statistics] raises on [data]:
    the cells of 'location' and 'source' can be hashed and the cells of
    'all_skills' and 'experience' have a length. *)
Definition aggregable (data : DataFrame) : bool :=
  (negb (has_column data (lit "location")) ||
   forallb hashable (column data (lit "location"))) &&
  (negb (has_column data (lit "all_skills")) ||
   forallb (fun v => bool_decide (is_Some (py_len v)))
           (column data (lit "all_skills"))) &&
  (negb (has_column data (lit "experience")) ||
   forallb (fun v => bool_decide (is_Some (py_len v)))
           (column data (lit "experience"))) &&
  (negb (has_column data (lit "source")) ||
   forallb hashable (column data (lit "source"))).

(* ===================================================================== *)
(** * main.py: the data assembler *)
(* ===================================================================== *)

Module Scraped.
(** [class ScrapedData(BaseModel)] of agents/task_executor.py *)
Record ScrapedData := mkScrapedData {
  profile_url : pystr;
  name : pystr;
  headline : pystr;
  location : pystr;
  summary : pystr;
  experience : list PyVal;
  skills : list pystr;
  education : list PyVal;
  contact_info : pydict;
  scraped_at : pystr;
  source : pystr
}.

(** [item.dict()] *)
Definition dict (item : ScrapedData) : pydict :=
  [ (lit "profile_url", PStr (profile_url item));
    (lit "name", PStr (name item));
    (lit "headline", PStr (headline item));
    (lit "location", PStr (location item));
    (lit "summary", PStr (summary item));
    (lit "experience", PList (experience item));
    (lit "skills", PList (List.map PStr (skills item)));
    (lit "education", PList (education item));
    (lit "contact_info", PDict (contact_info item));
    (lit "scraped_at", PStr (scraped_at item));
    (lit "source", PStr (source item)) ].
End Scraped.

(** An element of [self.scraped_data]: "pydantic model or dict". *)
Inductive Item :=
| ItemModel (m : Scraped.ScrapedData)
| ItemDict (d : pydict).

(** [item.dict() if hasattr(item, 'dict') else dict(item)] *)
Definition item_row (item : Item) : pydict :=
  match item with
  | ItemModel m => Scraped.dict m
  | ItemDict d => d
  end.

(** The dictionary appended to [records] for one item. *)
Definition record_of (row : pydict) : pydict :=
  [ (lit "profile_url", get_default row (lit "profile_url") (PStr []));
    (lit "name", get_default row (lit "name") (PStr (lit "Unknown")));
    (lit "headline", get_default row (lit "headline") (PStr []));
    (lit "location", get_default row (lit "location") (PStr []));
    (lit "summary", get_default row (lit "summary") (PStr []));
    (lit "experience", get_default row (lit "experience") (PList []));
    (lit "skills", get_default row (lit "skills") (PList []));
    (lit "education", get_default row (lit "education") (PList []));
    (lit "source", get_default row (lit "source") (PStr (lit "Unknown"))) ].

(** The nested function [to_list_safe]. *)
Definition to_list_safe (v : PyVal) : PyVal :=
  match v with
  | PList _ => v
  | _ => PList []
  end.

(** The single record injected for a narrative answer. *)
Definition web_answer_record (ans : pystr) : pydict :=
  [ (lit "profile_url", PStr []);
    (lit "name", PStr (lit "Web Answer"));
    (lit "headline", PStr []);
    (lit "location", PStr []);
    (lit "summary", PStr ans);
    (lit "experience", PList []);
    (lit "skills", PList []);
    (lit "education", PList []);
    (lit "source", PStr (lit "Compound-Beta")) ].

(** The DataFrame [_step_prepare_dataframe] stores in [self.cleaned_data],
    from [self.scraped_data] and the answer of the last search context. *)
Definition prepare_dataframe (scraped_data : list Item) (ans : pystr)
    : DataFrame :=
  let records := List.map (fun item => record_of (item_row item)) scraped_data in
  let df := DataFrame_of_records records in
  let df :=
    if negb (df_empty df)
    then set_column df (lit "all_skills")
                    (List.map to_list_safe (column df (lit "skills")))
    else df in
  if str_truthy ans && df_empty df
  then DataFrame_of_records [web_answer_record ans]
  else df.

(** The nine fields kept from a scraped record. *)
Definition kept_fields : list pystr :=
  [ lit "profile_url"; lit "name"; lit "headline"; lit "location";
    lit "summary"; lit "experience"; lit "skills"; lit "education";
    lit "source" ].

(* ===================================================================== *)
(** * The components of the pipeline *)
(* ===================================================================== *)

(** What a file write persists. *)
Inductive Artifact := SearchResponse | RawData | CleanedData | ReportFile.

(** The components the workflow invokes; a trace lists them in the order
    of invocation. *)
Inductive Component :=
| IntentClassifier        (* _analyze_task_type *)
| QueryGenerator          (* _generate_search_queries *)
| WebSearchExecutor       (* _execute_web_search_with_retry, once a query *)
| LinkedInScraper         (* a LinkedInScraper browser session *)
| UrlEnrichment           (* _enrich_url_with_llm, once a URL *)
| DataAssembler           (* _step_prepare_dataframe *)
| AIAnalysisWriter        (* _generate_ai_analysis *)
| StatisticsSummarizer    (* _generate_summary_statistics *)
| TemplateRenderer        (* _create_report *)
| FilePersistence (what : Artifact).

Definition Trace := list Component.

Global Instance Artifact_eq_dec : EqDecision Artifact.
Proof. solve_decision. Defined.
Global Instance Component_eq_dec : EqDecision Component.
Proof. solve_decision. Defined.

(* ===================================================================== *)
(** * agents/report_generator.py: the report *)
(* ===================================================================== *)

(** Truth value of a Python value ([bool] is the numbers 0 and 1). *)
Definition py_truthy (v : PyVal) : bool :=
  match v with
  | PNone => false
  | PStr s => str_truthy s
  | PNum x => negb (PrimFloat.eqb x 0)
  | PList items => match items with [] => false | _ => true end
  | PDict members => match members with [] => false | _ => true end
  end.

(** [a or b] *)
Definition py_or (a b : PyVal) : PyVal := if py_truthy a then a else b.

(** An entry of [self.generated_charts]; [chart_data] is the image in
    base64. *)
Record Chart := mkChart {
  chart_title : pystr;
  chart_type : pystr;
  chart_data : pystr
}.

(** The state of [ReportGeneratorAgent]. *)
Record ReportGeneratorAgent := mkReportGeneratorAgent {
  report_data : option DataFrame;
  generated_charts : list Chart;
  search_context : pydict
}.

(** The keyword arguments of [template.render]. *)
Record ReportContext := mkReportContext {
  generated_at : pystr;
  rc_total_records : nat;
  ai_analysis : PyVal;
  summary_stats : SummaryStats;
  charts : list Chart;
  sample_data : list pydict;
  report_format : pydict;
  rc_user_input : PyVal;
  rc_sources : PyVal;
  rc_linkedin_profiles : PyVal;
  direct_answer : PyVal;
  has_linkedin : bool;
  li_rows : list pydict;
  web_rows : list pydict
}.

(** The exceptions [_create_report] can catch. *)
Inductive Raised :=
| NoLower (v : PyVal)          (* AttributeError: v has no attribute lower *)
| NoSlice (v : PyVal)          (* TypeError: v cannot be sliced *)
| TemplateError (msg : pystr). (* raised by the template engine *)

(** [v[:n]] *)
Definition py_slice (n : nat) (v : PyVal) : Raised + PyVal :=
  match v with
  | PStr s => inr (PStr (take n s))
  | PList items => inr (PList (take n items))
  | _ => inl (NoSlice v)
  end.

Section ReportGenerator.
Variable lower : pystr -> pystr.
(** What [_generate_ai_analysis] returns for a DataFrame that is not
    empty: the answer of the hosted model, parsed, or one of the two
    fall-backs of the method. *)
Variable llm_analysis : pydict -> DataFrame -> PyVal.
(** [Template(template_content).render] applied to [report_data]: the
    text, or the message of the exception raised. *)
Variable render_template : ReportContext -> pystr + pystr.
(** [str(e)] *)
Variable str_of_raised : Raised -> pystr.
(** [datetime.now().strftime(...)] *)
Variable now : pystr.

(** [ReportGeneratorAgent._generate_ai_analysis] *)
Definition _generate_ai_analysis (self : ReportGeneratorAgent)
    (data : DataFrame) : PyVal :=
  if df_empty data
  then PDict [ (lit "key_insights",
                PList [PStr (lit "No data available for analysis")]);
               (lit "trends", PList []);
               (lit "recommendations", PList []) ]
  else llm_analysis (search_context self) data.

(** [(r.get('source') or '').lower() == 'linkedin'] *)
Definition source_is_linkedin (r : pydict) : Raised + bool :=
  match py_or (get_default r (lit "source") PNone) (PStr []) with
  | PStr s => inr (bool_decide (lower s = lit "linkedin"))
  | v => inl (NoLower v)
  end.

(** [any(... for r in sample_records)], which stops at the first hit. *)
Fixpoint any_linkedin (records : list pydict) : Raised + bool :=
  match records with
  | [] => inr false
  | r :: rest =>
      match source_is_linkedin r with
      | inl e => inl e
      | inr true => inr true
      | inr false => any_linkedin rest
      end
  end.

Definition li_row (r : pydict) : pydict :=
  [ (lit "name", py_or (get_default r (lit "name") PNone) (PStr (lit "N/A")));
    (lit "headline",
     py_or (get_default r (lit "headline") PNone) (PStr (lit "N/A")));
    (lit "location",
     py_or (get_default r (lit "location") PNone) (PStr (lit "N/A")));
    (lit "source",
     py_or (get_default r (lit "source") PNone) (PStr (lit "N/A"))) ].

Definition web_row (r : pydict) : Raised + pydict :=
  match py_slice 220 (py_or (get_default r (lit "summary") PNone) (PStr []))
  with
  | inl e => inl e
  | inr snippet =>
      inr [ (lit "title",
             py_or (get_default r (lit "name") PNone)
               (py_or (get_default r (lit "profile_url") PNone)
                      (PStr (lit "N/A"))));
            (lit "snippet", snippet);
            (lit "url",
             py_or (get_default r (lit "profile_url") PNone) (PStr [])) ]
  end.

(** The list comprehension of [li_rows]. *)
Fixpoint build_li_rows (records : list pydict) : Raised + list pydict :=
  match records with
  | [] => inr []
  | r :: rest =>
      match source_is_linkedin r with
      | inl e => inl e
      | inr keep =>
          match build_li_rows rest with
          | inl e => inl e
          | inr rows' => inr (if keep then li_row r :: rows' else rows')
          end
      end
  end.

(** The list comprehension of [web_rows]. *)
Fixpoint build_web_rows (records : list pydict) : Raised + list pydict :=
  match records with
  | [] => inr []
  | r :: rest =>
      match source_is_linkedin r with
      | inl e => inl e
      | inr true => build_web_rows rest
      | inr false =>
          match web_row r with
          | inl e => inl e
          | inr w =>
              match build_web_rows rest with
              | inl e => inl e
              | inr rows' => inr (w :: rows')
              end
          end
      end
  end.

(** The dictionary [report_data] of [_create_report]. *)
Definition report_context (self : ReportGeneratorAgent) (data : DataFrame)
    (analysis : PyVal) (stats : SummaryStats) (format : pydict)
    : Raised + ReportContext :=
  let sample_records := if negb (df_empty data) then take 8 (rows data)
                        else [] in
  match any_linkedin sample_records with
  | inl e => inl e
  | inr linkedin =>
      match build_li_rows sample_records with
      | inl e => inl e
      | inr lis =>
          match build_web_rows sample_records with
          | inl e => inl e
          | inr webs =>
              inr {| generated_at := now;
                     rc_total_records := df_len data;
                     ai_analysis := analysis;
                     summary_stats := stats;
                     charts := generated_charts self;
                     sample_data := sample_records;
                     report_format := format;
                     rc_user_input :=
                       get_default (search_context self) (lit "user_input")
                                   (PStr []);
                     rc_sources :=
                       get_default (search_context self) (lit "sources")
                                   (PList []);
                     rc_linkedin_profiles :=
                       get_default (search_context self)
                                   (lit "linkedin_profiles") (PList []);
                     direct_answer :=
                       py_or (get_default (search_context self)
                                          (lit "answer") (PStr []))
                             (get_default (search_context self)
                                          (lit "search_answer") (PStr []));
                     has_linkedin := linkedin;
                     li_rows := lis;
                     web_rows := webs |}
          end
      end
  end.

Definition error_report (e : Raised) : pystr :=
  lit "Error generating report: " ++ str_of_raised e.

(** [ReportGeneratorAgent._create_report] *)
Definition _create_report (self : ReportGeneratorAgent) (data : DataFrame)
    (analysis : PyVal) (stats : SummaryStats) (format : pydict) : pystr :=
  match report_context self data analysis stats format with
  | inl e => error_report e
  | inr ctx =>
      match render_template ctx with
      | inl report_content => report_content
      | inr msg => error_report (TemplateError msg)
      end
  end.

(** [ReportGeneratorAgent._generate_charts] *)
Definition _generate_charts (self : ReportGeneratorAgent)
    : ReportGeneratorAgent :=
  {| report_data := report_data self; generated_charts := [];
     search_context := search_context self |}.

(** [ReportGeneratorAgent.generate_report]: the report, the agent it
    leaves and the components it invoked, in order. The three methods it
    calls catch what they raise, so its own handler is not run. *)
Definition generate_report (self : ReportGeneratorAgent)
    (cleaned_data : DataFrame) (format : pydict) (context : option pydict)
    : pystr * ReportGeneratorAgent * Trace :=
  let self1 :=
    {| report_data := Some cleaned_data;
       generated_charts := generated_charts self;
       search_context := match context with
                         | Some (e :: c) => e :: c
                         | _ => []
                         end |} in
  let self2 :=
    {| report_data := report_data self1; generated_charts := [];
       search_context := search_context self1 |} in
  let analysis := _generate_ai_analysis self2 cleaned_data in
  let stats := _generate_summary_statistics lower cleaned_data in
  let report_content :=
    _create_report self2 cleaned_data analysis stats format in
  (report_content, self2,
   [AIAnalysisWriter; StatisticsSummarizer; TemplateRenderer]).
End ReportGenerator.

(* ===================================================================== *)
(** * agents/task_executor.py and main.py: the workflow *)
(* ===================================================================== *)

(** [l[:n]] *)
Definition py_take {A : Type} (n : Z) (l : list A) : list A :=
  if (0 <=? n)%Z then take (Z.to_nat n) l
  else take (length l - Z.to_nat (- n)) l.

(** The nested function [_merge] of [_merge_search_context]: the entries
    of [new] that are not empty and not yet present are appended. *)
Fixpoint merge_unique (present new : list pystr) : list pystr :=
  match new with
  | [] => present
  | u :: rest =>
      if str_truthy u && negb (bool_decide (u ∈ present))
      then merge_unique (present ++ [u]) rest
      else merge_unique present rest
  end.

(** [TaskExecutorAgent._merge_search_context] *)
Definition _merge_search_context (ctx parsed : Sections) : Sections :=
  {| answer := if str_truthy (answer parsed) then answer parsed
               else answer ctx;
     sources := merge_unique (sources ctx) (sources parsed);
     linkedin_profiles :=
       merge_unique (linkedin_profiles ctx) (linkedin_profiles parsed) |}.

(** [TaskExecutorAgent._create_fallback_search_results] *)
Definition _create_fallback_search_results (query : pystr)
    : list SearchResult :=
  [ {| title := lit "Search result for: " ++ query;
       url := [];
       snippet := lit "Search result for " ++ query;
       source := lit "search";
       relevance_score := 0.3 |} ].

(** [TaskExecutorAgent._generate_fallback_queries] *)
Definition _generate_fallback_queries (user_input search_type : pystr)
    : list pystr :=
  if bool_decide (search_type = lit "linkedin")
  then [user_input ++ lit " LinkedIn"; user_input ++ lit " professional profile"]
  else [user_input; user_input ++ lit " information"].

(** ['linkedin.com/in/' in u] *)
Definition is_linkedin_url (u : pystr) : bool :=
  contains (lit "linkedin.com/in/") u.

Module Pipeline.

(** The state of [TaskExecutorAgent] that the workflow reads. *)
Record Executor := mkExecutor {
  search_results : list SearchResult;
  scraped_data : list Scraped.ScrapedData;
  last_search_context : Sections
}.

(** [TaskExecutorAgent.__init__] *)
Definition Executor_init : Executor :=
  {| search_results := []; scraped_data := [];
     last_search_context :=
       {| answer := []; sources := []; linkedin_profiles := [] |} |}.

(** The state of [ManusCloneWorkflow]. *)
Record Workflow := mkWorkflow {
  user_input : pystr;
  task_executor_agent : Executor;
  task_updater_agent : TaskUpdater.TaskUpdaterAgent;
  report_generator_agent : ReportGeneratorAgent;
  wf_scraped_data : list Scraped.ScrapedData;
  cleaned_data : option DataFrame;
  final_report : option pystr
}.

(** [ManusCloneWorkflow.__init__] *)
Definition Workflow_init : Workflow :=
  {| user_input := [];
     task_executor_agent := Executor_init;
     task_updater_agent := TaskUpdater.init;
     report_generator_agent :=
       {| report_data := None; generated_charts := [];
          search_context := [] |};
     wf_scraped_data := [];
     cleaned_data := None;
     final_report := None |}.

Section World.
(** [str.lower] and [re.findall(pattern, string)]. *)
Variable lower : pystr -> pystr.
Variable re_findall : pystr -> pystr -> list pystr.
(** The hosted model asked for queries: the JSON list it answers, or
    [None] when the call fails or the answer is not a list. *)
Variable llm_queries : pystr -> pystr -> option (list pystr).
(** [_execute_web_search_with_retry] for a query and a bound: the
    parsed responses it merges into the search context, in order, and
    the results it returns. *)
Variable web_search : pystr -> Z -> list Sections * list SearchResult.
(** The browser asked for a profile: the validated record, or [None]
    when nothing is scraped or the attempt raises. *)
Variable scrape_profile : pystr -> option Scraped.ScrapedData.
(** [_enrich_url_with_llm] and the record built from its answer, or
    [None] when building the record raises. *)
Variable enrich_record : pystr -> option Scraped.ScrapedData.
Variable llm_analysis : pydict -> DataFrame -> PyVal.
Variable render_template : ReportContext -> pystr + pystr.
Variable str_of_raised : Raised -> pystr.
Variable now : pystr.

(** [_generate_search_queries] *)
Definition _generate_search_queries (input search_type : pystr)
    : list pystr * Trace :=
  (match llm_queries input search_type with
   | Some queries => take 2 queries
   | None => _generate_fallback_queries input search_type
   end,
   [QueryGenerator]).

(** One iteration of the loop of [_perform_web_search]. *)
Definition search_query (bound : Z)
    (acc : Sections * list SearchResult * Trace) (query : pystr)
    : Sections * list SearchResult * Trace :=
  let '(ctx, all_results, trace) := acc in
  let '(parsed, results) := web_search query bound in
  let query_results :=
    match results with
    | [] => _create_fallback_search_results query
    | _ :: _ => results
    end in
  (fold_left _merge_search_context parsed ctx,
   all_results ++ query_results,
   trace ++ [WebSearchExecutor; FilePersistence SearchResponse]).

(** [_perform_web_search] *)
Definition _perform_web_search (search_queries : list pystr)
    (max_results : Z) (self : Executor) : Executor * Trace :=
  let bound := (max_results / Z.of_nat (length search_queries))%Z in
  let '(ctx, all_results, trace) :=
    fold_left (search_query bound) search_queries
              (last_search_context self, [], []) in
  ({| search_results := _deduplicate_results all_results;
      scraped_data := scraped_data self;
      last_search_context := ctx |},
   trace).

(** [_scrape_linkedin_profiles] *)
Definition _scrape_linkedin_profiles (max_results : Z) (self : Executor)
    : Executor * Trace :=
  match List.filter is_linkedin_url (List.map url (search_results self))
  with
  | [] => (self, [])
  | (_ :: _) as linkedin_urls =>
      ({| search_results := search_results self;
          scraped_data :=
            scraped_data self
            ++ omap scrape_profile (py_take max_results linkedin_urls);
          last_search_context := last_search_context self |},
       [LinkedInScraper])
  end.

(** The loop of [_scrape_other_websites], with its counter. *)
Fixpoint enrich_loop (max_results count_added : Z) (urls : list pystr)
    (acc : list Scraped.ScrapedData * Trace)
    : list Scraped.ScrapedData * Trace :=
  match urls with
  | [] => acc
  | u :: rest =>
      if (max_results <=? count_added)%Z then acc
      else match enrich_record u with
           | Some d =>
               enrich_loop max_results (count_added + 1) rest
                           (fst acc ++ [d], snd acc ++ [UrlEnrichment])
           | None =>
               enrich_loop max_results count_added rest
                           (fst acc, snd acc ++ [UrlEnrichment])
           end
  end.

(** [_scrape_other_websites] *)
Definition _scrape_other_websites (max_results : Z) (self : Executor)
    : Executor * Trace :=
  let other_urls :=
    List.filter (fun u => negb (is_linkedin_url u) && str_truthy u)
                (List.map url (search_results self)) in
  let '(data, trace) :=
    enrich_loop max_results 0 other_urls (scraped_data self, []) in
  ({| search_results := search_results self;
      scraped_data := data;
      last_search_context := last_search_context self |},
   trace).

(** One iteration of the loop of [_scrape_specific_urls]; for a URL
    that is not a profile the call of the removed [_scrape_with_firecrawl]
    raises and the loop goes on. *)
Definition scrape_specific (acc : list Scraped.ScrapedData * Trace)
    (u : pystr) : list Scraped.ScrapedData * Trace :=
  if is_linkedin_url u
  then (fst acc ++ option_list (scrape_profile u),
        snd acc ++ [LinkedInScraper])
  else acc.

(** [_scrape_specific_urls] *)
Definition _scrape_specific_urls (urls : list pystr) (max_results : Z)
    (self : Executor) : Executor * Trace :=
  let '(data, trace) :=
    fold_left scrape_specific (py_take max_results urls)
              (scraped_data self, []) in
  ({| search_results := search_results self;
      scraped_data := data;
      last_search_context := last_search_context self |},
   trace).

(** The entry [_execute_web_only] appends for a result. *)
Definition minimal_entry (result : SearchResult) : Scraped.ScrapedData :=
  {| Scraped.profile_url := url result;
     Scraped.name := match title result with
                     | [] => lit "Unknown"
                     | _ :: _ => title result
                     end;
     Scraped.headline := [];
     Scraped.location := [];
     Scraped.summary := snippet result;
     Scraped.experience := [];
     Scraped.skills := [];
     Scraped.education := [];
     Scraped.contact_info := [];
     Scraped.scraped_at := now;
     Scraped.source := lit "Compound-Beta" |}.

(** The second loop of [_execute_web_only], with its counter. *)
Fixpoint minimal_loop (max_results count_added : Z)
    (results : list SearchResult) (data : list Scraped.ScrapedData)
    : list Scraped.ScrapedData :=
  match results with
  | [] => data
  | result :: rest =>
      if (max_results <=? count_added)%Z then data
      else if negb (str_truthy (url result))
      then minimal_loop max_results count_added rest data
      else if is_linkedin_url (url result)
      then minimal_loop max_results count_added rest data
      else minimal_loop max_results (count_added + 1) rest
                        (data ++ [minimal_entry result])
  end.

(** Sequencing of two steps on the executor. *)
Definition andthen (first : Executor * Trace)
    (next : Executor -> Executor * Trace) : Executor * Trace :=
  let '(self, t1) := first in
  let '(self', t2) := next self in
  (self', t1 ++ t2).

(** [_execute_web_only] *)
Definition _execute_web_only (input : pystr) (max_results : Z)
    (self : Executor) : Executor * Trace :=
  let '(search_queries, t0) := _generate_search_queries input (lit "web") in
  let '(self1, t1) := _perform_web_search search_queries max_results self in
  let linkedin_urls_present :=
    existsb (fun r => is_linkedin_url (url r))
            (List.filter (fun r => str_truthy (url r))
                         (search_results self1)) in
  let '(self2, t2) :=
    if linkedin_urls_present
    then _scrape_linkedin_profiles max_results self1
    else (self1, []) in
  ({| search_results := search_results self2;
      scraped_data :=
        minimal_loop max_results 0 (search_results self2)
                     (scraped_data self2);
      last_search_context := last_search_context self2 |},
   t0 ++ t1 ++ t2).

(** [_execute_linkedin_search] *)
Definition _execute_linkedin_search (input : pystr) (max_results : Z)
    (self : Executor) : Executor * Trace :=
  let '(search_queries, t0) :=
    _generate_search_queries input (lit "linkedin") in
  let first :=
    andthen (_perform_web_search search_queries max_results self)
            (_scrape_linkedin_profiles max_results) in
  let linkedin_urls :=
    List.filter is_linkedin_url (List.map url (search_results (fst first)))
  in
  let second :=
    match linkedin_urls with
    | [] =>
        let site_queries :=
          [ lit "site:linkedin.com/in " ++ input;
            input ++ lit " site:linkedin.com/in" ] in
        andthen
          (andthen first (_perform_web_search site_queries max_results))
          (_scrape_linkedin_profiles max_results)
    | _ :: _ => first
    end in
  let '(self', t) := andthen second (_scrape_other_websites max_results) in
  (self', t0 ++ t).

(** [_execute_web_search] and [_execute_generic_search] *)
Definition _execute_search (search_type input : pystr) (max_results : Z)
    (self : Executor) : Executor * Trace :=
  let '(search_queries, t0) := _generate_search_queries input search_type in
  let '(self', t) :=
    andthen (_perform_web_search search_queries max_results self)
            (_scrape_other_websites max_results) in
  (self', t0 ++ t).

(** [_extract_urls_from_input] *)
Definition _extract_urls_from_input (input : pystr) : list pystr :=
  re_findall (lit "https?://[^\s]+") input.

(** [_execute_data_scraping] *)
Definition _execute_data_scraping (input : pystr) (max_results : Z)
    (self : Executor) : Executor * Trace :=
  match _extract_urls_from_input input with
  | [] => _execute_search (lit "generic") input max_results self
  | (_ :: _) as urls => _scrape_specific_urls urls max_results self
  end.

(** [TaskExecutorAgent.execute_tasks]; every branch catches what it
    raises. The result is [self.scraped_data]. *)
Definition execute_tasks (input : pystr) (max_results : Z)
    (self : Executor) : Executor * Trace :=
  let task_type := _analyze_task_type lower input in
  let '(self', t) :=
    if bool_decide (task_type = lit "linkedin_search")
    then _execute_linkedin_search input max_results self
    else if bool_decide (task_type = lit "web_only")
    then _execute_web_only input max_results self
    else if bool_decide (task_type = lit "web_search")
    then _execute_search (lit "web") input max_results self
    else if bool_decide (task_type = lit "data_scraping")
    then _execute_data_scraping input max_results self
    else _execute_web_only input max_results self in
  (self', IntentClassifier :: t).

(** [_step_task_execution] *)
Definition _step_task_execution (max_results : Z) (self : Workflow)
    : Workflow * Trace :=
  let id := lit "task_execution" in
  let tracker :=
    TaskUpdater.update_task_status id TaskUpdater.IN_PROGRESS
      (Some 0%float) None
      (TaskUpdater.create_task id TaskUpdater.LINKEDIN_SCRAPING
         (task_updater_agent self)) in
  let '(executor, t) :=
    execute_tasks (user_input self) max_results (task_executor_agent self)
  in
  let saved := match scraped_data executor with
               | [] => []
               | _ :: _ => [FilePersistence RawData]
               end in
  ({| user_input := user_input self;
      task_executor_agent := executor;
      task_updater_agent :=
        TaskUpdater.update_task_status id TaskUpdater.COMPLETED
          (Some 100%float) None tracker;
      report_generator_agent := report_generator_agent self;
      wf_scraped_data := scraped_data executor;
      cleaned_data := cleaned_data self;
      final_report := final_report self |},
   t ++ saved).

(** [_step_prepare_dataframe] *)
Definition _step_prepare_dataframe (self : Workflow) : Workflow * Trace :=
  let id := lit "prepare_dataframe" in
  let tracker :=
    TaskUpdater.update_task_status id TaskUpdater.IN_PROGRESS
      (Some 0%float) None
      (TaskUpdater.create_task id TaskUpdater.DATA_CLEANING
         (task_updater_agent self)) in
  let df :=
    prepare_dataframe (List.map ItemModel (wf_scraped_data self))
      (answer (last_search_context (task_executor_agent self))) in
  let saved := if negb (df_empty df) then [FilePersistence CleanedData]
               else [] in
  ({| user_input := user_input self;
      task_executor_agent := task_executor_agent self;
      task_updater_agent :=
        TaskUpdater.update_task_status id TaskUpdater.COMPLETED
          (Some 100%float) None tracker;
      report_generator_agent := report_generator_agent self;
      wf_scraped_data := wf_scraped_data self;
      cleaned_data := Some df;
      final_report := final_report self |},
   DataAssembler :: saved).

(** The dictionary [ctx] of [_step_report_generation]. *)
Definition report_ctx (self : Workflow) : pydict :=
  let last := last_search_context (task_executor_agent self) in
  [ (lit "user_input", PStr (user_input self));
    (lit "answer", PStr (answer last));
    (lit "search_answer", PStr (answer last));
    (lit "sources", PList (List.map PStr (sources last)));
    (lit "linkedin_profiles",
     PList (List.map PStr (linkedin_profiles last))) ].

(** [_step_report_generation] *)
Definition _step_report_generation (self : Workflow) : Workflow * Trace :=
  let id := lit "report_generation" in
  let tracker :=
    TaskUpdater.update_task_status id TaskUpdater.IN_PROGRESS
      (Some 0%float) None
      (TaskUpdater.create_task id TaskUpdater.REPORT_GENERATION
         (task_updater_agent self)) in
  let no_data :=
    (lit "# No Data Report" ++ newline ++ newline
     ++ lit "No data was available for analysis.",
     report_generator_agent self, []) in
  let '(report, reporter, t) :=
    match cleaned_data self with
    | None => no_data
    | Some df =>
        if df_empty df then no_data
        else
          let report_format :=
            [ (lit "include_charts", PNum 0%float);
              (lit "include_summary", PNum 1%float);
              (lit "format", PStr (lit "markdown")) ] in
          let '(report, reporter, t) :=
            generate_report lower llm_analysis render_template
              str_of_raised now (report_generator_agent self) df
              report_format (Some (report_ctx self)) in
          (report, reporter,
           t ++ (if str_truthy report then [FilePersistence ReportFile]
                 else []))
    end in
  ({| user_input := user_input self;
      task_executor_agent := task_executor_agent self;
      task_updater_agent :=
        TaskUpdater.update_task_status id TaskUpdater.COMPLETED
          (Some 100%float) None tracker;
      report_generator_agent := reporter;
      wf_scraped_data := wf_scraped_data self;
      cleaned_data := cleaned_data self;
      final_report := Some report |},
   t).

(** [ManusCloneWorkflow.execute_workflow]: the workflow it leaves and
    the components invoked, in order. *)
Definition execute_workflow (input : pystr) (max_results : Z)
    (self : Workflow) : Workflow * Trace :=
  let self0 :=
    {| user_input := input;
       task_executor_agent := task_executor_agent self;
       task_updater_agent :=
         TaskUpdater.reset_workflow (task_updater_agent self);
       report_generator_agent := report_generator_agent self;
       wf_scraped_data := wf_scraped_data self;
       cleaned_data := cleaned_data self;
       final_report := final_report self |} in
  let '(self1, t1) := _step_task_execution max_results self0 in
  let '(self2, t2) := _step_prepare_dataframe self1 in
  let '(self3, t3) := _step_report_generation self2 in
  (self3, t1 ++ t2 ++ t3).
End World.

(** The place of a component in the order of a run. *)
Definition stage (c : Component) : nat :=
  match c with
  | IntentClassifier => 0
  | QueryGenerator => 1
  | WebSearchExecutor => 2
  | FilePersistence SearchResponse => 2
  | LinkedInScraper => 3
  | UrlEnrichment => 4
  | FilePersistence RawData => 5
  | DataAssembler => 6
  | FilePersistence CleanedData => 7
  | AIAnalysisWriter => 8
  | StatisticsSummarizer => 9
  | TemplateRenderer => 10
  | FilePersistence ReportFile => 11
  end.

(** A trace follows the order when no component comes before one of an
    earlier stage. *)
Definition in_order (t : Trace) : Prop :=
  StronglySorted (fun a b => stage a <= stage b) t.

(** A trace in order whose components have their stages in [lo, hi]. *)
Definition staged (lo hi : nat) (t : Trace) : Prop :=
  in_order t /\ Forall (fun c => lo <= stage c <= hi) t.

(** The place of a component in the order the specification lists, the
    statistics summarizer before the AI analysis writer and all file
    persistence last. *)
Definition listed_stage (c : Component) : nat :=
  match c with
  | IntentClassifier => 0
  | QueryGenerator => 1
  | WebSearchExecutor => 2
  | LinkedInScraper => 3
  | UrlEnrichment => 3
  | DataAssembler => 4
  | StatisticsSummarizer => 5
  | AIAnalysisWriter => 6
  | TemplateRenderer => 7
  | FilePersistence _ => 8
  end.

Definition in_listed_order (t : Trace) : Prop :=
  StronglySorted (fun a b => listed_stage a <= listed_stage b) t.

(** The position of the first invocation of a component. *)
Fixpoint first_index (c : Component) (t : Trace) : option nat :=
  match t with
  | [] => None
  | d :: rest =>
      if bool_decide (d = c) then Some 0 else S <$> first_index c rest
  end.

End Pipeline.

(* ===================================================================== *)
(** * Further functions of the sources *)
(* ===================================================================== *)

(** ** agents/task_executor.py: links taken from a raw response *)

(** The pattern of [_extract_search_results_from_text], as the raw string
    of the source spells it. *)
Definition link_pattern : pystr :=
  lit "https?://[^\s\)\]\" ++ [dquote] ++ lit "\'\}>]+".

(** The loop of [_extract_search_results_from_text], with its two locals;
    the bound is tested after a link has been appended. *)
Fixpoint unique_links (max_n : Z) (urls : list pystr) (seen : gset pystr)
    (unique : list pystr) : list pystr :=
  match urls with
  | [] => unique
  | u :: rest =>
      if bool_decide (u ∈ seen) then unique_links max_n rest seen unique
      else if (max_n <=? Z.of_nat (length (unique ++ [u])))%Z
      then unique ++ [u]
      else unique_links max_n rest ({[ u ]} ∪ seen) (unique ++ [u])
  end.

(** The result built for a link. *)
Definition link_result (u : pystr) : SearchResult :=
  {| title := u; url := u; snippet := []; source := lit "web";
     relevance_score := 0.3 |}.

Section TextLinks.
(** [re.findall(pattern, string)] *)
Variable re_findall : pystr -> pystr -> list pystr.

(** [TaskExecutorAgent._extract_search_results_from_text] *)
Definition _extract_search_results_from_text (text : pystr) (max_n : Z)
    : list SearchResult :=
  List.map link_result (unique_links max_n (re_findall link_pattern text) ∅ []).
End TextLinks.

(** ** agents/task_updater.py: the queries *)

Module TaskQueries.
Import TaskUpdater.

Global Instance TaskStatus_eq_dec : EqDecision TaskStatus.
Proof. solve_decision. Defined.

(** [get_task_status] *)
Definition get_task_status (id : pystr) (self : TaskUpdaterAgent)
    : option TaskProgress :=
  dict_get (tasks self) id.

(** [get_all_tasks] *)
Definition get_all_tasks (self : TaskUpdaterAgent) : list TaskProgress :=
  List.map snd (tasks self).

(** [get_failed_tasks] *)
Definition get_failed_tasks (self : TaskUpdaterAgent) : list TaskProgress :=
  List.filter (fun task => bool_decide (status task = FAILED))
              (get_all_tasks self).

(** [get_overall_progress] *)
Definition get_overall_progress (self : TaskUpdaterAgent) : float :=
  overall_progress self.

(** The dictionary of [get_workflow_summary], without its three entries
    read from the wall clock. *)
Record WorkflowSummary := mkWorkflowSummary {
  total_tasks : nat;
  completed_tasks : nat;
  failed_tasks : nat;
  in_progress_tasks : nat;
  summary_overall_progress : float
}.

(** [len([t for t in self.tasks.values() if t.status == s])] *)
Definition count_status (s : TaskStatus) (self : TaskUpdaterAgent) : nat :=
  length (List.filter (fun t => bool_decide (status t = s))
                      (get_all_tasks self)).

(** [get_workflow_summary] *)
Definition get_workflow_summary (self : TaskUpdaterAgent)
    : WorkflowSummary :=
  {| total_tasks := length (tasks self);
     completed_tasks := count_status COMPLETED self;
     failed_tasks := count_status FAILED self;
     in_progress_tasks := count_status IN_PROGRESS self;
     summary_overall_progress := overall_progress self |}.

End TaskQueries.

(** ** api_server.py: the background task and the read endpoints *)

Module ApiJobs.
Import ApiServer.

(** What the two calls of [_run_workflow_background] into the workflow
    do: the constructor raises, [execute_workflow] raises (the string is
    [str(e)]), or it returns its results, kept as their final report. *)
Inductive Outcome :=
| ConstructorRaised (e : pystr)
| WorkflowRaised (e : pystr)
| WorkflowReturned (final_report : pystr).

(** The job after the statements that precede the [try] block. *)
Definition running (started : pystr) (job : JobState) : JobState :=
  {| id := id job;
     status := lit "running";
     created_at := created_at job;
     updated_at := started;
     job_input := job_input job;
     job_max_results := job_max_results job;
     job_verbose := job_verbose job;
     progress := progress job;
     logs := logs job ++ [lit "Job created"];
     results := results job;
     error := error job |}.

(** [job.logs.append(line)] *)
Definition log_line (line : pystr) (job : JobState) : JobState :=
  {| id := id job;
     status := status job;
     created_at := created_at job;
     updated_at := updated_at job;
     job_input := job_input job;
     job_max_results := job_max_results job;
     job_verbose := job_verbose job;
     progress := progress job;
     logs := logs job ++ [line];
     results := results job;
     error := error job |}.

(** The handler [except Exception as e]. *)
Definition failed (finished e : pystr) (job : JobState) : JobState :=
  {| id := id job;
     status := lit "failed";
     created_at := created_at job;
     updated_at := finished;
     job_input := job_input job;
     job_max_results := job_max_results job;
     job_verbose := job_verbose job;
     progress := progress job;
     logs := logs job ++ [lit "Error: " ++ e];
     results := results job;
     error := Some e |}.

(** The end of the [try] block. *)
Definition completed (finished final_report : pystr) (job : JobState)
    : JobState :=
  {| id := id job;
     status := lit "completed";
     created_at := created_at job;
     updated_at := finished;
     job_input := job_input job;
     job_max_results := job_max_results job;
     job_verbose := job_verbose job;
     progress := 100.0;
     logs := logs job ++ [lit "Workflow completed"];
     results := Some final_report;
     error := error job |}.

(** [_run_workflow_background] on the [jobs] dictionary; [started] and
    [finished] are the two readings of [datetime.utcnow().isoformat()].
    [None] is the [KeyError] of [jobs[job_id]]. *)
Definition _run_workflow_background (started finished : pystr)
    (outcome : Outcome) (job_id : pystr) (jobs : gmap pystr JobState)
    : option (gmap pystr JobState) :=
  match jobs !! job_id with
  | None => None
  | Some job =>
      let job := running started job in
      Some (<[ job_id :=
                 match outcome with
                 | ConstructorRaised e => failed finished e job
                 | WorkflowRaised e =>
                     failed finished e
                            (log_line (lit "Workflow initialized") job)
                 | WorkflowReturned final_report =>
                     completed finished final_report
                               (log_line (lit "Workflow initialized") job)
                 end ]> jobs)
  end.

Definition job_not_found : HTTPException :=
  {| status_code := 404; detail := lit "job not found" |}.

(** [api_status] *)
Definition api_status (job_id : pystr) (jobs : gmap pystr JobState)
    : HTTPException + JobState :=
  match jobs !! job_id with
  | None => inl job_not_found
  | Some job => inr job
  end.

(** A [PlainTextResponse]. *)
Record PlainTextResponse := mkPlainTextResponse {
  response_status : Z;
  body : pystr
}.

(** [api_report] *)
Definition api_report (job_id : pystr) (jobs : gmap pystr JobState)
    : HTTPException + PlainTextResponse :=
  match jobs !! job_id with
  | None => inl job_not_found
  | Some job =>
      match results job with
      | Some (c :: report) =>
          inr {| response_status := 200; body := c :: report |}
      | _ =>
          inr {| response_status := 404;
                 body := lit "Report not available" |}
      end
  end.

(** [api_logs]: the entries logs, status and progress of its answer. *)
Definition api_logs (job_id : pystr) (jobs : gmap pystr JobState)
    : HTTPException + (list pystr * pystr * float) :=
  match jobs !! job_id with
  | None => inl job_not_found
  | Some job => inr (logs job, status job, progress job)
  end.

(** [api_results]; the results are kept as their final report, as in
    [JobState]. *)
Definition api_results (job_id : pystr) (jobs : gmap pystr JobState)
    : HTTPException + pystr :=
  match jobs !! job_id with
  | None => inl job_not_found
  | Some job =>
      match results job with
      | None =>
          inl {| status_code := 404; detail := lit "results not available" |}
      | Some r => inr r
      end
  end.

End ApiJobs.

(** ** main.py: the results of a run *)

(** The dictionary of [_prepare_final_results]. *)
Record FinalResults := mkFinalResults {
  fr_user_input : pystr;
  scraped_data_count : nat;
  cleaned_data_count : nat;
  report_generated : bool;
  fr_final_report : option pystr;
  final_report_preview : option pystr;
  workflow_status : pystr;
  timestamp : pystr
}.

(** [ManusCloneWorkflow._prepare_final_results]; [now] is
    [datetime.now().isoformat()]. *)
Definition _prepare_final_results (now : pystr) (self : Pipeline.Workflow)
    : FinalResults :=
  {| fr_user_input := Pipeline.user_input self;
     scraped_data_count := length (Pipeline.wf_scraped_data self);
     cleaned_data_count :=
       match Pipeline.cleaned_data self with
       | Some df => df_len df
       | None => 0
       end;
     report_generated :=
       match Pipeline.final_report self with
       | Some _ => true
       | None => false
       end;
     fr_final_report := Pipeline.final_report self;
     final_report_preview :=
       match Pipeline.final_report self with
       | Some report =>
           if str_truthy report && (300 <? length report)
           then Some (take 300 report ++ lit "...")
           else Some report
       | None => None
       end;
     workflow_status := lit "completed";
     timestamp := now |}.

(** ** agents/report_generator.py: the analysis read from plain text *)

(** [s.split(sep)] for a separator of one code point, the current piece
    carried in [cur]. *)
Fixpoint split_from (sep : codepoint) (cur s : pystr) : list pystr :=
  match s with
  | [] => [cur]
  | c :: rest =>
      if (c =? sep)%N then cur :: split_from sep [] rest
      else split_from sep (cur ++ [c]) rest
  end.
Definition str_split (sep : codepoint) (s : pystr) : list pystr :=
  split_from sep [] s.

Inductive AnalysisSection := InsightsSection | TrendsSection
                           | RecommendationsSection.

(** The locals of [_parse_ai_response_manually]. *)
Record ManualState := mkManualState {
  insights : list pystr;
  trends : list pystr;
  recommendations : list pystr;
  current_section : option AnalysisSection
}.

(** The dictionary it returns. *)
Record Analysis := mkAnalysis {
  key_insights : list pystr;
  an_trends : list pystr;
  an_recommendations : list pystr
}.

Section ManualAnalysis.
Variable lower : pystr -> pystr.

(** The body of the loop over the lines. *)
Definition manual_line (st : ManualState) (raw : pystr) : ManualState :=
  let line := strip raw in
  let enter s :=
    {| insights := insights st; trends := trends st;
       recommendations := recommendations st; current_section := Some s |} in
  if contains (lit "insight") (lower line) || contains (lit "key") (lower line)
  then enter InsightsSection
  else if contains (lit "trend") (lower line)
  then enter TrendsSection
  else if contains (lit "recommendation") (lower line)
          || contains (lit "suggestion") (lower line)
  then enter RecommendationsSection
  else if startswith (lit "-") line || startswith [bullet] line
          || startswith (lit "*") line
  then
    let item := strip (drop 1 line) in
    match current_section st with
    | Some InsightsSection =>
        {| insights := insights st ++ [item]; trends := trends st;
           recommendations := recommendations st;
           current_section := current_section st |}
    | Some TrendsSection =>
        {| insights := insights st; trends := trends st ++ [item];
           recommendations := recommendations st;
           current_section := current_section st |}
    | Some RecommendationsSection =>
        {| insights := insights st; trends := trends st;
           recommendations := recommendations st ++ [item];
           current_section := current_section st |}
    | None => st
    end
  else st.

(** [xs[:n] if xs else [default]] *)
Definition first_or (n : nat) (default : pystr) (xs : list pystr)
    : list pystr :=
  match xs with
  | [] => [default]
  | _ :: _ => take n xs
  end.

(** [ReportGeneratorAgent._parse_ai_response_manually] *)
Definition _parse_ai_response_manually (content : pystr) : Analysis :=
  let st := fold_left manual_line (str_split 10%N content)
              {| insights := []; trends := []; recommendations := [];
                 current_section := None |} in
  {| key_insights :=
       first_or 3 (lit "Data analysis completed") (insights st);
     an_trends :=
       first_or 2 (lit "No specific trends identified") (trends st);
     an_recommendations :=
       first_or 2 (lit "Consider expanding your search criteria")
                (recommendations st) |}.
End ManualAnalysis.

(** ** scrapers/linkedin_scraper.py: the skills of a profile *)

(** The list [common_skills] of [_extract_skills_from_text]. *)
Definition common_skills : list pystr :=
  [ lit "python"; lit "javascript"; lit "java"; lit "react"; lit "node.js";
    lit "sql"; lit "aws"; lit "machine learning"; lit "ai";
    lit "data analysis"; lit "project management"; lit "agile"; lit "scrum";
    lit "marketing"; lit "sales"; lit "design"; lit "ui/ux"; lit "html";
    lit "css"; lit "typescript"; lit "angular"; lit "vue"; lit "docker";
    lit "kubernetes"; lit "git"; lit "github"; lit "jenkins"; lit "jira";
    lit "confluence"; lit "slack"; lit "zoom"; lit "excel"; lit "powerpoint";
    lit "word"; lit "photoshop"; lit "illustrator"; lit "figma";
    lit "tableau"; lit "power bi"; lit "r"; lit "matlab"; lit "tensorflow";
    lit "pytorch"; lit "scikit-learn"; lit "pandas"; lit "numpy";
    lit "matplotlib"; lit "seaborn" ].

Section ProfileSkills.
Variable lower : pystr -> pystr.

(** [LinkedInScraper._extract_skills_from_text] *)
Definition _extract_skills_from_text (text : pystr) : gset pystr :=
  list_to_set
    (List.filter (fun skill => contains (lower skill) (lower text))
                 common_skills).

(** [if v: skills.update(self._extract_skills_from_text(v))]; [None] is
    the [AttributeError] of a value without [lower]. *)
Definition skills_of_field (v : PyVal) : option (gset pystr) :=
  if py_truthy v then
    match v with
    | PStr text => Some (_extract_skills_from_text text)
    | _ => None
    end
  else Some ∅.

(** The body of the loop over [experience]; an entry that is not a
    dictionary has no [get]. *)
Definition skills_of_experience (exp : PyVal) : option (gset pystr) :=
  match exp with
  | PDict members => skills_of_field (get_default members (lit "title") (PStr []))
  | _ => None
  end.

(** [LinkedInScraper._extract_skills_from_data]: the skills, which the
    source returns as a list in the order of iteration of a set; [None]
    when the method raises. *)
Definition _extract_skills_from_data (raw_data : pydict)
    : option (gset pystr) :=
  from_headline ← skills_of_field (get_default raw_data (lit "headline") (PStr []));
  from_about ← skills_of_field (get_default raw_data (lit "about") (PStr []));
  from_experience ←
    match get_default raw_data (lit "experience") (PList []) with
    | PList items => mapM skills_of_experience items
    | PStr [] | PDict [] => Some []
    | _ => None
    end;
  Some (from_headline ∪ from_about ∪ ⋃ from_experience).
End ProfileSkills.
(** The sets of skills that are made of common skills and hold, with a
    skill, every common skill whose name occurs in its name. *)
Definition skills_closed (lower : pystr -> pystr) (skills : gset pystr)
    : Prop :=
  (forall s, s ∈ skills -> s ∈ common_skills) /\
  (forall a b, a ∈ common_skills -> b ∈ skills ->
               contains (lower a) (lower b) = true -> a ∈ skills).

(** ** agents/user_requirement_analysis.py *)

Module UserRequirementAnalysis.

(** [class SearchTerm(BaseModel)] *)
Record SearchTerm := mkSearchTerm {
  term_type : pystr;
  term_value : pystr;
  term_priority : Z
}.

(** [class TargetWebsite(BaseModel)] *)
Record TargetWebsite := mkTargetWebsite {
  site_name : pystr;
  site_url : pystr;
  site_priority : Z
}.

(** [class ReportFormat(BaseModel)] *)
Record ReportFormat := mkReportFormat {
  format_type : pystr;
  include_charts : bool;
  include_summary : bool
}.

(** [class ParsedRequest(BaseModel)] *)
Record ParsedRequest := mkParsedRequest {
  search_terms : list SearchTerm;
  target_websites : list TargetWebsite;
  pr_report_format : ReportFormat;
  pr_max_results : Z;
  include_contact_info : bool
}.

Definition job_roles : list pystr :=
  [ lit "software engineer"; lit "data scientist"; lit "product manager";
    lit "designer"; lit "marketing manager"; lit "sales representative";
    lit "analyst"; lit "developer"; lit "architect"; lit "consultant";
    lit "manager"; lit "director"; lit "vp"; lit "ceo" ].

Definition skills : list pystr :=
  [ lit "python"; lit "javascript"; lit "java"; lit "react"; lit "node.js";
    lit "sql"; lit "aws"; lit "machine learning"; lit "ai";
    lit "data analysis"; lit "project management"; lit "agile"; lit "scrum";
    lit "marketing"; lit "sales"; lit "design"; lit "ui/ux" ].

Definition locations : list pystr :=
  [ lit "san francisco"; lit "new york"; lit "london"; lit "seattle";
    lit "austin"; lit "boston"; lit "chicago"; lit "los angeles";
    lit "remote"; lit "hybrid"; lit "onsite" ].

(** The three patterns of [_extract_max_results], as the raw strings of
    the source spell them. *)
Definition max_results_patterns : list pystr :=
  [ lit "(\d+)\s*(?:results?|profiles?|people)";
    lit "find\s+(\d+)\s*";
    lit "get\s+(\d+)\s*" ].

Definition contact_indicators : list pystr :=
  [ lit "contact"; lit "email"; lit "phone"; lit "reach out"; lit "connect";
    lit "contact information"; lit "contact details" ].

Section Agent.
Variable lower : pystr -> pystr.
(** [re.search(pattern, string)]: [match.group(1)], or [None]. *)
Variable re_search_group : pystr -> pystr -> option pystr.
(** [int(s)]; [None] when it raises. *)
Variable py_int : pystr -> option Z.

(** One of the three loops of [_extract_search_terms]. *)
Definition terms_of (type : pystr) (priority : Z) (words : list pystr)
    (user_input : pystr) : list SearchTerm :=
  List.map (fun w => {| term_type := type; term_value := w;
                        term_priority := priority |})
           (List.filter (fun w => contains (lower w) (lower user_input))
                        words).

(** [_extract_search_terms] *)
Definition _extract_search_terms (user_input : pystr) : list SearchTerm :=
  match terms_of (lit "role") 3 job_roles user_input
        ++ terms_of (lit "skill") 2 skills user_input
        ++ terms_of (lit "location") 4 locations user_input
  with
  | [] => [ {| term_type := lit "general"; term_value := user_input;
               term_priority := 1 |} ]
  | search_terms => search_terms
  end.

(** [_determine_target_websites] *)
Definition _determine_target_websites (user_input : pystr)
    : list TargetWebsite :=
  [ {| site_name := lit "LinkedIn"; site_url := lit "https://www.linkedin.com";
       site_priority := 1 |} ]
  ++ (if any_in [lit "indeed"; lit "job board"] (lower user_input)
      then [ {| site_name := lit "Indeed";
                site_url := lit "https://www.indeed.com";
                site_priority := 2 |} ]
      else [])
  ++ (if any_in [lit "glassdoor"; lit "reviews"] (lower user_input)
      then [ {| site_name := lit "Glassdoor";
                site_url := lit "https://www.glassdoor.com";
                site_priority := 3 |} ]
      else []).

(** [_determine_report_format] *)
Definition _determine_report_format (user_input : pystr) : ReportFormat :=
  {| format_type :=
       if contains (lit "json") (lower user_input) then lit "json"
       else if contains (lit "csv") (lower user_input) then lit "csv"
       else lit "markdown";
     include_charts :=
       negb (contains (lit "no charts") (lower user_input)
             || contains (lit "without charts") (lower user_input));
     include_summary :=
       negb (contains (lit "no summary") (lower user_input)
             || contains (lit "without summary") (lower user_input)) |}.

(** The loop of [_extract_max_results]: the group of the first pattern
    that matches. *)
Fixpoint first_group (patterns : list pystr) (s : pystr) : option pystr :=
  match patterns with
  | [] => None
  | pattern :: rest =>
      match re_search_group pattern s with
      | Some group => Some group
      | None => first_group rest s
      end
  end.

(** [_extract_max_results]; [None] when [int] raises. *)
Definition _extract_max_results (user_input : pystr) : option Z :=
  match first_group max_results_patterns (lower user_input) with
  | Some group => n ← py_int group; Some (Z.min n 50)
  | None => Some 10%Z
  end.

(** [_extract_contact_info_preference] *)
Definition _extract_contact_info_preference (user_input : pystr) : bool :=
  any_in contact_indicators (lower user_input).

(** [parse_request]; [None] when it raises. *)
Definition parse_request (user_input : pystr) : option ParsedRequest :=
  let search_terms := _extract_search_terms user_input in
  let target_websites := _determine_target_websites user_input in
  let report_format := _determine_report_format user_input in
  max_results ← _extract_max_results user_input;
  Some {| search_terms := search_terms;
          target_websites := target_websites;
          pr_report_format := report_format;
          pr_max_results := max_results;
          include_contact_info :=
            _extract_contact_info_preference user_input |}.
End Agent.
End UserRequirementAnalysis.

(** ** agents/task_executor.py: one web search *)

(** Truth value of a parsed JSON value. *)
Definition json_truthy (v : JSON) : bool :=
  match v with
  | JNull => false
  | JBool b => b
  | JNumber x => negb (PrimFloat.eqb x 0)
  | JString s => str_truthy s
  | JArray items => match items with [] => false | _ :: _ => true end
  | JObject members => match members with [] => false | _ :: _ => true end
  end.

(** [item.get(key, '')] *)
Definition item_get (members : list (pystr * JSON)) (key : pystr) : JSON :=
  match members_get members key with
  | Some v => v
  | None => JString []
  end.

(** [n or default] on integers. *)
Definition or_else (n default : Z) : Z :=
  if (n =? 0)%Z then default else n.

(** The results built from the sections of a response when the JSON
    block gives none. *)
Definition section_results (parsed : Sections) (max_results : Z)
    : list SearchResult :=
  List.map (fun u => {| title := u; url := u;
                        snippet := take 160 (answer parsed);
                        source := lit "web"; relevance_score := 0.6 |})
           (py_take (or_else max_results 3) (sources parsed))
  ++ List.map (fun u => {| title := u; url := u;
                           snippet := lit "LinkedIn profile";
                           source := lit "web"; relevance_score := 0.7 |})
              (py_take (or_else max_results 3) (linkedin_profiles parsed)).

Section WebSearch.
Variable lower : pystr -> pystr.
Variable re_search : pystr -> pystr -> option pystr.
Variable json_loads : pystr -> option JSON.
Variable re_findall : pystr -> pystr -> list pystr.
(** The validation of a [str] field of [SearchResult] for a value that
    is not a string: the string it is turned into, or [None] when the
    validation raises. *)
Variable coerce_str : JSON -> option pystr.
(** The hosted model asked for a query, on the first attempt (0) and on
    the second (1): the content of its message, or [None] when the call
    or the reading of the content raises. *)
Variable llm_search : pystr -> nat -> option pystr.

Definition str_field (v : JSON) : option pystr :=
  match v with
  | JString s => Some s
  | _ => coerce_str v
  end.

(** [SearchResult(title=item.get('title', '') or item.get('url', ''), ...)];
    [None] when [item] has no [get] or the validation raises. *)
Definition json_result (item : JSON) : option SearchResult :=
  match item with
  | JObject members =>
      let t := item_get members (lit "title") in
      let u := item_get members (lit "url") in
      title ← str_field (if json_truthy t then t else u);
      url ← str_field u;
      snippet ← str_field (item_get members (lit "snippet"));
      Some {| title := title; url := url; snippet := snippet;
              source := lit "web"; relevance_score := 0.7 |}
  | _ => None
  end.

(** The body of the [try] block once the content is read: the sections
    merged into the search context and the results returned, or [None]
    when the block raises. *)
Definition search_attempt (content : pystr) (max_results : Z)
    : Sections * option (list SearchResult) :=
  let parsed := _parse_structured_search_response lower content in
  let json_results := _extract_results_json re_search json_loads content in
  (parsed,
   results ← mapM json_result (py_take (or_else max_results 5) json_results);
   let results := match results with
                  | [] => section_results parsed max_results
                  | _ :: _ => results
                  end in
   match List.filter (fun r => str_truthy (url r)) results with
   | [] => Some (_extract_search_results_from_text re_findall content 3)
   | (_ :: _) as results => Some results
   end).

(** [TaskExecutorAgent._execute_web_search_with_retry], with its two
    attempts: the sections merged into the search context, in order, and
    the results returned. *)
Definition _execute_web_search_with_retry (query : pystr) (max_results : Z)
    : list Sections * list SearchResult :=
  let second merged :=
    match llm_search query 1 with
    | Some content =>
        let '(parsed, results) := search_attempt (strip content) max_results in
        (merged ++ [parsed], default [] results)
    | None => (merged, [])
    end in
  match llm_search query 0 with
  | Some content =>
      let '(parsed, results) := search_attempt (strip content) max_results in
      match results with
      | Some results => ([parsed], results)
      | None => second [parsed]
      end
  | None => second []
  end.
End WebSearch.

(** ** agents/task_executor.py: the record of an enriched URL *)

(** [x or default] on a value read from a dictionary ([None] when the key
    is missing). *)
Definition json_or (v : option JSON) (default : JSON) : JSON :=
  match v with
  | Some v => if json_truthy v then v else default
  | None => default
  end.

(** [summary[:300] + ("..." if len(summary) > 300 else "")] *)
Definition cut_summary (summary : pystr) : pystr :=
  take 300 summary ++ (if 300 <? length summary then lit "..." else []).

Section Enrichment.
(** The hosted model asked about a URL: the content of its message, or
    [None] when the call or the reading of the content raises. *)
Variable llm_enrich : pystr -> option pystr.
(** [json.loads]; [None] when it raises [JSONDecodeError]. *)
Variable json_loads : pystr -> option JSON.
(** The validation of a [str] field of [ScrapedData] for a value that is
    not a string: the string it is turned into, or [None] when the
    validation raises. *)
Variable coerce_str : JSON -> option pystr.
(** [time.strftime('%Y-%m-%d %H:%M:%S')] *)
Variable now : pystr.

(** [TaskExecutorAgent._enrich_url_with_llm]: the dictionary returned, or
    [None]. An answer that parses as JSON but is no object falls out of
    the inner [try] block, and the function returns [None]; an answer that
    does not parse is wrapped, with the host of the URL for a title. *)
Definition _enrich_url_with_llm (url : pystr)
    : option (list (pystr * JSON)) :=
  match llm_enrich url with
  | None => None
  | Some content =>
      let content := strip content in
      match json_loads content with
      | Some (JObject data) => Some data
      | Some _ => None
      | None =>
          Some [ (lit "title",
                  JString (if contains (lit "://") url
                           then nth 2 (str_split 47%N url) []
                           else url));
                 (lit "summary", JString content) ]
      end
  end.

(** The body of the [try] block of the loop of [_scrape_other_websites]:
    the record appended for [url], or [None] when the block raises (a
    summary that is no string cannot be sliced and joined to a string, and
    the validation of the name may refuse a title that is no string). *)
Definition enriched_record (url : pystr) : option Scraped.ScrapedData :=
  let enriched := default [] (_enrich_url_with_llm url) in
  let title := json_or (members_get enriched (lit "title")) (JString url) in
  let summary :=
    json_or (members_get enriched (lit "summary")) (JString []) in
  match summary with
  | JString summary =>
      name ← str_field coerce_str title;
      Some {| Scraped.profile_url := url;
              Scraped.name := name;
              Scraped.headline := [];
              Scraped.location := [];
              Scraped.summary := cut_summary summary;
              Scraped.experience := [];
              Scraped.skills := [];
              Scraped.education := [];
              Scraped.contact_info := [];
              Scraped.scraped_at := now;
              Scraped.source := lit "Compound-Beta" |}
  | _ => None
  end.
End Enrichment.

(* ===================================================================== *)
(** * Functions used to state the theorems *)
(* ===================================================================== *)

(** A result as [_execute_web_search_with_retry] builds it from a JSON item. *)
Definition web_result (u t : String.string) : SearchResult :=
  mkSearchResult (lit t) (lit u) [] (lit "web") 0.7%float.

(** The dictionary [report_format] of [_step_report_generation] ([False]
    and [True] are the numbers 0 and 1). *)
Definition workflow_report_format : pydict :=
  [ (lit "include_charts", PNum 0%float);
    (lit "include_summary", PNum 1%float);
    (lit "format", PStr (lit "markdown")) ].

(** The report of a run without data. *)
Definition no_data_report : pystr :=
  lit "# No Data Report" ++ newline ++ newline
  ++ lit "No data was available for analysis.".

(** A run on which the model is evaluated: the request "what is rocq",
    a hosted model that gives no query list (the fall-back queries are
    used) and answers each search with one source, a template engine that
    returns a fixed text. *)
Module SampleRun.
Definition input : pystr := lit "what is rocq".

Definition web_search (query : pystr) (bound : Z)
    : list Sections * list SearchResult :=
  ([ {| answer := lit "Rocq is a proof assistant.";
        sources := [lit "https://rocq-prover.org"];
        linkedin_profiles := [] |} ],
   [ web_result "https://rocq-prover.org" "Rocq" ]).

Definition run : Pipeline.Workflow * Trace :=
  Pipeline.execute_workflow ascii_lower (fun _ _ => [])
    (fun _ _ => None) web_search (fun _ => None) (fun _ => None)
    (fun _ _ => PDict [(lit "key_insights", PList [])])
    (fun _ => inl (lit "Research Report")) (fun _ => [])
    (lit "2026-01-01 00:00:00") input 10 Pipeline.Workflow_init.
End SampleRun.

(** What the loop appends, as a function of the URLs seen so far. *)
Fixpoint kept_from (seen : gset pystr) (results : list SearchResult)
    : list SearchResult :=
  match results with
  | [] => []
  | r :: rest =>
      if decide (url r = []) then r :: kept_from seen rest
      else if decide (url r ∈ seen) then kept_from seen rest
      else r :: kept_from ({[ url r ]} ∪ seen) rest
  end.

(** The number of units of 2^-1074 second a binary64 value stands for (0
    for infinities and NaN): every finite binary64 number is a whole
    number of them. *)
Definition units_of (f : spec_float) : Z :=
  match f with
  | S754_finite s m e =>
      (if s then -1 else 1) * Z.pos m * 2 ^ (e + 1074)
  | _ => 0
  end.
Definition float_units (x : float) : Z := units_of (Prim2SF x).

(** The number a finite binary64 value stands for, in seconds. *)
Definition float_value (x : float) : Q := float_units x # 2 ^ 1074.


(** A string made of white space only (the empty string included). *)
Definition blank (s : pystr) : Prop := Forall (fun c => isspace c = true) s.

(** The specification of the two parsers of a search response: the lists
    of links and the results, stated over the stripped lines of the
    response with the operations of Python strings and lists only. *)





Section ParserSpec.
Variable lower : pystr -> pystr.








End ParserSpec.



(** The strings of a column. *)
Definition only_strings (col : list PyVal) : list pystr :=
  omap (fun v => match v with PStr h => Some h | _ => None end) col.

(** The number of headlines of a level. *)
Definition tally (lower : pystr -> pystr) (l : Level) (hs : list pystr)
    : nat :=
  length (List.filter (fun h => bool_decide (level_of lower h = l)) hs).

(** A table whose 'experience' cell is missing. *)
Definition missing_experience : DataFrame :=
  {| columns := [lit "headline"; lit "experience"];
     rows := [[ (lit "headline", PStr (lit "Senior Engineer"));
                (lit "experience", PNone) ]] |}.

(** A template engine that prints every chart it is given, to observe
    what reaches it. *)
Definition render_with_charts (ctx : ReportContext) : pystr + pystr :=
  inl (lit "Research Report" ++ concat (List.map chart_data (charts ctx))).

(** [result] is [old] followed by the entries of [new] that are not
    empty and not in [old], each once, in the order of [new]. *)
Definition merged_into (old new result : list pystr) : Prop :=
  exists added,
    result = old ++ added /\
    sublist added new /\
    NoDup added /\
    (forall u, u ∈ added <-> u ∈ new /\ u <> [] /\ u ∉ old).

(** [new] is [old] followed by at most [n] more records. *)
Definition appended_at_most (n : nat) (old new : list Scraped.ScrapedData)
    : Prop :=
  exists added, new = old ++ added /\ length added <= n.

(** The number of invocations of a component in a trace. *)
Definition invocations (c : Component) (t : Trace) : nat :=
  length (List.filter (fun d => bool_decide (d = c)) t).

(** [n] searches, each followed by the write of its response. *)
Definition searches (n : nat) : Trace :=
  concat (replicate n [WebSearchExecutor; FilePersistence SearchResponse]).

(** The search phase a task type requires: the components invoked, in
    the order of their invocation.
    - A LinkedIn search: the query generator; the searches for its
      queries, two at most; then either one session of the LinkedIn
      scraper, or the two searches restricted to the site and one session
      at most; the URL enrichments.
    - A web-only run: the query generator, the searches for its queries,
      one session of the LinkedIn scraper at most.
    - A web search: the query generator, the searches for its queries,
      the URL enrichments.
    - A scraping request that names pages ([names_pages]): sessions of
      the LinkedIn scraper and nothing else; one that names none: the
      components of a web search. *)
Inductive search_phase (names_pages : bool) : pystr -> Trace -> Prop :=
| phase_linkedin_found (q e : nat) :
    q <= 2 ->
    search_phase names_pages (lit "linkedin_search")
      (QueryGenerator :: searches q ++ [LinkedInScraper]
       ++ replicate e UrlEnrichment)
| phase_linkedin_second (q s e : nat) :
    q <= 2 -> s <= 1 ->
    search_phase names_pages (lit "linkedin_search")
      (QueryGenerator :: searches q ++ searches 2
       ++ replicate s LinkedInScraper ++ replicate e UrlEnrichment)
| phase_web_only (q s : nat) :
    q <= 2 -> s <= 1 ->
    search_phase names_pages (lit "web_only")
      (QueryGenerator :: searches q ++ replicate s LinkedInScraper)
| phase_web_search (q e : nat) :
    q <= 2 ->
    search_phase names_pages (lit "web_search")
      (QueryGenerator :: searches q ++ replicate e UrlEnrichment)
| phase_scraping_named (s : nat) :
    names_pages = true ->
    search_phase names_pages (lit "data_scraping")
      (replicate s LinkedInScraper)
| phase_scraping_generic (q e : nat) :
    q <= 2 -> names_pages = false ->
    search_phase names_pages (lit "data_scraping")
      (QueryGenerator :: searches q ++ replicate e UrlEnrichment).

(** The results [_execute_web_only] turns into minimal entries: those
    with a URL that is not a profile URL. *)
Definition plain_link (r : SearchResult) : bool :=
  str_truthy (url r) && negb (is_linkedin_url (url r)).
(** Every task of the tracker is filed under its own id, and no id is
    filed twice. *)
Definition well_keyed (self : TaskUpdater.TaskUpdaterAgent) : Prop :=
  NoDup (List.map fst (TaskUpdater.tasks self)) /\
  Forall (fun kv => TaskUpdater.task_id (snd kv) = fst kv)
         (TaskUpdater.tasks self).
(** The line mentions one of the words that open a section. *)
Definition names_section (lower : pystr -> pystr) (line : pystr) : bool :=
  contains (lit "insight") (lower line) || contains (lit "key") (lower line)
  || contains (lit "trend") (lower line)
  || contains (lit "recommendation") (lower line)
  || contains (lit "suggestion") (lower line).

(** [item] is the text of a bullet line of [content] that mentions none
    of those words. *)
Definition reported_item (lower : pystr -> pystr) (content item : pystr)
    : Prop :=
  exists raw,
    raw ∈ str_split 10%N content /\
    names_section lower (strip raw) = false /\
    (startswith (lit "-") (strip raw) || startswith [bullet] (strip raw)
     || startswith (lit "*") (strip raw)) = true /\
    item = strip (drop 1 (strip raw)).

(** A list of the analysis: the default alone, or between one and [n]
    reported items. *)
Definition analysis_list (lower : pystr -> pystr) (content : pystr)
    (n : nat) (default : pystr) (items : list pystr) : Prop :=
  1 <= length items <= n /\
  (items = [default] \/ Forall (reported_item lower content) items).

(** A search phase on which the model is evaluated: the request
    "what is rocq" with at most one result asked for, a hosted model that
    gives no query list, a search that answers each query with a profile
    and a page, a browser that scrapes every profile. *)
Module SampleSearch.
Definition web_search (query : pystr) (bound : Z)
    : list Sections * list SearchResult :=
  ([], [ web_result "https://www.linkedin.com/in/ada" "Ada";
         web_result "https://rocq-prover.org" "Rocq" ]).

Definition scrape_profile (u : pystr) : option Scraped.ScrapedData :=
  Some {| Scraped.profile_url := u;
          Scraped.name := lit "Ada";
          Scraped.headline := lit "Engineer";
          Scraped.location := [];
          Scraped.summary := [];
          Scraped.experience := [];
          Scraped.skills := [];
          Scraped.education := [];
          Scraped.contact_info := [];
          Scraped.scraped_at := [];
          Scraped.source := lit "LinkedIn" |}.

Definition executed : Pipeline.Executor * Trace :=
  Pipeline.execute_tasks ascii_lower (fun _ _ => []) (fun _ _ => None)
    web_search scrape_profile (fun _ => None) (lit "2026-01-01 00:00:00")
    (lit "what is rocq") 1 Pipeline.Executor_init.
End SampleSearch.

(** A run on a request that names a page: "scrape https://example.com/page",
    with a [re.findall] that finds the link. *)
Module SampleScrape.
Definition input : pystr := lit "scrape https://example.com/page".

Definition re_findall (pattern s : pystr) : list pystr :=
  [lit "https://example.com/page"].

Definition run : Pipeline.Workflow * Trace :=
  Pipeline.execute_workflow ascii_lower re_findall (fun _ _ => None)
    SampleRun.web_search (fun _ => None) (fun _ => None)
    (fun _ _ => PNone) (fun _ => inl (lit "Research Report")) (fun _ => [])
    (lit "2026-01-01 00:00:00") input 10 Pipeline.Workflow_init.
End SampleScrape.

(** A request to the API and the server that receives it. *)
Module SampleJob.
Definition req : ApiServer.RunRequest :=
  {| ApiServer.input := lit "  find rocq users ";
     ApiServer.max_results := 0;
     ApiServer.verbose := true |}.

Definition srv : ApiServer.Server :=
  {| ApiServer.jobs := ∅; ApiServer.scheduled := [] |}.

Definition queued : gmap pystr ApiServer.JobState :=
  ApiServer.jobs
    (snd (ApiServer.api_run (lit "0123456789ab") (lit "2026-01-01T00:00:00")
            req srv)).
End SampleJob.

(** A table of two records, one of them a profile. *)
Definition two_sources : DataFrame :=
  {| columns := [lit "name"; lit "summary"; lit "source"];
     rows := [ [ (lit "name", PStr (lit "Ada"));
                 (lit "summary", PStr (lit "Engineer"));
                 (lit "source", PStr (lit "LinkedIn")) ];
               [ (lit "name", PStr (lit "Rocq"));
                 (lit "summary", PStr (lit "A proof assistant"));
                 (lit "source", PStr (lit "Compound-Beta")) ] ] |}.

(** The results a search may return for a bound: at most [limit] of
    them, all from the source 'web'. *)
Definition web_results (limit : Z) (results : list SearchResult) : Prop :=
  (Z.of_nat (length results) <= limit)%Z /\
  Forall (fun r => source r = lit "web") results.

(** The number of results one search returns at most for a bound that
    is not negative: a bound of 0 is read as no bound given. *)
Definition search_limit (max_results : Z) : Z :=
  if (max_results =? 0)%Z then 6 else Z.max (2 * max_results) 3.

(** A search on which the model is evaluated: the hosted model answers
    with a RESULTS_JSON block of six results. *)
Module SampleWebSearch.
Definition item (u : String.string) : JSON :=
  JObject [ (lit "title", JString []); (lit "url", JString (lit u));
            (lit "snippet", JString (lit "text")) ].

Definition json_loads (s : pystr) : option JSON :=
  Some (JObject [ (lit "results",
                   JArray [ item "https://a.example"; item "https://b.example";
                            item "https://c.example"; item "https://d.example";
                            item "https://e.example";
                            item "https://f.example" ]) ]).

Definition search (max_results : Z) : list Sections * list SearchResult :=
  _execute_web_search_with_retry ascii_lower (fun _ _ => Some (lit "{"))
    json_loads (fun _ _ => []) (fun _ => None)
    (fun _ _ => Some (lit "RESULTS_JSON")) (lit "rocq") max_results.
End SampleWebSearch.


(** Search results on which the enrichment is evaluated: three pages and
    a profile; the hosted model fails on the first page and answers the
    others with plain text. *)
Module SampleEnrichment.
Definition executor : Pipeline.Executor :=
  {| Pipeline.search_results :=
       [ web_result "https://a.example/x" "A";
         web_result "https://www.linkedin.com/in/ada" "Ada";
         web_result "https://b.example" "B";
         web_result "https://c.example" "C" ];
     Pipeline.scraped_data := [];
     Pipeline.last_search_context :=
       Pipeline.last_search_context Pipeline.Executor_init |}.

Definition llm_enrich (u : pystr) : option pystr :=
  if bool_decide (u = lit "https://a.example/x") then None
  else Some (lit " A page. ").
End SampleEnrichment.

(* ===================================================================== *)
(** * Theorems *)
(* ===================================================================== *)

Lemma startswith_spec (p s : pystr) :
  startswith p s = true <-> exists rest, s = p ++ rest.
Proof.
  revert s. induction p as [|a p IH]; intros s; simpl.
  - split; [intros _; by exists s | done].
  - destruct s as [|b s].
    + split; [done | intros [r Hr]; discriminate].
    + rewrite andb_true_iff, N.eqb_eq, IH. split.
      * intros [-> [r ->]]. by exists r.
      * intros [r Hr]. injection Hr as -> ->. split; [done | by exists r].
Qed.

Lemma contains_spec (sub s : pystr) :
  contains sub s = true <-> occurs_in sub s.
Proof.
  unfold occurs_in. induction s as [|b s IH].
  - simpl. rewrite orb_false_r, startswith_spec. split.
    + intros [r Hr]. by exists [], r.
    + intros (pre & post & H). symmetry in H.
      apply app_eq_nil in H as [-> H]. exists post. by rewrite H.
  - cbn [contains]. rewrite orb_true_iff, IH, startswith_spec. split.
    + intros [[r Hr] | (pre & post & ->)].
      * by exists [], r.
      * by exists (b :: pre), post.
    + intros (pre & post & H). destruct pre as [|c pre].
      * left. by exists post.
      * right. injection H as -> ->. by exists pre, post.
Qed.

Lemma any_in_spec (words : list pystr) (s : pystr) :
  any_in words s = true <-> exists w, In w words /\ occurs_in w s.
Proof.
  unfold any_in. rewrite existsb_exists.
  split; intros (w & Hw & H); exists w; split; auto; by apply contains_spec.
Qed.

Lemma any_in_false (words : list pystr) (s : pystr) :
  any_in words s = false <-> ~ exists w, In w words /\ occurs_in w s.
Proof. rewrite <- any_in_spec. by destruct (any_in words s). Qed.

Lemma any_in_ext (words : list pystr) (s t : pystr) :
  (forall w, In w words -> (occurs_in w s <-> occurs_in w t)) ->
  any_in words s = any_in words t.
Proof.
  intros H. apply eq_true_iff_eq. rewrite !any_in_spec.
  split; intros (w & Hw & Ho); exists w; split; auto; by apply (H w Hw).
Qed.

(* --------------------------------------------------------------------- *)
(** ** C2: the intent classifier is a keyword cascade *)
(* --------------------------------------------------------------------- *)

Example analyze_linkedin_wins :
  _analyze_task_type ascii_lower (lit "Find the average salary on LinkedIn")
  = lit "linkedin_search".
Proof. vm_compute. reflexivity. Qed.

Example analyze_fact_before_scrape :
  _analyze_task_type ascii_lower (lit "Scrape price data from shops")
  = lit "web_only".
Proof. vm_compute. reflexivity. Qed.

Example analyze_scrape_before_search :
  _analyze_task_type ascii_lower (lit "search and crawl the site")
  = lit "data_scraping".
Proof. vm_compute. reflexivity. Qed.

Example analyze_default :
  _analyze_task_type ascii_lower (lit "hello") = lit "web_only".
Proof. vm_compute. reflexivity. Qed.

(** C2. For every input string (and whatever the case mapping [lower] is),
    [_analyze_task_type] returns "linkedin_search" if the lower-cased input
    contains one of 'linkedin', 'profile', 'professional profile', 'resume',
    'cv'; otherwise "web_only" if it contains a fact keyword; otherwise
    "data_scraping" if it contains one of 'scrape', 'extract', 'data from',
    'crawl'; otherwise "web_search" if it contains one of 'search', 'find',
    'look for'; otherwise "web_only". Hence two inputs whose lower-cased
    forms contain the same keywords are classified alike. *)
Theorem C2_analyze_task_type_cascade :
  forall (lower : pystr -> pystr) (user_input : pystr),
    let low := lower user_input in
    let has words := exists w, In w words /\ occurs_in w low in
    let linkedin := [lit "linkedin"; lit "profile"; lit "professional profile";
                     lit "resume"; lit "cv"] in
    let scrape := [lit "scrape"; lit "extract"; lit "data from"; lit "crawl"] in
    let search := [lit "search"; lit "find"; lit "look for"] in
    let r := _analyze_task_type lower user_input in
    (has linkedin -> r = lit "linkedin_search") /\
    (~ has linkedin -> has fact_keywords -> r = lit "web_only") /\
    (~ has linkedin -> ~ has fact_keywords -> has scrape ->
       r = lit "data_scraping") /\
    (~ has linkedin -> ~ has fact_keywords -> ~ has scrape -> has search ->
       r = lit "web_search") /\
    (~ has linkedin -> ~ has fact_keywords -> ~ has scrape -> ~ has search ->
       r = lit "web_only") /\
    (forall other : pystr,
       (forall w, In w (linkedin ++ fact_keywords ++ scrape ++ search) ->
                  (occurs_in w low <-> occurs_in w (lower other))) ->
       _analyze_task_type lower other = r).
Proof.
  intros lower user_input low has linkedin scrape search r.
  subst r has. unfold _analyze_task_type. fold low linkedin scrape search.
  repeat split.
  - intros H. apply any_in_spec in H. by rewrite H.
  - intros H1 H2. apply any_in_false in H1. apply any_in_spec in H2.
    by rewrite H1, H2.
  - intros H1 H2 H3. apply any_in_false in H1, H2. apply any_in_spec in H3.
    by rewrite H1, H2, H3.
  - intros H1 H2 H3 H4. apply any_in_false in H1, H2, H3.
    apply any_in_spec in H4. by rewrite H1, H2, H3, H4.
  - intros H1 H2 H3 H4. apply any_in_false in H1, H2, H3, H4.
    by rewrite H1, H2, H3, H4.
  - intros other Hsame.
    rewrite (any_in_ext linkedin (lower other) low),
            (any_in_ext fact_keywords (lower other) low),
            (any_in_ext scrape (lower other) low),
            (any_in_ext search (lower other) low); [done | ..];
      intros w Hw; symmetry; apply Hsame; rewrite !in_app_iff; auto.
Qed.

(* --------------------------------------------------------------------- *)
(** ** C8: de-duplication of search results *)
(* --------------------------------------------------------------------- *)

Lemma str_truthy_false (s : pystr) : str_truthy s = false <-> s = [].
Proof. by destruct s. Qed.

Lemma dedup_loop_kept (results : list SearchResult) :
  forall seen acc, dedup_loop results seen acc = acc ++ kept_from seen results.
Proof.
  induction results as [|r rest IH]; intros seen acc; simpl.
  - by rewrite app_nil_r.
  - destruct (decide (url r = [])) as [He|Hne].
    + rewrite He. simpl. rewrite IH, <- app_assoc. done.
    + assert (str_truthy (url r) = true) as ->
        by (destruct (url r); [done | reflexivity]).
      simpl. destruct (decide (url r ∈ seen)) as [Hin|Hnin].
      * rewrite bool_decide_eq_true_2 by done. simpl. apply IH.
      * rewrite bool_decide_eq_false_2 by done. simpl.
        rewrite IH, <- app_assoc. done.
Qed.

Lemma deduplicate_kept (results : list SearchResult) :
  _deduplicate_results results = kept_from ∅ results.
Proof. unfold _deduplicate_results. by rewrite dedup_loop_kept. Qed.

Lemma kept_from_sublist (results : list SearchResult) :
  forall seen, sublist (kept_from seen results) results.
Proof.
  induction results as [|r rest IH]; intros seen; simpl; [constructor|].
  repeat case_decide; try (apply sublist_skip, IH); apply sublist_cons, IH.
Qed.

Lemma kept_from_fresh (results : list SearchResult) :
  forall seen r, r ∈ kept_from seen results -> url r <> [] -> url r ∉ seen.
Proof.
  induction results as [|x rest IH]; intros seen r; simpl.
  - by intros ?%elem_of_nil.
  - repeat case_decide; rewrite ?elem_of_cons.
    + intros [->|Hin] Hne; [done | by apply (IH seen)].
    + apply IH.
    + intros [->|Hin] Hne; [done|].
      apply (IH _ _ Hin) in Hne. set_solver.
Qed.

Lemma kept_from_NoDup (results : list SearchResult) :
  forall seen,
    NoDup (filter (fun u => u <> []) (url <$> kept_from seen results)).
Proof.
  induction results as [|x rest IH]; intros seen; simpl; [constructor|].
  repeat case_decide.
  - rewrite fmap_cons, filter_cons_False by (intros H'; by apply H').
    apply IH.
  - apply IH.
  - rewrite fmap_cons, filter_cons_True by done.
    constructor; [|apply IH].
    rewrite list_elem_of_filter, list_elem_of_fmap.
    intros (_ & y & Hy & Hin).
    apply kept_from_fresh in Hin; [|congruence].
    rewrite <- Hy in Hin. set_solver.
Qed.

Lemma kept_from_empty_urls (results : list SearchResult) :
  forall seen,
    filter (fun r => url r = []) (kept_from seen results)
    = filter (fun r => url r = []) results.
Proof.
  induction results as [|x rest IH]; intros seen; simpl; [done|].
  repeat case_decide.
  - rewrite !filter_cons_True by done. f_equal. apply IH.
  - rewrite filter_cons_False by done. apply IH.
  - rewrite !filter_cons_False by done. apply IH.
Qed.

Lemma kept_from_idem (results : list SearchResult) :
  forall seen,
    kept_from seen (kept_from seen results) = kept_from seen results.
Proof.
  induction results as [|x rest IH]; intros seen; simpl; [done|].
  destruct (decide (url x = [])) as [He|Hne]; simpl.
  - rewrite decide_True by done. f_equal. apply IH.
  - destruct (decide (url x ∈ seen)) as [Hin|Hnin]; simpl; [apply IH|].
    rewrite decide_False by done. rewrite decide_False by done.
    f_equal. apply IH.
Qed.

Lemma kept_from_snoc (pre : list SearchResult) (r : SearchResult) :
  forall seen,
    kept_from seen (pre ++ [r])
    = kept_from seen pre ++
      (if bool_decide (url r = [] \/ ((url r ∉ seen) /\ url r ∉ (url <$> pre)))
       then [r] else []).
Proof.
  induction pre as [|x pre IH]; intros seen; simpl.
  - destruct (decide (url r = [])) as [He|Hne].
    + rewrite bool_decide_eq_true_2; [done | by left].
    + destruct (decide (url r ∈ seen)) as [Hin|Hnin].
      * rewrite bool_decide_eq_false_2; [done | naive_solver].
      * rewrite bool_decide_eq_true_2; [done | right; split; [done|]].
        apply not_elem_of_nil.
  - destruct (decide (url x = [])) as [He|Hne];
      [|destruct (decide (url x ∈ seen))];
      rewrite IH; simpl; try f_equal; try f_equal;
      (erewrite bool_decide_ext; [reflexivity|]);
      rewrite ?fmap_cons, not_elem_of_cons, ?not_elem_of_union,
              ?not_elem_of_singleton;
      change (list_fmap SearchResult pystr url pre) with (url <$> pre);
      destruct (decide (url r = url x)) as [Heq|Hneq];
      try rewrite Heq in *; naive_solver.
Qed.

Example deduplicate_example :
  _deduplicate_results
    [web_result "http://a" "1"; web_result "" "2"; web_result "http://b" "3";
     web_result "http://a" "4"; web_result "" "5"]
  = [web_result "http://a" "1"; web_result "" "2"; web_result "http://b" "3";
     web_result "" "5"].
Proof. vm_compute. reflexivity. Qed.

(** C8. For every list of search results, [_deduplicate_results] keeps the
    results in their relative order (its output is a sub-list of its input);
    the non-empty URLs of the output are pairwise distinct; a result is kept
    exactly when its URL is empty or has not occurred before it, so the first
    occurrence of a URL is the one kept; every result with an empty URL is
    retained; and the function is idempotent. *)
Theorem C8_deduplicate_results :
  forall results : list SearchResult,
    sublist (_deduplicate_results results) results /\
    NoDup (filter (fun u => u <> []) (url <$> _deduplicate_results results)) /\
    (forall pre r,
       _deduplicate_results (pre ++ [r])
       = _deduplicate_results pre ++
         (if bool_decide (url r = [] \/ url r ∉ (url <$> pre))
          then [r] else [])) /\
    filter (fun r => url r = []) (_deduplicate_results results)
    = filter (fun r => url r = []) results /\
    _deduplicate_results (_deduplicate_results results)
    = _deduplicate_results results.
Proof.
  intros results. rewrite !deduplicate_kept. repeat split.
  - apply kept_from_sublist.
  - apply kept_from_NoDup.
  - intros pre r. rewrite !deduplicate_kept, kept_from_snoc. f_equal.
    erewrite bool_decide_ext; [reflexivity|]. set_solver.
  - apply kept_from_empty_urls.
  - apply kept_from_idem.
Qed.

(* --------------------------------------------------------------------- *)
(** ** C3: the rate limiter *)
(* --------------------------------------------------------------------- *)

Example float_value_sample :
  (float_value 3 == 3 /\ float_value 0.5 == 1 # 2 /\
   float_value (-2.25) == - (9 # 4) /\ float_value 0 == 0)%Q.
Proof. repeat split; by vm_compute. Qed.









(** The first guarded call of a process: the clock reads the seconds
    since 1970, far more than 3, and no sleep is requested. *)
Example rate_limit_first_call :
  _rate_limit 1762000000.25 1762000000.5 RateLimiter_init
  = (None, {| last_api_call := 1762000000.5; rate_limit_delay := 3 |}).
Proof. reflexivity. Qed.

(** A call one second after the last one: a sleep of two seconds. *)
Example rate_limit_one_second_after :
  _rate_limit 11 13 {| last_api_call := 10; rate_limit_delay := 3 |}
  = (Some 2%float, {| last_api_call := 13; rate_limit_delay := 3 |}).
Proof. reflexivity. Qed.




(* --------------------------------------------------------------------- *)
(** ** C5: the parsers of the search response *)
(* --------------------------------------------------------------------- *)




Lemma clean_spec (urls : list pystr) (u : pystr) :
  u ∈ clean urls <->
  exists v, v ∈ urls /\ startswith (lit "http") v = true /\
            u = before_space v.
Proof.
  unfold clean. rewrite list_elem_of_In, in_map_iff. split.
  - intros (v & <- & Hv). apply filter_In in Hv as [Hv Hs].
    exists v. by rewrite list_elem_of_In.
  - intros (v & Hv & Hs & ->). exists v. split; [done|].
    apply filter_In. by rewrite <- list_elem_of_In.
Qed.




Section ParserSpecFacts.
Variable lower : pystr -> pystr.













End ParserSpecFacts.






Example parse_response_example :
  _parse_structured_search_response ascii_lower
    (join newline
       [lit "Answer: Paris is the capital."; lit "  It is in France. ";
        lit "SOURCES:"; bullet :: lit " https://a.example/x (official)";
        lit "- **https://b.example**"; lit "- not a url";
        lit "https://c.example"; lit "LinkedIn Profiles (if found):";
        bullet :: lit " https://www.linkedin.com/in/jane"])
  = {| answer := join newline [lit "Paris is the capital.";
                               lit "It is in France."];
       sources := [lit "https://a.example/x"; lit "https://b.example**"];
       linkedin_profiles := [lit "https://www.linkedin.com/in/jane"] |}.
Proof. vm_compute. reflexivity. Qed.

Example extract_results_json_example :
  let block := lit "RESULTS_JSON {}" in
  let item := JObject [(lit "url", JString (lit "https://a.example"))] in
  _extract_results_json
    (fun pattern _ => if bool_decide (pattern = labelled_pattern)
                      then Some block else None)
    (fun s => if bool_decide (s = lit "{}")
              then Some (JObject [(lit "results", JArray [item])])
              else None)
    block
  = [item].
Proof. vm_compute. reflexivity. Qed.


(* --------------------------------------------------------------------- *)
(** ** C9: the progress values of the task tracker *)
(* --------------------------------------------------------------------- *)

Module TaskUpdaterFacts.
Import TaskUpdater.

(** The clamp of [update_task_status] never yields a number below 0 or
    above 100. *)
Lemma clamp_in_range (p : float) :
  out_of_range (py_min (py_max p 0.0) 100.0) = false.
Proof.
  unfold out_of_range, py_min, py_max.
  destruct (PrimFloat.ltb p 0) eqn:H0.
  - reflexivity.
  - destruct (PrimFloat.ltb 100 p) eqn:H100.
    + reflexivity.
    + by rewrite H0, H100.
Qed.

Lemma dict_set_Forall {V : Type} (P : pystr * V -> Prop) d k v :
  Forall P d -> P (k, v) -> Forall P (dict_set d k v).
Proof.
  intros Hd Hv. induction Hd as [|[k' v'] rest H Hrest IH]; simpl.
  - by constructor.
  - case_bool_decide; constructor; auto.
Qed.

Lemma dict_get_Forall {V : Type} (P : pystr * V -> Prop) d k v :
  Forall P d -> dict_get d k = Some v -> P (k, v).
Proof.
  intros Hd. induction Hd as [|[k' v'] rest H Hrest IH]; simpl; [done|].
  case_bool_decide as Hk; [|done]. intros [= <-]. by rewrite <- Hk.
Qed.

Lemma update_overall_tasks self :
  tasks (_update_overall_progress self) = tasks self.
Proof. unfold _update_overall_progress. by destruct (tasks self). Qed.

Lemma step_tasks_in_range self op :
  tasks_in_range self -> tasks_in_range (step self op).
Proof.
  unfold tasks_in_range. intros H.
  assert (forall id s p e,
            Forall (fun kv => out_of_range (progress_percentage (snd kv))
                              = false)
                   (tasks (update_task_status id s p e self))) as Hupd.
  { intros id s p e. unfold update_task_status.
    destruct (dict_get (tasks self) id) as [task|] eqn:Hg; [|done].
    rewrite update_overall_tasks. simpl.
    apply dict_set_Forall; [done|]. simpl.
    destruct p as [p|]; [apply clamp_in_range|].
    apply (dict_get_Forall _ _ _ _ H Hg). }
  destruct op as [id ty | id s p e | id e | ]; simpl.
  - apply dict_set_Forall; [done | reflexivity].
  - apply Hupd.
  - apply Hupd.
  - constructor.
Qed.

(** After any sequence of operations no tracked task has a progress
    below 0 or above 100. *)
Lemma run_tasks_in_range ops :
  forall self, tasks_in_range self -> tasks_in_range (run ops self).
Proof.
  induction ops as [|op ops IH]; intros self H; simpl; [done|].
  apply IH, step_tasks_in_range, H.
Qed.

Lemma workflow_ops_tasks :
  List.map (fun kv => (status (snd kv), progress_percentage (snd kv)))
           (tasks (run workflow_ops init))
  = [(COMPLETED, 100%float); (COMPLETED, 100%float); (COMPLETED, 100%float)].
Proof. vm_compute. reflexivity. Qed.
End TaskUpdaterFacts.

(** C9 (the code departs from the claim). After the calls of one complete
    workflow run (three tasks created, set in progress at 0, completed at
    100) every tracked task has progress 100, within the range, but
    [overall_progress] is 80 / (0.6 + 0.1 + 0.1) in binary64 arithmetic,
    which is 100.00000000000001: above 100. *)
Theorem C9_overall_progress_above_100 :
  let agent := TaskUpdater.run TaskUpdater.workflow_ops TaskUpdater.init in
  TaskUpdater.tasks_in_range agent /\
  TaskUpdater.overall_progress agent = 100.00000000000001%float /\
  PrimFloat.ltb 100 (TaskUpdater.overall_progress agent) = true /\
  TaskUpdater.out_of_range (TaskUpdater.overall_progress agent) = true.
Proof.
  split; [|by vm_compute].
  apply TaskUpdaterFacts.run_tasks_in_range. constructor.
Qed.

(* --------------------------------------------------------------------- *)
(** ** C10: the run endpoint *)
(* --------------------------------------------------------------------- *)

Lemma drop_while_nil (f : codepoint -> bool) (s : pystr) :
  drop_while f s = [] <-> Forall (fun c => f c = true) s.
Proof.
  induction s as [|c s IH]; simpl.
  - split; [constructor | done].
  - destruct (f c) eqn:Hc.
    + rewrite IH. split; [by constructor | by inversion 1].
    + split; [done | inversion 1; congruence].
Qed.

Lemma drop_while_head (f : codepoint -> bool) (s : pystr) c rest :
  drop_while f s = c :: rest -> f c = false.
Proof.
  induction s as [|d s IH]; simpl; [done|].
  destruct (f d) eqn:Hd; [done|]. by intros [= <- _].
Qed.

(** What [drop_while] removes satisfies the test. *)
Lemma drop_while_split (f : codepoint -> bool) (s : pystr) :
  exists removed, s = removed ++ drop_while f s /\
                  Forall (fun c => f c = true) removed.
Proof.
  induction s as [|c s (removed & IH & Hr)]; simpl.
  - by exists [].
  - destruct (f c) eqn:Hc.
    + exists (c :: removed). split; [simpl; by f_equal | by constructor].
    + by exists [].
Qed.

Lemma strip_nil (s : pystr) : strip s = [] <-> blank s.
Proof.
  unfold strip, rstrip, lstrip, blank. split.
  - intros H. apply (f_equal (@rev _)) in H. rewrite rev_involutive in H.
    simpl in H. apply drop_while_nil in H.
    apply Forall_rev in H. rewrite rev_involutive in H.
    apply drop_while_nil. destruct (drop_while isspace s) as [|c r] eqn:Hd;
      [done|].
    apply drop_while_head in Hd. inversion H; congruence.
  - intros H. apply drop_while_nil in H. rewrite H. reflexivity.
Qed.

(** [strip] removes a blank prefix and a blank suffix, and what is left
    neither starts nor ends with white space. *)
Lemma strip_spec (s : pystr) :
  exists l r,
    s = l ++ strip s ++ r /\ blank l /\ blank r /\
    (forall c t, strip s = c :: t -> isspace c = false) /\
    (forall c t, strip s = t ++ [c] -> isspace c = false).
Proof.
  unfold strip, rstrip, lstrip, blank.
  destruct (drop_while_split isspace s) as (l & Hl & Hbl).
  set (m := drop_while isspace s) in *.
  destruct (drop_while_split isspace (rev m)) as (r & Hr & Hbr).
  set (k := drop_while isspace (rev m)) in *.
  assert (m = rev k ++ rev r) as Hm.
  { rewrite <- rev_app_distr, <- Hr. by rewrite rev_involutive. }
  exists l, (rev r). repeat split.
  - by rewrite <- Hm.
  - done.
  - by apply Forall_rev.
  - intros c t Hk. rewrite Hk in Hm. simpl in Hm.
    apply (drop_while_head isspace s c (t ++ rev r)). by rewrite <- Hm.
  - intros c t Hk. apply (f_equal (@rev _)) in Hk.
    rewrite rev_involutive, rev_app_distr in Hk. simpl in Hk.
    apply (drop_while_head isspace (rev m) c (rev t) Hk).
Qed.

Example api_run_blank_input :
  fst (ApiServer.api_run (lit "0123456789ab") (lit "2026-01-01T00:00:00")
         (ApiServer.mkRunRequest (lit "   ") 10 true)
         (ApiServer.mkServer ∅ []))
  = inl (ApiServer.mkHTTPException 400 (lit "input is required")).
Proof. vm_compute. reflexivity. Qed.

Example api_run_normalizes :
  let out := ApiServer.api_run (lit "0123456789ab") (lit "2026-01-01T00:00:00")
               (ApiServer.mkRunRequest (lit "  find rust jobs ") (-4) true)
               (ApiServer.mkServer ∅ []) in
  fst out = inr (lit "0123456789ab") /\
  (ApiServer.job_input <$> ApiServer.jobs (snd out) !! lit "0123456789ab")
  = Some (lit "find rust jobs") /\
  (ApiServer.job_max_results <$> ApiServer.jobs (snd out) !! lit "0123456789ab")
  = Some 1%Z.
Proof. vm_compute. done. Qed.

(** C10. For every request to POST /api/run (with whatever identifier and
    time stamp the run draws): if the input is empty or consists of white
    space only, the endpoint raises HTTP 400 and the job store is
    unchanged; otherwise it returns the identifier and stores under it
    exactly one job, every other entry being unchanged, whose input is the
    stripped request input (the request input less its leading and trailing
    white space) and whose max_results is the maximum of the requested
    value and 1, hence at least 1. *)
Theorem C10_api_run_validates :
  forall (job_id now : pystr) (req : ApiServer.RunRequest)
         (srv : ApiServer.Server),
    let out := ApiServer.api_run job_id now req srv in
    (blank (ApiServer.input req) ->
     fst out = inl (ApiServer.mkHTTPException 400 (lit "input is required")) /\
     snd out = srv) /\
    (~ blank (ApiServer.input req) ->
     exists job,
       fst out = inr job_id /\
       ApiServer.jobs (snd out) = <[ job_id := job ]> (ApiServer.jobs srv) /\
       ApiServer.jobs (snd out) !! job_id = Some job /\
       (forall other, other <> job_id ->
          ApiServer.jobs (snd out) !! other = ApiServer.jobs srv !! other) /\
       (ApiServer.jobs srv !! job_id = None ->
          size (ApiServer.jobs (snd out)) = S (size (ApiServer.jobs srv))) /\
       ApiServer.job_input job = strip (ApiServer.input req) /\
       (exists l r, ApiServer.input req = l ++ ApiServer.job_input job ++ r /\
                    blank l /\ blank r) /\
       ApiServer.job_max_results job = Z.max (ApiServer.max_results req) 1 /\
       (1 <= ApiServer.job_max_results job)%Z).
Proof.
  intros job_id now req srv out. subst out. unfold ApiServer.api_run.
  destruct (str_truthy (strip (ApiServer.input req))) eqn:Hs.
  - assert (~ blank (ApiServer.input req)) as Hnb.
    { intros Hb%strip_nil. by rewrite Hb in Hs. }
    assert (str_truthy (ApiServer.input req) = true) as ->.
    { destruct (ApiServer.input req); [|done]. exfalso. apply Hnb. constructor. }
    simpl. split; [done|]. intros _. eexists. split; [reflexivity|].
    simpl. repeat split.
    + apply lookup_insert_eq.
    + intros other Hne. by apply lookup_insert_ne.
    + intros Hfresh. by rewrite map_size_insert_None.
    + destruct (strip_spec (ApiServer.input req)) as (l & r & H & Hl & Hr & _).
      by exists l, r.
    + apply Z.le_max_r.
  - apply str_truthy_false, strip_nil in Hs. rewrite orb_true_r.
    split; [done | done].
Qed.

(* --------------------------------------------------------------------- *)
(** ** C7: the data assembler *)
(* --------------------------------------------------------------------- *)

Lemma zip_with_map_same {A B C : Type} (f : A -> B -> C) (h : A -> B)
    (l : list A) :
  zip_with f l (List.map h l) = List.map (fun x => f x (h x)) l.
Proof. induction l as [|x l IH]; simpl; [done | by f_equal]. Qed.

Lemma add_keys_record_of (row : pydict) :
  add_keys [] (record_of row) = kept_fields /\
  add_keys kept_fields (record_of row) = kept_fields.
Proof. split; vm_compute; reflexivity. Qed.

Lemma fold_add_keys_fixed (rows : list pydict) :
  fold_left add_keys (List.map record_of rows) kept_fields = kept_fields.
Proof.
  induction rows as [|row rows IH]; simpl; [done|].
  by rewrite (proj2 (add_keys_record_of row)).
Qed.

Lemma columns_of_records (rows : list pydict) :
  rows <> [] ->
  fold_left add_keys (List.map record_of rows) [] = kept_fields.
Proof.
  destruct rows as [|row rows]; [done|]. intros _. simpl.
  rewrite (proj1 (add_keys_record_of row)). apply fold_add_keys_fixed.
Qed.

Lemma reindex_record_of (row : pydict) :
  List.map (fun c => (c, get_default (record_of row) c NaN)) kept_fields
  = record_of row.
Proof. vm_compute. reflexivity. Qed.

Lemma DataFrame_of_records_assembled (rows : list pydict) :
  rows <> [] ->
  DataFrame_of_records (List.map record_of rows)
  = {| columns := kept_fields; rows := List.map record_of rows |}.
Proof.
  intros H. unfold DataFrame_of_records. rewrite (columns_of_records _ H).
  f_equal. rewrite List.map_map. apply List.map_ext. intros row.
  apply reindex_record_of.
Qed.

Lemma record_of_all_skills (row : pydict) (v : PyVal) :
  dict_set (record_of row) (lit "all_skills") v
  = record_of row ++ [(lit "all_skills", v)] /\
  get_default (record_of row) (lit "skills") NaN
  = get_default row (lit "skills") (PList []).
Proof. split; vm_compute; reflexivity. Qed.

Example prepare_dataframe_example :
  prepare_dataframe
    [ItemDict [(lit "name", PStr (lit "Ada")); (lit "skills", PNone)]] []
  = {| columns := kept_fields ++ [lit "all_skills"];
       rows := [[ (lit "profile_url", PStr []);
                  (lit "name", PStr (lit "Ada"));
                  (lit "headline", PStr []);
                  (lit "location", PStr []);
                  (lit "summary", PStr []);
                  (lit "experience", PList []);
                  (lit "skills", PNone);
                  (lit "education", PList []);
                  (lit "source", PStr (lit "Unknown"));
                  (lit "all_skills", PList []) ]] |}.
Proof. vm_compute. reflexivity. Qed.

(** C7. For every list of scraped records and every answer of the last
    search context, the DataFrame built by [_step_prepare_dataframe]: has,
    when the list is not empty, one row per record in the same order, made
    of exactly the fields profile_url, name, headline, location, summary,
    experience, skills, education and source followed by all_skills. For a
    record that is a [ScrapedData] model the nine cells are the fields of
    the record, and all_skills is its list of skills. For a record that is
    a dictionary each cell is the entry of the dictionary under that key, a
    missing one replaced by its default ('Unknown' for name and source, the
    empty string or the empty list for the others), and all_skills is the
    cell of skills when that is a list and the empty list otherwise. The
    DataFrame is, when the list is empty and the answer is not, the single
    row named 'Web Answer' whose summary is the answer; and it is empty
    when both are empty. *)
Theorem C7_prepare_dataframe :
  forall (scraped_data : list Item) (ans : pystr),
    let df := prepare_dataframe scraped_data ans in
    let assembled item :=
      match item with
      | ItemModel m =>
          [ (lit "profile_url", PStr (Scraped.profile_url m));
            (lit "name", PStr (Scraped.name m));
            (lit "headline", PStr (Scraped.headline m));
            (lit "location", PStr (Scraped.location m));
            (lit "summary", PStr (Scraped.summary m));
            (lit "experience", PList (Scraped.experience m));
            (lit "skills", PList (List.map PStr (Scraped.skills m)));
            (lit "education", PList (Scraped.education m));
            (lit "source", PStr (Scraped.source m));
            (lit "all_skills", PList (List.map PStr (Scraped.skills m))) ]
      | ItemDict d =>
          [ (lit "profile_url", get_default d (lit "profile_url") (PStr []));
            (lit "name", get_default d (lit "name") (PStr (lit "Unknown")));
            (lit "headline", get_default d (lit "headline") (PStr []));
            (lit "location", get_default d (lit "location") (PStr []));
            (lit "summary", get_default d (lit "summary") (PStr []));
            (lit "experience", get_default d (lit "experience") (PList []));
            (lit "skills", get_default d (lit "skills") (PList []));
            (lit "education", get_default d (lit "education") (PList []));
            (lit "source",
             get_default d (lit "source") (PStr (lit "Unknown")));
            (lit "all_skills",
             match get_default d (lit "skills") (PList []) with
             | PList l => PList l
             | _ => PList []
             end) ]
      end in
    (scraped_data <> [] ->
     columns df = kept_fields ++ [lit "all_skills"] /\
     rows df = List.map assembled scraped_data /\
     df_len df = length scraped_data) /\
    (scraped_data = [] -> ans <> [] ->
     columns df = kept_fields /\
     rows df = [[ (lit "profile_url", PStr []);
                  (lit "name", PStr (lit "Web Answer"));
                  (lit "headline", PStr []);
                  (lit "location", PStr []);
                  (lit "summary", PStr ans);
                  (lit "experience", PList []);
                  (lit "skills", PList []);
                  (lit "education", PList []);
                  (lit "source", PStr (lit "Compound-Beta")) ]]) /\
    (scraped_data = [] -> ans = [] -> df = {| columns := []; rows := [] |}).
Proof.
  intros scraped_data ans df assembled. subst df. split; [|split].
  - intros Hne. unfold prepare_dataframe.
    rewrite <- (List.map_map item_row record_of).
    rewrite DataFrame_of_records_assembled
      by (destruct scraped_data; [done | discriminate]).
    destruct scraped_data as [|item items]; [done|].
    set (l := item :: items).
    assert (df_empty {| columns := kept_fields;
                        rows := List.map record_of (List.map item_row l) |}
            = false) as He by reflexivity.
    rewrite He. cbn [negb].
    assert (df_empty
              (set_column {| columns := kept_fields;
                             rows := List.map record_of (List.map item_row l) |}
                 (lit "all_skills")
                 (List.map to_list_safe
                    (column {| columns := kept_fields;
                               rows := List.map record_of (List.map item_row l) |}
                            (lit "skills")))) = false) as He' by reflexivity.
    rewrite He', andb_false_r.
    unfold set_column, column, df_len. cbn [columns rows].
    assert (has_column {| columns := kept_fields;
                          rows := List.map record_of (List.map item_row l) |}
                       (lit "all_skills") = false) as -> by (by vm_compute).
    rewrite (List.map_map _ to_list_safe), zip_with_map_same, !List.map_map.
    split; [done|]. split; [|by rewrite length_map].
    apply List.map_ext. intros it. subst assembled. cbv beta zeta.
    destruct (record_of_all_skills (item_row it)
                (to_list_safe (get_default (record_of (item_row it))
                                 (lit "skills") NaN))) as [-> _].
    rewrite (proj2 (record_of_all_skills (item_row it) PNone)).
    destruct it as [m|d].
    + destruct m. vm_compute. reflexivity.
    + unfold record_of, to_list_safe, item_row. simpl. repeat f_equal.
      by destruct (get_default d (lit "skills") (PList [])).
  - intros -> Hans. unfold prepare_dataframe. simpl.
    destruct ans as [|c ans]; [done|]. by vm_compute.
  - intros -> ->. reflexivity.
Qed.

(* --------------------------------------------------------------------- *)
(** ** C4: the statistics summarizer *)
(* --------------------------------------------------------------------- *)

Section ExperienceLevels.
Variable lower : pystr -> pystr.

Lemma count_headline_str (levels : Levels) (h : pystr) (l : Level) :
  level_count l (count_headline lower levels (PStr h))
  = level_count l levels + (if bool_decide (level_of lower h = l) then 1 else 0).
Proof.
  unfold count_headline, level_of.
  repeat (destruct (any_in _ _)); destruct l; simpl; lia.
Qed.

Lemma count_headline_other (levels : Levels) (v : PyVal) :
  is_str v = false -> count_headline lower levels v = levels.
Proof. by destruct v. Qed.

Lemma fold_count_headline (col : list PyVal) (l : Level) :
  forall levels,
    level_count l (fold_left (count_headline lower) col levels)
    = level_count l levels + tally lower l (only_strings col).
Proof.
  unfold tally.
  induction col as [|v col IH]; intros levels; [simpl; lia|].
  cbn [fold_left]. rewrite IH.
  destruct v as [|h| | |];
    [ rewrite count_headline_other by done; reflexivity
    | | rewrite count_headline_other by done; reflexivity .. ].
  rewrite count_headline_str.
  change (only_strings (PStr h :: col)) with (h :: only_strings col).
  cbn [List.filter]. case_bool_decide; simpl; lia.
Qed.

(** Every headline has exactly one level. *)
Lemma tally_partition (hs : list pystr) :
  tally lower Senior hs + tally lower Entry hs + tally lower Executive hs + tally lower Mid hs
  + tally lower Unknown hs = length hs.
Proof.
  unfold tally. induction hs as [|h hs IH]; simpl; [done|].
  destruct (level_of lower h); simpl; lia.
Qed.

Lemma analyze_experience_levels_tally (data : DataFrame) (l : Level) :
  level_count l (_analyze_experience_levels lower data)
  = tally lower l (string_headlines data).
Proof.
  unfold _analyze_experience_levels, string_headlines.
  destruct (df_empty data) eqn:He.
  - destruct (has_column data (lit "headline")) eqn:Hh; [|by destruct l].
    assert (rows data = []) as Hr.
    { unfold df_empty, has_column in *.
      destruct (columns data).
      - rewrite bool_decide_eq_false_2 in Hh by apply not_elem_of_nil. done.
      - by destruct (rows data). }
    unfold column. rewrite Hr. by destruct l.
  - destruct (has_column data (lit "headline")); [|by destruct l].
    rewrite fold_count_headline. by destruct l.
Qed.

Lemma option_bind_Some {A B : Type} (m : option A) (k : A -> option B) b :
  m ≫= k = Some b <-> exists a, m = Some a /\ k a = Some b.
Proof. destruct m; simpl; naive_solver. Qed.

Lemma compute_stats_total (data : DataFrame) (stats : SummaryStats) :
  compute_stats lower data = Some stats ->
  total_records stats = df_len data.
Proof.
  unfold compute_stats. intros H.
  repeat (apply option_bind_Some in H as (? & _ & H)).
  by injection H as <-.
Qed.

Lemma lens_is_Some (col : list PyVal) :
  is_Some (lens col)
  <-> forallb (fun v => bool_decide (is_Some (py_len v))) col = true.
Proof.
  unfold lens. rewrite mapM_is_Some.
  induction col as [|v col IH]; simpl.
  - split; [done | constructor].
  - by rewrite Forall_cons, andb_true_iff, IH, bool_decide_eq_true.
Qed.

Lemma nunique_is_Some (col : list PyVal) :
  is_Some (nunique col) <-> forallb hashable col = true.
Proof.
  unfold nunique. destruct (forallb hashable col).
  - split; [done | intros _; by eexists].
  - split; [by intros [? ?] | done].
Qed.

Lemma value_counts_is_Some (col : list PyVal) :
  is_Some (value_counts col) <-> forallb hashable col = true.
Proof.
  unfold value_counts. destruct (forallb hashable col).
  - split; [done | intros _; by eexists].
  - split; [by intros [? ?] | done].
Qed.

(** The entries are computed exactly on the aggregable DataFrames. *)
Lemma compute_stats_is_Some (data : DataFrame) :
  is_Some (compute_stats lower data) <-> aggregable data = true.
Proof.
  unfold compute_stats, aggregable.
  rewrite !andb_true_iff, !orb_true_iff, !negb_true_iff.
  rewrite <- !lens_is_Some, <- !nunique_is_Some.
  destruct (has_column data (lit "location"));
    destruct (has_column data (lit "all_skills"));
    destruct (has_column data (lit "experience"));
    destruct (has_column data (lit "source"));
    unfold nunique, value_counts;
    destruct (forallb hashable (column data (lit "location")));
    destruct (forallb hashable (column data (lit "source")));
    destruct (lens (column data (lit "all_skills")));
    destruct (lens (column data (lit "experience")));
    simpl; split; intros H.
  all: try (by eexists).
  all: try (by destruct H as [? [=]]).
  all: try (repeat split; eauto; done).
  all: by destruct H as [[[[?|[? [=]]] [?|[? [=]]]] [?|[? [=]]]] [?|[? [=]]]].
Qed.
End ExperienceLevels.

(** C4, as stated, fails: on a DataFrame of one row whose 'experience' cell
    has no length, [apply(len)] raises, the handler returns the all-zero
    dictionary, and [total_records] is 0 while the table has one row. *)
Lemma C4_total_records_counterexample :
  total_records (_generate_summary_statistics ascii_lower missing_experience)
  = 0%nat /\
  df_len missing_experience = 1%nat /\
  df_empty missing_experience = false.
Proof. by vm_compute. Qed.

Example summary_statistics_example :
  let df := prepare_dataframe
              [ItemDict [(lit "headline", PStr (lit "Senior Engineer"));
                         (lit "location", PStr (lit "Oslo"));
                         (lit "skills", PList [PStr (lit "Rocq")])];
               ItemDict [(lit "headline", PStr (lit "Student"));
                         (lit "location", PStr (lit "Oslo"))]] [] in
  let stats := _generate_summary_statistics ascii_lower df in
  total_records stats = 2%nat /\ unique_locations stats = 1%nat /\
  records_with_skills stats = 1%nat /\
  top_locations stats = [(PStr (lit "Oslo"), 2%nat)] /\
  experience_levels stats
  = Some {| entry := 0; mid := 0; senior := 1; executive := 0; unknown := 1 |}.
Proof. by vm_compute. Qed.

(** C4 (amended). For every DataFrame: if it is empty, the summary is the
    all-zero dictionary with empty dictionaries; if it is not empty and no
    aggregation raises (the cells of 'location' and 'source' can be hashed,
    those of 'all_skills' and 'experience' have a length), [total_records]
    is the number of rows; if an aggregation raises, the summary is the
    all-zero dictionary. And [_analyze_experience_levels] gives each
    string-valued headline exactly one of the levels senior, entry,
    executive, mid, unknown, the first matching branch winning: each count
    is the number of string headlines of that level, and the five counts
    sum to the number of rows whose headline is a string. *)
Theorem C4_summary_statistics :
  forall (lower : pystr -> pystr) (data : DataFrame),
    let stats := _generate_summary_statistics lower data in
    let levels := _analyze_experience_levels lower data in
    (df_empty data = true -> stats = zero_stats) /\
    (df_empty data = false -> aggregable data = true ->
     total_records stats = df_len data /\
     experience_levels stats = Some levels) /\
    (df_empty data = false -> aggregable data = false -> stats = zero_stats) /\
    (forall l : Level,
       level_count l levels
       = length (List.filter (fun h => bool_decide (level_of lower h = l))
                             (string_headlines data))) /\
    senior levels + entry levels + executive levels + mid levels
    + unknown levels = length (string_headlines data).
Proof.
  intros lower data stats levels. subst stats levels.
  unfold _generate_summary_statistics.
  split; [|split; [|split; [|split]]].
  - by intros ->.
  - intros He Ha.
    destruct (proj2 (compute_stats_is_Some lower data) Ha) as [s Hs].
    rewrite He, Hs. split.
    + by apply compute_stats_total with lower.
    + unfold compute_stats in Hs.
      repeat (apply option_bind_Some in Hs as (? & _ & Hs)).
      by injection Hs as <-.
  - intros He Ha. rewrite He.
    destruct (compute_stats lower data) as [s|] eqn:Hs; [|done].
    assert (aggregable data = true) as Ht
      by (apply (compute_stats_is_Some lower); by exists s).
    congruence.
  - intros l. apply analyze_experience_levels_tally.
  - rewrite <- (tally_partition lower (string_headlines data)).
    rewrite <- !analyze_experience_levels_tally. reflexivity.
Qed.

Lemma C4_summary_statistics_witness :
  let df := {| columns := [lit "headline"; lit "experience"];
               rows := [[ (lit "headline", PStr (lit "Senior Engineer"));
                          (lit "experience", PList []) ];
                        [ (lit "headline", PNum 3%float);
                          (lit "experience", PList []) ]] |} in
  total_records (_generate_summary_statistics ascii_lower df) = 2%nat /\
  experience_levels (_generate_summary_statistics ascii_lower df)
  = Some {| entry := 0; mid := 0; senior := 1; executive := 0; unknown := 0 |}.
Proof.
  intros df.
  destruct (C4_summary_statistics ascii_lower df) as (_ & H & _).
  destruct H as [Ht Hl]; [reflexivity | reflexivity |].
  split; [exact Ht | exact Hl].
Defined.

(* --------------------------------------------------------------------- *)
(** ** C6: the report carries no chart *)
(* --------------------------------------------------------------------- *)

Example generate_report_drops_charts :
  let self := {| report_data := None;
                 generated_charts :=
                   [mkChart (lit "Top Locations") (lit "bar") (lit "iVBORw0KGgo")];
                 search_context := [] |} in
  let df := prepare_dataframe
              [ItemDict [(lit "name", PStr (lit "Ada"));
                         (lit "source", PStr (lit "LinkedIn"))]] [] in
  let out := generate_report ascii_lower (fun _ _ => PNone) render_with_charts
               (fun _ => lit "error") (lit "2026-01-01 00:00:00") self df
               [(lit "include_charts", PNum 1%float)] None in
  fst (fst out) = lit "Research Report" /\
  generated_charts (snd (fst out)) = [].
Proof. by vm_compute. Qed.

(** C6. For every DataFrame, every report_format dictionary (the value of
    include_charts is not read) and every state of the agent (charts of an
    earlier run included), [generate_report] empties [generated_charts]
    before it renders: the agent it leaves has no chart, [_generate_charts]
    would change nothing, the dictionary handed to the template has an
    empty 'charts' entry, and the report returned, the rendered text or
    the error text, is the same whatever charts the agent held before. *)
Theorem C6_report_is_text_only :
  forall (lower : pystr -> pystr) (llm_analysis : pydict -> DataFrame -> PyVal)
         (render_template : ReportContext -> pystr + pystr)
         (str_of_raised : Raised -> pystr) (now : pystr)
         (self : ReportGeneratorAgent) (cleaned_data : DataFrame)
         (format : pydict) (context : option pydict),
    let run agent :=
      generate_report lower llm_analysis render_template str_of_raised now
                      agent cleaned_data format context in
    let report := fst (fst (run self)) in
    let after := snd (fst (run self)) in
    let handed :=
      report_context lower now after cleaned_data
        (_generate_ai_analysis llm_analysis after cleaned_data)
        (_generate_summary_statistics lower cleaned_data) format in
    generated_charts after = [] /\
    _generate_charts after = after /\
    (forall ctx, handed = inr ctx ->
       charts ctx = [] /\
       report = match render_template ctx with
                | inl text => text
                | inr msg => error_report str_of_raised (TemplateError msg)
                end) /\
    (forall e, handed = inl e -> report = error_report str_of_raised e) /\
    (forall earlier : list Chart,
       fst (fst (run {| report_data := report_data self;
                        generated_charts := earlier;
                        search_context := search_context self |}))
       = report).
Proof.
  intros lower llm render str_of now self data format context
         run report after handed.
  subst run report after handed. unfold generate_report. cbn [fst snd].
  split; [reflexivity|]. split; [reflexivity|]. split; [|split].
  - intros ctx Hctx. unfold _create_report. rewrite Hctx. split; [|done].
    unfold report_context in Hctx.
    repeat (match type of Hctx with
            | match ?x with _ => _ end = _ => destruct x; try discriminate
            end).
    by injection Hctx as <-.
  - intros e He. unfold _create_report. by rewrite He.
  - intros earlier. reflexivity.
Qed.

(* --------------------------------------------------------------------- *)
(** ** C1: the order of the components *)
(* --------------------------------------------------------------------- *)

Module PipelineFacts.
Import Pipeline.

Lemma staged_nil lo hi : staged lo hi [].
Proof. split; constructor. Qed.

Lemma staged_one lo hi c : lo <= stage c <= hi -> staged lo hi [c].
Proof.
  intros H. split.
  - constructor; constructor.
  - constructor; [exact H | constructor].
Qed.

Lemma staged_app a b c d lo hi t1 t2 :
  staged a b t1 -> staged c d t2 -> b <= c -> lo <= a -> lo <= c ->
  b <= hi -> d <= hi ->
  staged lo hi (t1 ++ t2).
Proof.
  intros [S1 F1] [S2 F2] Hbc Ha Hc Hb Hd. split.
  - unfold in_order in *. induction S1 as [|x t1 S1 IH Hx]; simpl; [done|].
    apply Forall_cons in F1 as [Fx F1].
    constructor; [by apply IH|]. apply Forall_app. split; [done|].
    eapply Forall_impl; [exact F2|]. simpl. intros y Hy. lia.
  - apply Forall_app. split; (eapply Forall_impl; [eassumption|]);
      simpl; intros y Hy; lia.
Qed.

Lemma staged_weaken a b lo hi t :
  staged a b t -> lo <= a -> b <= hi -> staged lo hi t.
Proof.
  intros [S F] Ha Hb. split; [done|].
  eapply Forall_impl; [exact F|]. simpl. intros y Hy. lia.
Qed.

Lemma staged_cons lo hi c d x t :
  staged c d t -> stage x <= c -> lo <= stage x -> c <= d -> d <= hi ->
  staged lo hi (x :: t).
Proof.
  intros H Hx Hlo Hcd Hhi. change (x :: t) with ([x] ++ t).
  eapply (staged_app (stage x) (stage x) c d); eauto; try lia.
  apply staged_one. lia.
Qed.

(** Components of one stage are in order whatever their number. *)
Lemma staged_same k t :
  Forall (fun c => stage c = k) t -> staged k k t.
Proof.
  intros F. induction F as [|x t Hx F IH]; [apply staged_nil|].
  change (x :: t) with ([x] ++ t).
  eapply (staged_app k k k k); eauto; try lia. apply staged_one. lia.
Qed.

Section World.
Variable lower : pystr -> pystr.
Variable re_findall : pystr -> pystr -> list pystr.
Variable llm_queries : pystr -> pystr -> option (list pystr).
Variable web_search : pystr -> Z -> list Sections * list SearchResult.
Variable scrape_profile : pystr -> option Scraped.ScrapedData.
Variable enrich_record : pystr -> option Scraped.ScrapedData.
Variable llm_analysis : pydict -> DataFrame -> PyVal.
Variable render_template : ReportContext -> pystr + pystr.
Variable str_of_raised : Raised -> pystr.
Variable now : pystr.

Lemma search_fold_stage bound queries :
  forall acc,
    Forall (fun c => stage c = 2) (snd acc) ->
    Forall (fun c => stage c = 2)
           (snd (fold_left (search_query web_search bound) queries acc)).
Proof.
  induction queries as [|q queries IH]; intros acc H; simpl; [done|].
  apply IH. destruct acc as [[ctx results] t]. unfold search_query.
  destruct (web_search q bound) as [parsed found]. simpl in *.
  apply Forall_app. split; [done|]. by repeat constructor.
Qed.

Lemma perform_web_search_staged queries max_results self :
  staged 2 2 (snd (_perform_web_search web_search queries max_results self)).
Proof.
  apply staged_same. unfold _perform_web_search.
  pose proof (search_fold_stage
                (max_results / Z.of_nat (length queries)) queries
                (last_search_context self, [], [])) as H.
  destruct (fold_left _ queries _) as [[ctx results] t]. simpl in *.
  apply H. constructor.
Qed.

Lemma scrape_linkedin_staged max_results self :
  staged 3 3 (snd (_scrape_linkedin_profiles scrape_profile max_results self)).
Proof.
  unfold _scrape_linkedin_profiles.
  destruct (List.filter _ _); simpl; [apply staged_nil|].
  apply staged_one. simpl. lia.
Qed.

Lemma scrape_linkedin_search_results max_results self :
  search_results
    (fst (_scrape_linkedin_profiles scrape_profile max_results self))
  = search_results self.
Proof.
  unfold _scrape_linkedin_profiles. by destruct (List.filter _ _).
Qed.

(** Nothing is invoked when the results hold no profile URL. *)
Lemma scrape_linkedin_nothing max_results self :
  List.filter is_linkedin_url (List.map url (search_results self)) = [] ->
  snd (_scrape_linkedin_profiles scrape_profile max_results self) = [].
Proof. unfold _scrape_linkedin_profiles. by intros ->. Qed.

Lemma enrich_loop_stage max_results urls :
  forall count acc,
    Forall (fun c => stage c = 4) (snd acc) ->
    Forall (fun c => stage c = 4)
           (snd (enrich_loop enrich_record max_results count urls acc)).
Proof.
  induction urls as [|u urls IH]; intros count acc H; simpl; [done|].
  destruct (max_results <=? count)%Z; [done|].
  destruct (enrich_record u); apply IH; simpl;
    (apply Forall_app; split; [done | by repeat constructor]).
Qed.

Lemma scrape_other_staged max_results self :
  staged 4 4 (snd (_scrape_other_websites enrich_record max_results self)).
Proof.
  apply staged_same. unfold _scrape_other_websites.
  pose proof (enrich_loop_stage max_results
                (List.filter
                   (fun u => negb (is_linkedin_url u) && str_truthy u)
                   (List.map url (search_results self)))
                0 (scraped_data self, [])) as H.
  destruct (enrich_loop _ _ _ _ _) as [data t]. simpl in *.
  apply H. constructor.
Qed.

Lemma scrape_specific_stage urls :
  forall acc,
    Forall (fun c => stage c = 3) (snd acc) ->
    Forall (fun c => stage c = 3)
           (snd (fold_left (scrape_specific scrape_profile) urls acc)).
Proof.
  induction urls as [|u urls IH]; intros acc H; simpl; [done|].
  apply IH. unfold scrape_specific. destruct (is_linkedin_url u); [|done].
  simpl. apply Forall_app. split; [done | by repeat constructor].
Qed.

Lemma scrape_specific_staged urls max_results self :
  staged 3 3
    (snd (_scrape_specific_urls scrape_profile urls max_results self)).
Proof.
  apply staged_same. unfold _scrape_specific_urls.
  pose proof (scrape_specific_stage (py_take max_results urls)
                (scraped_data self, [])) as H.
  destruct (fold_left _ _ _) as [data t]. simpl in *.
  apply H. constructor.
Qed.

Lemma andthen_snd first next :
  snd (andthen first next) = snd first ++ snd (next (fst first)).
Proof.
  unfold andthen. destruct first as [self t1]. simpl.
  by destruct (next self) as [self' t2].
Qed.

Lemma andthen_fst first next :
  fst (andthen first next) = fst (next (fst first)).
Proof.
  unfold andthen. destruct first as [self t1]. simpl.
  by destruct (next self) as [self' t2].
Qed.

Lemma generate_queries_trace input search_type :
  snd (_generate_search_queries llm_queries input search_type)
  = [QueryGenerator].
Proof. reflexivity. Qed.

Lemma execute_search_staged search_type input max_results self :
  staged 1 4
    (snd (_execute_search llm_queries web_search enrich_record
            search_type input max_results self)).
Proof.
  unfold _execute_search.
  destruct (_generate_search_queries _ _ _) as [queries t0] eqn:Hq.
  pose proof (generate_queries_trace input search_type) as Ht0.
  rewrite Hq in Ht0. simpl in Ht0. subst t0.
  pose proof (andthen_snd
                (_perform_web_search web_search queries max_results self)
                (_scrape_other_websites enrich_record max_results)) as Hs.
  destruct (andthen _ _) as [self' t]. simpl in *. subst t.
  eapply (staged_cons 1 4 2 4); [|simpl; lia ..].
  eapply (staged_app 2 2 4 4); try lia;
    [apply perform_web_search_staged | apply scrape_other_staged].
Qed.

Lemma execute_web_only_staged input max_results self :
  staged 1 4
    (snd (_execute_web_only llm_queries web_search scrape_profile now
            input max_results self)).
Proof.
  unfold _execute_web_only.
  destruct (_generate_search_queries _ _ _) as [queries t0] eqn:Hq.
  pose proof (generate_queries_trace input (lit "web")) as Ht0.
  rewrite Hq in Ht0. simpl in Ht0. subst t0.
  pose proof (perform_web_search_staged queries max_results self) as H1.
  destruct (_perform_web_search _ _ _ _) as [self1 t1]. simpl in H1.
  assert (staged 3 3
            (snd (if existsb (fun r => is_linkedin_url (url r))
                       (List.filter (fun r => str_truthy (url r))
                                    (search_results self1))
                  then _scrape_linkedin_profiles scrape_profile
                         max_results self1
                  else (self1, [])))) as H2.
  { destruct (existsb _ _); [apply scrape_linkedin_staged|apply staged_nil]. }
  destruct (if existsb _ _ then _ else _) as [self2 t2]. simpl in *.
  eapply (staged_cons 1 4 2 4); [|simpl; lia ..].
  eapply (staged_app 2 2 3 3); try lia; eauto.
Qed.

Lemma execute_linkedin_search_staged input max_results self :
  staged 1 4
    (snd (_execute_linkedin_search llm_queries web_search scrape_profile
            enrich_record input max_results self)).
Proof.
  unfold _execute_linkedin_search.
  destruct (_generate_search_queries _ _ _) as [queries t0] eqn:Hq.
  pose proof (generate_queries_trace input (lit "linkedin")) as Ht0.
  rewrite Hq in Ht0. simpl in Ht0. subst t0.
  set (searched := _perform_web_search web_search queries max_results self).
  set (first := andthen searched
                  (_scrape_linkedin_profiles scrape_profile max_results)).
  assert (search_results (fst first) = search_results (fst searched))
    as Hsame.
  { unfold first. rewrite andthen_fst.
    apply scrape_linkedin_search_results. }
  assert (staged 2 3 (snd first)) as Hfirst.
  { unfold first. rewrite andthen_snd.
    eapply (staged_app 2 2 3 3); try lia;
      [apply perform_web_search_staged | apply scrape_linkedin_staged]. }
  set (second := match List.filter is_linkedin_url
                         (List.map url (search_results (fst first))) with
                 | [] => _
                 | _ :: _ => first
                 end).
  assert (staged 2 3 (snd second)) as Hsecond.
  { subst second.
    destruct (List.filter is_linkedin_url
                (List.map url (search_results (fst first)))) eqn:Hf;
      [|done].
    rewrite !andthen_snd.
    assert (snd first = snd searched) as ->.
    { unfold first. rewrite andthen_snd.
      rewrite scrape_linkedin_nothing, app_nil_r; [done|].
      by rewrite <- Hsame. }
    eapply (staged_app 2 2 3 3); try lia;
      [|apply scrape_linkedin_staged].
    eapply (staged_app 2 2 2 2); try lia;
      apply perform_web_search_staged. }
  pose proof (andthen_snd second
                (_scrape_other_websites enrich_record max_results)) as Hs.
  destruct (andthen second _) as [self' t]. simpl in *. subst t.
  eapply (staged_cons 1 4 2 4); [|simpl; lia ..].
  eapply (staged_app 2 3 4 4); try lia; [done|apply scrape_other_staged].
Qed.

Lemma execute_data_scraping_staged input max_results self :
  staged 1 4
    (snd (_execute_data_scraping re_findall llm_queries web_search
            scrape_profile enrich_record input max_results self)).
Proof.
  unfold _execute_data_scraping.
  destruct (_extract_urls_from_input re_findall input).
  - apply execute_search_staged.
  - eapply staged_weaken; [apply scrape_specific_staged | lia | lia].
Qed.

(** The executor starts with the intent classifier and goes on in
    order with the components of the search phase. *)
Lemma execute_tasks_staged input max_results self :
  exists rest,
    snd (execute_tasks lower re_findall llm_queries web_search
           scrape_profile enrich_record now input max_results self)
    = IntentClassifier :: rest /\
    staged 1 4 rest.
Proof.
  unfold execute_tasks.
  set (branch := if bool_decide (_ = lit "linkedin_search") then _ else _).
  assert (staged 1 4 (snd branch)) as H.
  { subst branch. repeat case_bool_decide;
      auto using execute_linkedin_search_staged, execute_web_only_staged,
                 execute_search_staged, execute_data_scraping_staged. }
  destruct branch as [self' t]. exists t. by split.
Qed.

(** *** The shape of the search phase *)

Lemma search_fold_trace bound queries :
  forall acc,
    snd (fold_left (search_query web_search bound) queries acc)
    = snd acc ++ searches (length queries).
Proof.
  induction queries as [|q queries IH]; intros acc; simpl.
  { by rewrite app_nil_r. }
  rewrite IH. destruct acc as [[ctx results] t]. unfold search_query.
  destruct (web_search q bound) as [parsed found]. cbn [snd].
  by rewrite <- app_assoc.
Qed.

Lemma perform_web_search_trace queries max_results self :
  snd (_perform_web_search web_search queries max_results self)
  = searches (length queries).
Proof.
  unfold _perform_web_search.
  pose proof (search_fold_trace
                (max_results / Z.of_nat (length queries)) queries
                (last_search_context self, [], [])) as H.
  by destruct (fold_left _ queries _) as [[ctx results] t].
Qed.

Lemma scrape_linkedin_trace max_results self :
  exists s, s <= 1 /\
    snd (_scrape_linkedin_profiles scrape_profile max_results self)
    = replicate s LinkedInScraper.
Proof.
  unfold _scrape_linkedin_profiles.
  destruct (List.filter _ _); [exists 0 | exists 1]; (split; [lia | done]).
Qed.

Lemma scrape_linkedin_session max_results self :
  List.filter is_linkedin_url (List.map url (search_results self)) <> [] ->
  snd (_scrape_linkedin_profiles scrape_profile max_results self)
  = [LinkedInScraper].
Proof. unfold _scrape_linkedin_profiles. by destruct (List.filter _ _). Qed.

Lemma enrich_loop_trace max_results urls :
  forall count acc,
    exists e,
      snd (enrich_loop enrich_record max_results count urls acc)
      = snd acc ++ replicate e UrlEnrichment.
Proof.
  induction urls as [|u urls IH]; intros count acc; simpl.
  { exists 0. by rewrite app_nil_r. }
  destruct (max_results <=? count)%Z; [exists 0; by rewrite app_nil_r|].
  destruct (enrich_record u).
  - destruct (IH (count + 1)%Z (fst acc ++ [s], snd acc ++ [UrlEnrichment]))
      as [e ->].
    exists (S e). cbn [snd]. by rewrite <- app_assoc.
  - destruct (IH count (fst acc, snd acc ++ [UrlEnrichment])) as [e ->].
    exists (S e). cbn [snd]. by rewrite <- app_assoc.
Qed.

Lemma scrape_other_trace max_results self :
  exists e,
    snd (_scrape_other_websites enrich_record max_results self)
    = replicate e UrlEnrichment.
Proof.
  unfold _scrape_other_websites.
  destruct (enrich_loop_trace max_results
              (List.filter
                 (fun u => negb (is_linkedin_url u) && str_truthy u)
                 (List.map url (search_results self)))
              0 (scraped_data self, [])) as [e H].
  exists e. by destruct (enrich_loop _ _ _ _ _) as [data t].
Qed.

Lemma scrape_specific_fold_trace urls :
  forall acc,
    exists s,
      snd (fold_left (scrape_specific scrape_profile) urls acc)
      = snd acc ++ replicate s LinkedInScraper.
Proof.
  induction urls as [|u urls IH]; intros acc; simpl.
  { exists 0. by rewrite app_nil_r. }
  destruct (IH (scrape_specific scrape_profile acc u)) as [s ->].
  unfold scrape_specific. destruct (is_linkedin_url u); [|by exists s].
  exists (S s). cbn [snd]. by rewrite <- app_assoc.
Qed.

Lemma scrape_specific_trace urls max_results self :
  exists s,
    snd (_scrape_specific_urls scrape_profile urls max_results self)
    = replicate s LinkedInScraper.
Proof.
  unfold _scrape_specific_urls.
  destruct (scrape_specific_fold_trace (py_take max_results urls)
              (scraped_data self, [])) as [s H].
  exists s. by destruct (fold_left _ _ _) as [data t].
Qed.

Lemma generate_queries_two input search_type :
  length (fst (_generate_search_queries llm_queries input search_type)) <= 2.
Proof.
  unfold _generate_search_queries. cbn [fst].
  destruct (llm_queries input search_type) as [queries|].
  - rewrite length_take. lia.
  - unfold _generate_fallback_queries. by case_bool_decide.
Qed.

Lemma execute_search_trace search_type input max_results self :
  exists q e, q <= 2 /\
    snd (_execute_search llm_queries web_search enrich_record
           search_type input max_results self)
    = QueryGenerator :: searches q ++ replicate e UrlEnrichment.
Proof.
  unfold _execute_search.
  pose proof (generate_queries_two input search_type) as Hq.
  destruct (_generate_search_queries _ _ _) as [queries t0] eqn:Eq.
  pose proof (generate_queries_trace input search_type) as Ht0.
  rewrite Eq in Ht0. cbn [fst snd] in *. subst t0.
  pose proof (andthen_snd
                (_perform_web_search web_search queries max_results self)
                (_scrape_other_websites enrich_record max_results)) as Hs.
  destruct (andthen _ _) as [self' t]. cbn [snd] in *. subst t.
  rewrite perform_web_search_trace.
  destruct (scrape_other_trace max_results
              (fst (_perform_web_search web_search queries max_results self)))
    as [e ->].
  by exists (length queries), e.
Qed.

Lemma execute_web_only_phase named input max_results self :
  search_phase named (lit "web_only")
    (snd (_execute_web_only llm_queries web_search scrape_profile now
            input max_results self)).
Proof.
  unfold _execute_web_only.
  pose proof (generate_queries_two input (lit "web")) as Hq.
  destruct (_generate_search_queries _ _ _) as [queries t0] eqn:Eq.
  pose proof (generate_queries_trace input (lit "web")) as Ht0.
  rewrite Eq in Ht0. cbn [fst snd] in *. subst t0.
  pose proof (perform_web_search_trace queries max_results self) as H1.
  destruct (_perform_web_search _ _ _ _) as [self1 t1]. cbn [snd] in H1.
  subst t1.
  assert (exists s, s <= 1 /\
            snd (if existsb (fun r => is_linkedin_url (url r))
                       (List.filter (fun r => str_truthy (url r))
                                    (search_results self1))
                  then _scrape_linkedin_profiles scrape_profile
                         max_results self1
                  else (self1, [])) = replicate s LinkedInScraper)
    as (s & Hs & H2).
  { destruct (existsb _ _); [apply scrape_linkedin_trace|].
    exists 0. split; [lia | done]. }
  destruct (if existsb _ _ then _ else _) as [self2 t2]. cbn [snd] in *.
  subst t2. by apply phase_web_only.
Qed.

Lemma execute_linkedin_search_phase named input max_results self :
  search_phase named (lit "linkedin_search")
    (snd (_execute_linkedin_search llm_queries web_search scrape_profile
            enrich_record input max_results self)).
Proof.
  unfold _execute_linkedin_search.
  pose proof (generate_queries_two input (lit "linkedin")) as Hq.
  destruct (_generate_search_queries _ _ _) as [queries t0] eqn:Eq.
  pose proof (generate_queries_trace input (lit "linkedin"))
    as Ht0.
  rewrite Eq in Ht0. cbn [fst snd] in *. subst t0.
  set (searched := _perform_web_search web_search queries max_results self).
  set (first := andthen searched
                  (_scrape_linkedin_profiles scrape_profile max_results)).
  assert (search_results (fst first) = search_results (fst searched))
    as Hsame.
  { unfold first. rewrite andthen_fst.
    apply scrape_linkedin_search_results. }
  set (second := match List.filter is_linkedin_url
                         (List.map url (search_results (fst first))) with
                 | [] => _
                 | _ :: _ => first
                 end).
  pose proof (andthen_snd second
                (_scrape_other_websites enrich_record max_results)) as Hs.
  destruct (scrape_other_trace max_results (fst second)) as [e He].
  rewrite He in Hs.
  destruct (andthen second _) as [self' t]. cbn [snd] in *. subst t.
  subst second.
  destruct (List.filter is_linkedin_url
              (List.map url (search_results (fst first)))) eqn:Hf.
  - rewrite !andthen_snd.
    assert (snd first = searches (length queries)) as ->.
    { unfold first. rewrite andthen_snd.
      rewrite scrape_linkedin_nothing, app_nil_r by (by rewrite <- Hsame).
      apply perform_web_search_trace. }
    rewrite perform_web_search_trace.
    match goal with
    | |- context [snd (_scrape_linkedin_profiles _ max_results ?x)] =>
        destruct (scrape_linkedin_trace max_results x) as (s & Hle & ->)
    end.
    rewrite <- !app_assoc.
    by apply (phase_linkedin_second named (length queries) s e).
  - assert (snd first = searches (length queries) ++ [LinkedInScraper])
      as ->.
    { unfold first. rewrite andthen_snd. f_equal.
      - apply perform_web_search_trace.
      - apply scrape_linkedin_session. rewrite <- Hsame, Hf. done. }
    rewrite <- !app_assoc.
    by apply (phase_linkedin_found named (length queries) e).
Qed.

Lemma execute_data_scraping_phase input max_results self :
  search_phase
    (match _extract_urls_from_input re_findall input with
     | [] => false
     | _ :: _ => true
     end)
    (lit "data_scraping")
    (snd (_execute_data_scraping re_findall llm_queries web_search
            scrape_profile enrich_record input max_results self)).
Proof.
  unfold _execute_data_scraping.
  destruct (_extract_urls_from_input re_findall input) as [|u urls].
  - destruct (execute_search_trace (lit "generic") input max_results self)
      as (q & e & Hq & ->).
    by apply phase_scraping_generic.
  - destruct (scrape_specific_trace (u :: urls) max_results self) as [s ->].
    by apply phase_scraping_named.
Qed.

(** The executor starts with the intent classifier and goes on with the
    search phase its task type requires. *)
Lemma execute_tasks_phase input max_results self :
  exists rest,
    snd (execute_tasks lower re_findall llm_queries web_search
           scrape_profile enrich_record now input max_results self)
    = IntentClassifier :: rest /\
    search_phase
      (match _extract_urls_from_input re_findall input with
       | [] => false
       | _ :: _ => true
       end)
      (_analyze_task_type lower input) rest.
Proof.
  unfold execute_tasks.
  set (branch := if bool_decide (_ = lit "linkedin_search") then _ else _).
  assert (search_phase
            (match _extract_urls_from_input re_findall input with
             | [] => false
             | _ :: _ => true
             end)
            (_analyze_task_type lower input) (snd branch)) as H.
  { subst branch. unfold _analyze_task_type.
    repeat (destruct (any_in _ _));
      repeat (case_bool_decide; try discriminate; try congruence).
    all: try apply execute_linkedin_search_phase.
    all: try apply execute_web_only_phase.
    all: try apply execute_data_scraping_phase.
    destruct (execute_search_trace (lit "web") input max_results self)
      as (q & e & Hq & ->).
    by apply phase_web_search. }
  destruct branch as [self' t]. exists t. by split.
Qed.
End World.
End PipelineFacts.

Module WorkflowFacts.
Import Pipeline PipelineFacts.

(** What follows the search phase is in order, whichever of the optional
    writes take place. *)
Lemma closing_staged (raw cleaned reported : bool) :
  staged 5 11
    ((if raw then [FilePersistence RawData] else [])
     ++ DataAssembler
     :: (if cleaned
         then FilePersistence CleanedData :: AIAnalysisWriter
              :: StatisticsSummarizer :: TemplateRenderer
              :: (if reported then [FilePersistence ReportFile] else [])
         else [])).
Proof.
  destruct raw, cleaned, reported; (split; [unfold in_order|]);
    repeat constructor; simpl; lia.
Qed.

Lemma run_in_order search closing :
  staged 1 4 search -> staged 5 11 closing ->
  in_order (IntentClassifier :: search ++ closing).
Proof.
  intros Hs Hc.
  apply (staged_cons 0 11 1 11); try (simpl; lia).
  eapply (staged_app 1 4 5 11); eauto; lia.
Qed.

(** Two neighbours of a trace in the listed order are in that order. *)
Lemma listed_order_neighbours pre x y post :
  in_listed_order (pre ++ x :: y :: post) ->
  listed_stage x <= listed_stage y.
Proof.
  unfold in_listed_order. induction pre as [|z pre IH]; simpl.
  - intros H. apply StronglySorted_inv in H as [_ F].
    by apply Forall_cons in F as [F _].
  - intros H. apply StronglySorted_inv in H as [H _]. by apply IH.
Qed.

Section World.
Variable lower : pystr -> pystr.
Variable re_findall : pystr -> pystr -> list pystr.
Variable llm_queries : pystr -> pystr -> option (list pystr).
Variable web_search : pystr -> Z -> list Sections * list SearchResult.
Variable scrape_profile : pystr -> option Scraped.ScrapedData.
Variable enrich_record : pystr -> option Scraped.ScrapedData.
Variable llm_analysis : pydict -> DataFrame -> PyVal.
Variable render_template : ReportContext -> pystr + pystr.
Variable str_of_raised : Raised -> pystr.
Variable now : pystr.

(** [execute_workflow] with its three steps unfolded. *)
Lemma execute_workflow_unfold (input : pystr) (max_results : Z)
    (self : Workflow) :
  let executed := execute_tasks lower re_findall llm_queries web_search
                    scrape_profile enrich_record now input max_results
                    (task_executor_agent self) in
  let executor := fst executed in
  let df := prepare_dataframe (List.map ItemModel (scraped_data executor))
              (answer (last_search_context executor)) in
  let ctx :=
    [ (lit "user_input", PStr input);
      (lit "answer", PStr (answer (last_search_context executor)));
      (lit "search_answer", PStr (answer (last_search_context executor)));
      (lit "sources",
       PList (List.map PStr (sources (last_search_context executor))));
      (lit "linkedin_profiles",
       PList (List.map PStr
                (linkedin_profiles (last_search_context executor)))) ] in
  let generated :=
    generate_report lower llm_analysis render_template str_of_raised now
      (report_generator_agent self) df workflow_report_format (Some ctx) in
  execute_workflow lower re_findall llm_queries web_search scrape_profile
    enrich_record llm_analysis render_template str_of_raised now
    input max_results self
  = ({| user_input := input;
        task_executor_agent := executor;
        task_updater_agent :=
          TaskUpdater.run TaskUpdater.workflow_ops (task_updater_agent self);
        report_generator_agent :=
          if df_empty df then report_generator_agent self
          else snd (fst generated);
        wf_scraped_data := scraped_data executor;
        cleaned_data := Some df;
        final_report :=
          Some (if df_empty df then no_data_report
                else fst (fst generated)) |},
     (snd executed
      ++ match scraped_data executor with
         | [] => []
         | _ :: _ => [FilePersistence RawData]
         end)
     ++ (DataAssembler
         :: (if negb (df_empty df) then [FilePersistence CleanedData]
             else []))
     ++ (if df_empty df then []
         else snd generated
              ++ (if str_truthy (fst (fst generated))
                  then [FilePersistence ReportFile] else []))).
Proof.
  intros executed executor df ctx generated.
  subst generated ctx df executor executed.
  unfold execute_workflow, _step_task_execution.
  cbn [user_input task_executor_agent].
  destruct (execute_tasks _ _ _ _ _ _ _ _ _ _) as [executor t].
  unfold _step_prepare_dataframe, _step_report_generation.
  cbn [user_input task_executor_agent wf_scraped_data cleaned_data
       report_generator_agent fst snd].
  destruct (df_empty _) eqn:He.
  - reflexivity.
  - unfold generate_report. reflexivity.
Qed.

(** Every run leaves the tracker in the state of [workflow_ops], whose
    overall progress is above 100. *)
Lemma execute_workflow_overall_progress (input : pystr) (max_results : Z)
    (self : Workflow) :
  TaskUpdater.overall_progress
    (task_updater_agent
       (fst (execute_workflow lower re_findall llm_queries web_search
               scrape_profile enrich_record llm_analysis render_template
               str_of_raised now input max_results self)))
  = 100.00000000000001%float.
Proof. rewrite execute_workflow_unfold. reflexivity. Qed.
End World.
End WorkflowFacts.

(** C1, as stated, fails: in the sample run the AI analysis writer is
    invoked at position 9 and the statistics summarizer after it, at
    position 10; and files are written before the data assembler runs. The
    trace is not in the listed order. *)
Lemma C1_listed_order_counterexample :
  snd SampleRun.run
  = [ IntentClassifier; QueryGenerator;
      WebSearchExecutor; FilePersistence SearchResponse;
      WebSearchExecutor; FilePersistence SearchResponse;
      FilePersistence RawData; DataAssembler; FilePersistence CleanedData;
      AIAnalysisWriter; StatisticsSummarizer; TemplateRenderer;
      FilePersistence ReportFile ] /\
  Pipeline.first_index AIAnalysisWriter (snd SampleRun.run) = Some 9 /\
  Pipeline.first_index StatisticsSummarizer (snd SampleRun.run) = Some 10 /\
  ~ Pipeline.in_listed_order (snd SampleRun.run).
Proof.
  assert (snd SampleRun.run
          = [ IntentClassifier; QueryGenerator;
              WebSearchExecutor; FilePersistence SearchResponse;
              WebSearchExecutor; FilePersistence SearchResponse;
              FilePersistence RawData; DataAssembler;
              FilePersistence CleanedData;
              AIAnalysisWriter; StatisticsSummarizer; TemplateRenderer;
              FilePersistence ReportFile ]) as Ht by (by vm_compute).
  rewrite Ht. split; [done|]. split; [by vm_compute|]. split; [by vm_compute|].
  intros H.
  apply (WorkflowFacts.listed_order_neighbours
           [ IntentClassifier; QueryGenerator;
             WebSearchExecutor; FilePersistence SearchResponse;
             WebSearchExecutor; FilePersistence SearchResponse;
             FilePersistence RawData; DataAssembler;
             FilePersistence CleanedData ]
           AIAnalysisWriter StatisticsSummarizer
           [TemplateRenderer; FilePersistence ReportFile]) in H.
  simpl in H. lia.
Qed.

(** C1 (amended). Every run of the workflow invokes its components in
    this order: the intent classifier first; then the search phase, whose
    components come in the order query generator, web search executor
    (each search followed by the write of its response), LinkedIn scraper,
    URL enrichment, each only as the task type requires ([search_phase]:
    for a LinkedIn search the query generator, the searches for its
    queries, two at most, then either one scraper session or two more
    searches and at most one session, then the enrichments; for a
    web-only run the query generator, the searches and at most one scraper
    session; for a web search the query generator, the searches and the
    enrichments; for a scraping request scraper sessions alone when the
    request names pages, and the components of a web search when it names
    none); then the write of
    the raw data when there is some; then the data assembler, fed with the
    records and the answer the search phase left; then, when the table is
    not empty, the write of the table and the report generation on that
    table: the AI analysis writer first, the statistics summarizer second,
    the template renderer third, which renders from the table, the
    analysis and the statistics; and last the write of the report when it
    is not empty. When the table is empty none of the three is invoked and
    the report is the fixed no-data text. *)
Theorem C1_pipeline_order :
  forall (lower : pystr -> pystr) (re_findall : pystr -> pystr -> list pystr)
         (llm_queries : pystr -> pystr -> option (list pystr))
         (web_search : pystr -> Z -> list Sections * list SearchResult)
         (scrape_profile enrich_record : pystr -> option Scraped.ScrapedData)
         (llm_analysis : pydict -> DataFrame -> PyVal)
         (render_template : ReportContext -> pystr + pystr)
         (str_of_raised : Raised -> pystr) (now : pystr)
         (input : pystr) (max_results : Z) (self : Pipeline.Workflow),
    let out := Pipeline.execute_workflow lower re_findall llm_queries
                 web_search scrape_profile enrich_record llm_analysis
                 render_template str_of_raised now input max_results self in
    let trace := snd out in
    let executor := Pipeline.task_executor_agent (fst out) in
    let df := prepare_dataframe
                (List.map ItemModel (Pipeline.scraped_data executor))
                (answer (Pipeline.last_search_context executor)) in
    let generated :=
      generate_report lower llm_analysis render_template str_of_raised now
        (Pipeline.report_generator_agent self) df workflow_report_format
        (Some (Pipeline.report_ctx (fst out))) in
    (exists search,
       search_phase
         (match Pipeline._extract_urls_from_input re_findall input with
          | [] => false
          | _ :: _ => true
          end)
         (_analyze_task_type lower input) search /\
       Pipeline.in_order search /\
       Forall (fun c => 1 <= Pipeline.stage c <= 4) search /\
       trace
       = IntentClassifier :: search
         ++ (match Pipeline.scraped_data executor with
             | [] => []
             | _ :: _ => [FilePersistence RawData]
             end)
         ++ DataAssembler
         :: (if df_empty df then []
             else FilePersistence CleanedData :: snd generated
                  ++ (if str_truthy (fst (fst generated))
                      then [FilePersistence ReportFile] else []))) /\
    snd generated
    = [AIAnalysisWriter; StatisticsSummarizer; TemplateRenderer] /\
    Pipeline.in_order trace /\
    Pipeline.cleaned_data (fst out) = Some df /\
    Pipeline.final_report (fst out)
    = Some (if df_empty df then no_data_report else fst (fst generated)) /\
    fst (fst generated)
    = _create_report lower render_template str_of_raised now
        (snd (fst generated)) df
        (_generate_ai_analysis llm_analysis (snd (fst generated)) df)
        (_generate_summary_statistics lower df) workflow_report_format.
Proof.
  intros lower re_findall llm_queries web_search scrape_profile
         enrich_record llm_analysis render_template str_of_raised now
         input max_results self out trace executor df generated.
  subst generated df executor trace out.
  rewrite WorkflowFacts.execute_workflow_unfold. cbn [fst snd].
  cbn [Pipeline.task_executor_agent Pipeline.cleaned_data
       Pipeline.final_report].
  destruct (PipelineFacts.execute_tasks_staged lower re_findall llm_queries
              web_search scrape_profile enrich_record now input max_results
              (Pipeline.task_executor_agent self)) as (search & Ht & Hs).
  destruct (PipelineFacts.execute_tasks_phase lower re_findall llm_queries
              web_search scrape_profile enrich_record now input max_results
              (Pipeline.task_executor_agent self)) as (search' & Ht' & Hp).
  rewrite Ht in Ht'. injection Ht' as <-.
  destruct (Pipeline.execute_tasks _ _ _ _ _ _ _ _ _ _) as [executor t].
  cbn [fst snd] in *. subst t.
  set (df := prepare_dataframe _ _).
  unfold Pipeline.report_ctx.
  cbn [Pipeline.user_input Pipeline.task_executor_agent].
  set (generated := generate_report _ _ _ _ _ _ _ _ _).
  assert (snd generated
          = [AIAnalysisWriter; StatisticsSummarizer; TemplateRenderer])
    as Hg by reflexivity.
  split; [|split; [exact Hg|split; [|split; [|split]; reflexivity]]].
  - exists search. split; [exact Hp|]. split; [apply Hs|]. split; [apply Hs|].
    destruct (df_empty df); simpl; rewrite <- ?app_assoc; reflexivity.
  - rewrite Hg.
    pose proof (WorkflowFacts.closing_staged
                  (match Pipeline.scraped_data executor with
                   | [] => false | _ :: _ => true end)
                  (negb (df_empty df))
                  (str_truthy (fst (fst generated)))) as Hc.
    pose proof (WorkflowFacts.run_in_order search _ Hs Hc) as Hrun.
    destruct (Pipeline.scraped_data executor); destruct (df_empty df);
      simpl in *; rewrite <- ?app_assoc; simpl; exact Hrun.
Qed.

(* ===================================================================== *)
(** * Further properties of the code *)
(* ===================================================================== *)

(* --------------------------------------------------------------------- *)
(** ** The search context *)

Lemma merge_unique_app (present new : list pystr) :
  exists added,
    merge_unique present new = present ++ added /\
    sublist added new /\
    NoDup added /\
    (forall u, u ∈ added <-> u ∈ new /\ u <> [] /\ u ∉ present).
Proof.
  revert present. induction new as [|u new IH]; intros present; simpl.
  - exists []. rewrite app_nil_r. split; [done|]. split; [done|].
    split; [constructor|]. intros u. split; [by intros ?%elem_of_nil|].
    by intros [?%elem_of_nil _].
  - destruct (str_truthy u) eqn:Hu; simpl.
    + case_bool_decide as Hin; simpl.
      * destruct (IH present) as (added & -> & Hsub & Hnd & Hiff).
        exists added. split; [done|]. split; [by apply sublist_cons|].
        split; [done|]. intros v. rewrite Hiff, elem_of_cons.
        split; [naive_solver|]. intros [[->|Hv] [Hne Hnp]]; done.
      * destruct (IH (present ++ [u])) as (added & -> & Hsub & Hnd & Hiff).
        exists (u :: added). rewrite <- app_assoc. split; [done|].
        split; [by apply sublist_skip|].
        split.
        { constructor; [|done]. rewrite Hiff.
          intros (_ & _ & Hn). apply Hn. set_solver. }
        intros v. rewrite !elem_of_cons, Hiff, elem_of_app, list_elem_of_singleton.
        assert (u <> []) by (by destruct u).
        destruct (decide (v = u)) as [->|Hvu]; naive_solver.
    + destruct (IH present) as (added & -> & Hsub & Hnd & Hiff).
      exists added. split; [done|]. split; [by apply sublist_cons|].
      split; [done|]. intros v. rewrite Hiff, elem_of_cons.
      assert (u = []) by (by destruct u). naive_solver.
Qed.

Lemma merge_unique_absorbs (present new : list pystr) :
  (forall u, u ∈ new -> u <> [] -> u ∈ present) ->
  merge_unique present new = present.
Proof.
  induction new as [|u new IH]; intros H; simpl; [done|].
  destruct (str_truthy u) eqn:Hu; simpl.
  - rewrite bool_decide_true; simpl.
    + apply IH. intros v Hv. apply H. by right.
    + apply H; [by left | by destruct u].
  - apply IH. intros v Hv. apply H. by right.
Qed.

Lemma merge_unique_idem (present new : list pystr) :
  merge_unique (merge_unique present new) new = merge_unique present new.
Proof.
  apply merge_unique_absorbs. intros u Hu Hne.
  destruct (merge_unique_app present new) as (added & -> & _ & _ & Hiff).
  rewrite elem_of_app, Hiff.
  destruct (decide (u ∈ present)); [by left | by right].
Qed.

(** X1. [_merge_search_context] only extends the two lists of the search
    context: the sources it leaves (and likewise the LinkedIn profiles)
    are the old ones, in their order, followed by the entries of the
    parsed response that are not empty and were not yet present, each once
    and in the order of the response; a list without duplicates stays
    without duplicates; and the answer is replaced exactly when the parsed
    answer is not empty. *)
Theorem merge_search_context_extends (ctx parsed : Sections) :
  let merged := _merge_search_context ctx parsed in
  merged_into (sources ctx) (sources parsed) (sources merged) /\
  merged_into (linkedin_profiles ctx) (linkedin_profiles parsed)
              (linkedin_profiles merged) /\
  (NoDup (sources ctx) -> NoDup (sources merged)) /\
  (NoDup (linkedin_profiles ctx) -> NoDup (linkedin_profiles merged)) /\
  answer merged = match answer parsed with
                  | [] => answer ctx
                  | _ :: _ => answer parsed
                  end.
Proof.
  assert (forall old new, merged_into old new (merge_unique old new)) as Hm.
  { intros old new. apply merge_unique_app. }
  assert (forall old new, NoDup old -> NoDup (merge_unique old new)) as Hnd.
  { intros old new Hold.
    destruct (merge_unique_app old new) as (added & -> & _ & Hadd & Hiff).
    apply NoDup_app. split; [done|]. split; [|done].
    intros u Hu Ha. apply Hiff in Ha. naive_solver. }
  simpl. split; [apply Hm|]. split; [apply Hm|].
  split; [apply Hnd|]. split; [apply Hnd|].
  by destruct (answer parsed).
Qed.

(** X2. Merging the same parsed response a second time changes nothing. *)
Theorem merge_search_context_idempotent (ctx parsed : Sections) :
  _merge_search_context (_merge_search_context ctx parsed) parsed
  = _merge_search_context ctx parsed.
Proof.
  unfold _merge_search_context. simpl. rewrite !merge_unique_idem.
  f_equal. by destruct (answer parsed).
Qed.

(* --------------------------------------------------------------------- *)
(** ** The search phase *)



Module ExecutorFacts.
Import Pipeline.

Section World.
Variable lower : pystr -> pystr.
Variable re_findall : pystr -> pystr -> list pystr.
Variable llm_queries : pystr -> pystr -> option (list pystr).
Variable web_search : pystr -> Z -> list Sections * list SearchResult.
Variable scrape_profile : pystr -> option Scraped.ScrapedData.
Variable enrich_record : pystr -> option Scraped.ScrapedData.
Variable now : pystr.



(** *** How many records a run collects *)

Lemma appended_refl (l : list Scraped.ScrapedData) : appended_at_most 0 l l.
Proof. exists []. by rewrite app_nil_r. Qed.

Lemma appended_trans a b c (x y z : list Scraped.ScrapedData) :
  appended_at_most a x y -> appended_at_most b y z -> a + b <= c ->
  appended_at_most c x z.
Proof.
  intros (l1 & -> & H1) (l2 & -> & H2) H. exists (l1 ++ l2).
  rewrite <- app_assoc. split; [done|]. rewrite length_app. lia.
Qed.

Lemma py_take_length {A : Type} (n : Z) (l : list A) :
  (0 <= n)%Z -> length (py_take n l) <= Z.to_nat n.
Proof.
  intros H. unfold py_take. destruct (0 <=? n)%Z eqn:E; [|lia].
  rewrite length_take. lia.
Qed.

Lemma omap_length {A B : Type} (f : A -> option B) (l : list A) :
  length (omap f l) <= length l.
Proof.
  induction l as [|x l IH]; [done|]. cbn [omap list_omap length].
  destruct (f x); cbn [length]; fold (omap f l); lia.
Qed.

Lemma perform_web_search_scraped queries max_results self :
  scraped_data (fst (_perform_web_search web_search queries max_results self))
  = scraped_data self.
Proof.
  unfold _perform_web_search.
  by destruct (fold_left _ queries _) as [[ctx results] t].
Qed.

Lemma scrape_linkedin_appends max_results self :
  (0 <= max_results)%Z ->
  appended_at_most (Z.to_nat max_results) (scraped_data self)
    (scraped_data
       (fst (_scrape_linkedin_profiles scrape_profile max_results self))).
Proof.
  intros H. unfold _scrape_linkedin_profiles.
  destruct (List.filter _ _) as [|u urls]; simpl.
  - eapply appended_trans; [apply appended_refl | apply appended_refl | ]. lia.
  - eexists. split; [done|]. etrans; [apply omap_length|].
    by apply py_take_length.
Qed.

Lemma scrape_linkedin_unchanged max_results self :
  List.filter is_linkedin_url (List.map url (search_results self)) = [] ->
  fst (_scrape_linkedin_profiles scrape_profile max_results self) = self.
Proof. unfold _scrape_linkedin_profiles. by intros ->. Qed.

Lemma enrich_loop_appends max_results urls :
  forall count acc,
    appended_at_most (Z.to_nat (max_results - count)) (fst acc)
      (fst (enrich_loop enrich_record max_results count urls acc)).
Proof.
  induction urls as [|u urls IH]; intros count acc; simpl.
  { exists []. rewrite app_nil_r. split; [done | simpl; lia]. }
  destruct (max_results <=? count)%Z eqn:E.
  { exists []. rewrite app_nil_r. split; [done | simpl; lia]. }
  apply Z.leb_gt in E. destruct (enrich_record u) as [d|].
  - eapply (appended_trans 1); [|apply IH|lia].
    exists [d]. by simpl.
  - eapply appended_trans; [|apply IH|]; [apply appended_refl | simpl; lia].
Qed.

Lemma scrape_other_appends max_results self :
  appended_at_most (Z.to_nat max_results) (scraped_data self)
    (scraped_data
       (fst (_scrape_other_websites enrich_record max_results self))).
Proof.
  unfold _scrape_other_websites.
  pose proof (enrich_loop_appends max_results
                (List.filter
                   (fun u => negb (is_linkedin_url u) && str_truthy u)
                   (List.map url (search_results self)))
                0 (scraped_data self, [])) as H.
  destruct (enrich_loop _ _ _ _ _) as [data t]. simpl in *.
  by rewrite Z.sub_0_r in H.
Qed.

Lemma scrape_specific_appends urls :
  forall acc,
    appended_at_most (length urls) (fst acc)
      (fst (fold_left (scrape_specific scrape_profile) urls acc)).
Proof.
  induction urls as [|u urls IH]; intros acc; simpl; [apply appended_refl|].
  eapply (appended_trans 1); [|apply IH|lia].
  unfold scrape_specific. destruct (is_linkedin_url u); simpl.
  - exists (option_list (scrape_profile u)). split; [done|].
    destruct (scrape_profile u); simpl; lia.
  - exists []. rewrite app_nil_r. split; [done | simpl; lia].
Qed.

Lemma scrape_specific_urls_appends urls max_results self :
  (0 <= max_results)%Z ->
  appended_at_most (Z.to_nat max_results) (scraped_data self)
    (scraped_data
       (fst (_scrape_specific_urls scrape_profile urls max_results self))).
Proof.
  intros H. unfold _scrape_specific_urls.
  pose proof (scrape_specific_appends (py_take max_results urls)
                (scraped_data self, [])) as Ha.
  destruct (fold_left _ _ _) as [data t]. simpl in *.
  eapply appended_trans; [apply Ha | apply appended_refl|].
  pose proof (py_take_length max_results urls H). lia.
Qed.

(** The loop with its counter and its [break] takes the first
    [max_results] plain links. *)
Lemma minimal_loop_take max_results results :
  forall count data,
    minimal_loop now max_results count results data
    = data ++ List.map (minimal_entry now)
                (take (Z.to_nat (max_results - count))
                      (List.filter plain_link results)).
Proof.
  induction results as [|r results IH]; intros count data; simpl.
  { by rewrite take_nil, app_nil_r. }
  destruct (max_results <=? count)%Z eqn:E.
  { apply Z.leb_le in E. replace (Z.to_nat (max_results - count)) with 0 by lia.
    by rewrite take_0, app_nil_r. }
  apply Z.leb_gt in E. unfold plain_link at 1.
  destruct (str_truthy (url r)); simpl; [|apply IH].
  destruct (is_linkedin_url (url r)); simpl; [apply IH|].
  rewrite IH, <- app_assoc. simpl.
  replace (Z.to_nat (max_results - count))
    with (S (Z.to_nat (max_results - (count + 1)))) by lia.
  reflexivity.
Qed.

Lemma execute_search_appends search_type input max_results self :
  appended_at_most (Z.to_nat max_results) (scraped_data self)
    (scraped_data
       (fst (_execute_search llm_queries web_search enrich_record
               search_type input max_results self))).
Proof.
  unfold _execute_search.
  destruct (_generate_search_queries _ _ _) as [queries t0].
  pose proof (PipelineFacts.andthen_fst
                (_perform_web_search web_search queries max_results self)
                (_scrape_other_websites enrich_record max_results)) as Hf.
  destruct (andthen _ _) as [self' t]. simpl in *. subst self'.
  eapply appended_trans; [|apply scrape_other_appends|].
  - rewrite perform_web_search_scraped. apply appended_refl.
  - lia.
Qed.

Lemma execute_web_only_scraped input max_results self :
  let out := fst (_execute_web_only llm_queries web_search scrape_profile now
                    input max_results self) in
  scraped_data out
  = scraped_data self
    ++ omap scrape_profile
         (py_take max_results
            (List.filter is_linkedin_url (List.map url (search_results out))))
    ++ List.map (minimal_entry now)
         (take (Z.to_nat max_results)
               (List.filter plain_link (search_results out))).
Proof.
  unfold _execute_web_only.
  destruct (_generate_search_queries _ _ _) as [queries t0].
  pose proof (perform_web_search_scraped queries max_results self) as Hs.
  destruct (_perform_web_search _ queries _ _) as [self1 t1]. simpl in Hs.
  assert (existsb (fun r => is_linkedin_url (url r))
                  (List.filter (fun r => str_truthy (url r))
                               (search_results self1))
          = match List.filter is_linkedin_url
                    (List.map url (search_results self1)) with
            | [] => false
            | _ :: _ => true
            end) as Hp.
  { induction (search_results self1) as [|r rs IH]; simpl; [done|].
    destruct (url r) as [|c u] eqn:Hu; simpl; [apply IH|].
    rewrite Hu. destruct (is_linkedin_url (c :: u)); simpl; [done | apply IH]. }
  rewrite Hp. unfold _scrape_linkedin_profiles.
  destruct (List.filter is_linkedin_url _) as [|u urls] eqn:Hf; simpl.
  - rewrite Hf. rewrite minimal_loop_take, Z.sub_0_r, Hs.
    unfold py_take. destruct (0 <=? max_results)%Z; by rewrite take_nil.
  - rewrite Hf. rewrite minimal_loop_take, Z.sub_0_r, Hs.
    by rewrite <- app_assoc.
Qed.

Lemma execute_web_only_appends input max_results self :
  (0 <= max_results)%Z ->
  appended_at_most (2 * Z.to_nat max_results) (scraped_data self)
    (scraped_data
       (fst (_execute_web_only llm_queries web_search scrape_profile now
               input max_results self))).
Proof.
  intros H. rewrite execute_web_only_scraped. eexists. split; [done|].
  rewrite length_app, length_map, length_take.
  pose proof (omap_length scrape_profile
                (py_take max_results
                   (List.filter is_linkedin_url
                      (List.map url
                         (search_results
                            (fst (_execute_web_only llm_queries web_search
                                    scrape_profile now input max_results
                                    self))))))) as H1.
  pose proof (py_take_length max_results
                (List.filter is_linkedin_url
                   (List.map url
                      (search_results
                         (fst (_execute_web_only llm_queries web_search
                                 scrape_profile now input max_results
                                 self))))) H) as H2.
  lia.
Qed.

Lemma execute_linkedin_search_appends input max_results self :
  (0 <= max_results)%Z ->
  appended_at_most (2 * Z.to_nat max_results) (scraped_data self)
    (scraped_data
       (fst (_execute_linkedin_search llm_queries web_search scrape_profile
               enrich_record input max_results self))).
Proof.
  intros H. unfold _execute_linkedin_search.
  destruct (_generate_search_queries _ _ _) as [queries t0].
  set (searched := _perform_web_search web_search queries max_results self).
  set (first := andthen searched
                  (_scrape_linkedin_profiles scrape_profile max_results)).
  assert (fst first
          = fst (_scrape_linkedin_profiles scrape_profile max_results
                   (fst searched))) as Hfirst
    by apply PipelineFacts.andthen_fst.
  assert (scraped_data (fst searched) = scraped_data self) as Hsearched
    by apply perform_web_search_scraped.
  assert (search_results (fst first) = search_results (fst searched)) as Hres.
  { rewrite Hfirst. apply PipelineFacts.scrape_linkedin_search_results. }
  set (second := match List.filter is_linkedin_url
                         (List.map url (search_results (fst first))) with
                 | [] => _
                 | _ :: _ => first
                 end).
  assert (appended_at_most (Z.to_nat max_results) (scraped_data self)
            (scraped_data (fst second))) as Hsecond.
  { subst second.
    destruct (List.filter is_linkedin_url
                (List.map url (search_results (fst first)))) eqn:Hf.
    - rewrite !PipelineFacts.andthen_fst.
      eapply appended_trans; [|by apply scrape_linkedin_appends|].
      + rewrite perform_web_search_scraped, Hfirst.
        rewrite scrape_linkedin_unchanged; [|by rewrite <- Hres].
        rewrite Hsearched. apply appended_refl.
      + lia.
    - rewrite Hfirst, <- Hsearched. by apply scrape_linkedin_appends. }
  pose proof (PipelineFacts.andthen_fst second
                (_scrape_other_websites enrich_record max_results)) as Hf.
  destruct (andthen second _) as [self' t]. simpl in *. subst self'.
  eapply appended_trans; [apply Hsecond | apply scrape_other_appends | lia].
Qed.

Lemma execute_data_scraping_appends input max_results self :
  (0 <= max_results)%Z ->
  appended_at_most (Z.to_nat max_results) (scraped_data self)
    (scraped_data
       (fst (_execute_data_scraping re_findall llm_queries web_search
               scrape_profile enrich_record input max_results self))).
Proof.
  intros H. unfold _execute_data_scraping.
  destruct (_extract_urls_from_input _ _).
  - apply execute_search_appends.
  - by apply scrape_specific_urls_appends.
Qed.

Lemma appended_weaken a b (x y : list Scraped.ScrapedData) :
  appended_at_most a x y -> a <= b -> appended_at_most b x y.
Proof. intros (l & -> & H) Hab. exists l. split; [done | lia]. Qed.

(** X4. For a bound [max_results] that is not negative, [execute_tasks]
    only appends to the scraped data of the executor, and appends at most
    twice [max_results] records. *)
Theorem execute_tasks_record_bound input max_results self :
  (0 <= max_results)%Z ->
  appended_at_most (2 * Z.to_nat max_results) (scraped_data self)
    (scraped_data
       (fst (execute_tasks lower re_findall llm_queries web_search
               scrape_profile enrich_record now input max_results self))).
Proof.
  intros H. unfold execute_tasks.
  pose proof (execute_linkedin_search_appends input max_results self H) as H1.
  pose proof (execute_web_only_appends input max_results self H) as H2.
  pose proof (execute_search_appends (lit "web") input max_results self) as H3.
  pose proof (execute_data_scraping_appends input max_results self H) as H4.
  repeat case_bool_decide.
  - by destruct (_execute_linkedin_search _ _ _ _ _ _ _).
  - by destruct (_execute_web_only _ _ _ _ _ _ _).
  - destruct (_execute_search _ _ _ _ _ _ _). simpl in *.
    eapply appended_weaken; [done | lia].
  - destruct (_execute_data_scraping _ _ _ _ _ _ _ _). simpl in *.
    eapply appended_weaken; [done | lia].
  - by destruct (_execute_web_only _ _ _ _ _ _ _).
Qed.

(** *** How many searches a run issues *)

Lemma invocations_app c (t1 t2 : Trace) :
  invocations c (t1 ++ t2) = invocations c t1 + invocations c t2.
Proof. unfold invocations. by rewrite List.filter_app, length_app. Qed.

Lemma invocations_staged c lo hi (t : Trace) :
  staged lo hi t -> ~ lo <= stage c <= hi -> invocations c t = 0.
Proof.
  intros [_ H] Hc. unfold invocations.
  induction H as [|d t Hd Ht IH]; simpl; [done|].
  case_bool_decide as E; [|done]. subst d. by destruct Hc.
Qed.

Lemma search_fold_invocations bound queries :
  forall acc,
    invocations WebSearchExecutor
      (snd (fold_left (search_query web_search bound) queries acc))
    = invocations WebSearchExecutor (snd acc) + length queries.
Proof.
  induction queries as [|q queries IH]; intros acc; simpl; [lia|].
  rewrite IH. destruct acc as [[ctx results] t]. unfold search_query.
  destruct (web_search q bound) as [parsed found]. simpl.
  rewrite invocations_app.
  change (invocations WebSearchExecutor
            [WebSearchExecutor; FilePersistence SearchResponse]) with 1.
  simpl. lia.
Qed.

Lemma perform_web_search_invocations queries max_results self :
  invocations WebSearchExecutor
    (snd (_perform_web_search web_search queries max_results self))
  = length queries.
Proof.
  unfold _perform_web_search.
  pose proof (search_fold_invocations
                (max_results / Z.of_nat (length queries)) queries
                (last_search_context self, [], [])) as H.
  by destruct (fold_left _ queries _) as [[ctx results] t].
Qed.

Lemma generate_queries_length input search_type :
  length (fst (_generate_search_queries llm_queries input search_type)) <= 2.
Proof.
  unfold _generate_search_queries, _generate_fallback_queries. simpl.
  destruct (llm_queries input search_type) as [queries|].
  - rewrite length_take. lia.
  - by case_bool_decide.
Qed.

Lemma perform_web_search_no_query queries max_results self :
  invocations QueryGenerator
    (snd (_perform_web_search web_search queries max_results self)) = 0.
Proof.
  eapply invocations_staged;
    [apply PipelineFacts.perform_web_search_staged | simpl; lia].
Qed.

Lemma scrape_linkedin_no_search c max_results self :
  stage c <= 2 ->
  invocations c
    (snd (_scrape_linkedin_profiles scrape_profile max_results self)) = 0.
Proof.
  intros H. eapply invocations_staged;
    [apply PipelineFacts.scrape_linkedin_staged | lia].
Qed.

Lemma scrape_other_no_search c max_results self :
  stage c <= 2 ->
  invocations c
    (snd (_scrape_other_websites enrich_record max_results self)) = 0.
Proof.
  intros H. eapply invocations_staged;
    [apply PipelineFacts.scrape_other_staged | lia].
Qed.

Lemma scrape_specific_no_search c urls max_results self :
  stage c <= 2 ->
  invocations c
    (snd (_scrape_specific_urls scrape_profile urls max_results self)) = 0.
Proof.
  intros H. eapply invocations_staged;
    [apply PipelineFacts.scrape_specific_staged | lia].
Qed.

Lemma execute_search_budget search_type input max_results self :
  let t := snd (_execute_search llm_queries web_search enrich_record
                  search_type input max_results self) in
  invocations QueryGenerator t = 1 /\ invocations WebSearchExecutor t <= 2.
Proof.
  unfold _execute_search.
  pose proof (generate_queries_length input search_type) as Hl.
  pose proof (PipelineFacts.generate_queries_trace llm_queries input
                search_type) as Ht0.
  destruct (_generate_search_queries _ _ _) as [queries t0].
  simpl in Hl, Ht0. subst t0.
  pose proof (PipelineFacts.andthen_snd
                (_perform_web_search web_search queries max_results self)
                (_scrape_other_websites enrich_record max_results)) as Hs.
  destruct (andthen _ _) as [self' t]. cbn [fst snd] in *. subst t.
  rewrite !invocations_app, perform_web_search_invocations,
    perform_web_search_no_query, !scrape_other_no_search by (simpl; lia).
  change (invocations QueryGenerator [QueryGenerator]) with 1.
  change (invocations WebSearchExecutor [QueryGenerator]) with 0.
  lia.
Qed.

Lemma execute_web_only_budget input max_results self :
  let t := snd (_execute_web_only llm_queries web_search scrape_profile now
                  input max_results self) in
  invocations QueryGenerator t = 1 /\ invocations WebSearchExecutor t <= 2.
Proof.
  unfold _execute_web_only.
  pose proof (generate_queries_length input (lit "web")) as Hl.
  pose proof (PipelineFacts.generate_queries_trace llm_queries input
                (lit "web")) as Ht0.
  destruct (_generate_search_queries _ _ _) as [queries t0].
  simpl in Hl, Ht0. subst t0.
  pose proof (perform_web_search_invocations queries max_results self) as Hw.
  pose proof (perform_web_search_no_query queries max_results self) as Hq.
  destruct (_perform_web_search _ queries _ _) as [self1 t1]. simpl in Hw, Hq.
  pose proof (scrape_linkedin_no_search QueryGenerator max_results self1)
    as Hq2.
  pose proof (scrape_linkedin_no_search WebSearchExecutor max_results self1)
    as Hw2.
  destruct (existsb _ _).
  - destruct (_scrape_linkedin_profiles _ _ _) as [self2 t2].
    cbn [fst snd] in *.
    rewrite !invocations_app, Hw, Hq, Hq2, Hw2 by (simpl; lia).
    change (invocations QueryGenerator [QueryGenerator]) with 1.
    change (invocations WebSearchExecutor [QueryGenerator]) with 0.
    lia.
  - cbn [fst snd]. rewrite !invocations_app, Hw, Hq.
    change (invocations QueryGenerator [QueryGenerator]) with 1.
    change (invocations WebSearchExecutor [QueryGenerator]) with 0.
    change (invocations QueryGenerator []) with 0.
    change (invocations WebSearchExecutor []) with 0.
    lia.
Qed.

Lemma execute_linkedin_search_budget input max_results self :
  let t := snd (_execute_linkedin_search llm_queries web_search
                  scrape_profile enrich_record input max_results self) in
  invocations QueryGenerator t = 1 /\ invocations WebSearchExecutor t <= 4.
Proof.
  unfold _execute_linkedin_search.
  pose proof (generate_queries_length input (lit "linkedin")) as Hl.
  pose proof (PipelineFacts.generate_queries_trace llm_queries input
                (lit "linkedin")) as Ht0.
  destruct (_generate_search_queries _ _ _) as [queries t0].
  simpl in Hl, Ht0. subst t0.
  set (first := andthen
                  (_perform_web_search web_search queries max_results self)
                  (_scrape_linkedin_profiles scrape_profile max_results)).
  assert (invocations QueryGenerator (snd first) = 0 /\
          invocations WebSearchExecutor (snd first) <= 2) as [Hq1 Hw1].
  { subst first. rewrite PipelineFacts.andthen_snd, !invocations_app,
      perform_web_search_invocations, perform_web_search_no_query,
      !scrape_linkedin_no_search by (simpl; lia). lia. }
  set (second := match List.filter is_linkedin_url
                         (List.map url (search_results (fst first))) with
                 | [] => _
                 | _ :: _ => first
                 end).
  assert (invocations QueryGenerator (snd second) = 0 /\
          invocations WebSearchExecutor (snd second) <= 4) as [Hq2 Hw2].
  { subst second.
    destruct (List.filter is_linkedin_url
                (List.map url (search_results (fst first)))); [|lia].
    rewrite !PipelineFacts.andthen_snd, !invocations_app,
      perform_web_search_invocations, perform_web_search_no_query,
      !scrape_linkedin_no_search by (simpl; lia).
    simpl. lia. }
  pose proof (PipelineFacts.andthen_snd second
                (_scrape_other_websites enrich_record max_results)) as Hs.
  destruct (andthen second _) as [self' t]. cbn [fst snd] in *. subst t.
  rewrite !invocations_app, !scrape_other_no_search by (simpl; lia).
  change (invocations QueryGenerator [QueryGenerator]) with 1.
  change (invocations WebSearchExecutor [QueryGenerator]) with 0.
  lia.
Qed.

Lemma execute_data_scraping_budget input max_results self :
  let t := snd (_execute_data_scraping re_findall llm_queries web_search
                  scrape_profile enrich_record input max_results self) in
  invocations QueryGenerator t <= 1 /\ invocations WebSearchExecutor t <= 2.
Proof.
  unfold _execute_data_scraping.
  destruct (_extract_urls_from_input _ _).
  - pose proof (execute_search_budget (lit "generic") input max_results self)
      as H. cbn zeta in H. lia.
  - rewrite !scrape_specific_no_search by (simpl; lia). lia.
Qed.

Lemma scrape_linkedin_sessions max_results self :
  invocations LinkedInScraper
    (snd (_scrape_linkedin_profiles scrape_profile max_results self))
  = match List.filter is_linkedin_url (List.map url (search_results self)) with
    | [] => 0
    | _ :: _ => 1
    end.
Proof. unfold _scrape_linkedin_profiles. by destruct (List.filter _ _). Qed.

Lemma perform_web_search_no_session queries max_results self :
  invocations LinkedInScraper
    (snd (_perform_web_search web_search queries max_results self)) = 0.
Proof.
  eapply invocations_staged;
    [apply PipelineFacts.perform_web_search_staged | simpl; lia].
Qed.

Lemma scrape_other_no_session max_results self :
  invocations LinkedInScraper
    (snd (_scrape_other_websites enrich_record max_results self)) = 0.
Proof.
  eapply invocations_staged;
    [apply PipelineFacts.scrape_other_staged | simpl; lia].
Qed.

Lemma scrape_specific_sessions urls :
  forall acc,
    invocations LinkedInScraper
      (snd (fold_left (scrape_specific scrape_profile) urls acc))
    <= invocations LinkedInScraper (snd acc) + length urls.
Proof.
  induction urls as [|u urls IH]; intros acc; simpl; [lia|].
  etrans; [apply IH|]. unfold scrape_specific.
  destruct (is_linkedin_url u); simpl; [|lia].
  rewrite invocations_app.
  change (invocations LinkedInScraper [LinkedInScraper]) with 1. lia.
Qed.

Lemma execute_search_sessions search_type input max_results self :
  invocations LinkedInScraper
    (snd (_execute_search llm_queries web_search enrich_record
            search_type input max_results self)) = 0.
Proof.
  unfold _execute_search.
  pose proof (PipelineFacts.generate_queries_trace llm_queries input
                search_type) as Ht0.
  destruct (_generate_search_queries _ _ _) as [queries t0].
  simpl in Ht0. subst t0.
  pose proof (PipelineFacts.andthen_snd
                (_perform_web_search web_search queries max_results self)
                (_scrape_other_websites enrich_record max_results)) as Hs.
  destruct (andthen _ _) as [self' t]. cbn [fst snd] in *. subst t.
  by rewrite !invocations_app, perform_web_search_no_session,
    scrape_other_no_session.
Qed.

Lemma execute_web_only_sessions input max_results self :
  invocations LinkedInScraper
    (snd (_execute_web_only llm_queries web_search scrape_profile now
            input max_results self)) <= 1.
Proof.
  unfold _execute_web_only.
  pose proof (PipelineFacts.generate_queries_trace llm_queries input
                (lit "web")) as Ht0.
  destruct (_generate_search_queries _ _ _) as [queries t0].
  simpl in Ht0. subst t0.
  pose proof (perform_web_search_no_session queries max_results self) as Hp.
  destruct (_perform_web_search _ queries _ _) as [self1 t1]. simpl in Hp.
  pose proof (scrape_linkedin_sessions max_results self1) as Hl.
  destruct (existsb _ _).
  - destruct (_scrape_linkedin_profiles _ _ _) as [self2 t2].
    cbn [fst snd] in *. rewrite !invocations_app, Hp, Hl.
    change (invocations LinkedInScraper [QueryGenerator]) with 0.
    destruct (List.filter _ _); lia.
  - cbn [fst snd]. rewrite !invocations_app, Hp.
    change (invocations LinkedInScraper [QueryGenerator]) with 0.
    change (invocations LinkedInScraper []) with 0. lia.
Qed.

Lemma execute_linkedin_search_sessions input max_results self :
  invocations LinkedInScraper
    (snd (_execute_linkedin_search llm_queries web_search scrape_profile
            enrich_record input max_results self)) <= 1.
Proof.
  unfold _execute_linkedin_search.
  pose proof (PipelineFacts.generate_queries_trace llm_queries input
                (lit "linkedin")) as Ht0.
  destruct (_generate_search_queries _ _ _) as [queries t0].
  simpl in Ht0. subst t0.
  set (searched := _perform_web_search web_search queries max_results self).
  set (first := andthen searched
                  (_scrape_linkedin_profiles scrape_profile max_results)).
  assert (search_results (fst first) = search_results (fst searched)) as Hres.
  { subst first. rewrite PipelineFacts.andthen_fst.
    apply PipelineFacts.scrape_linkedin_search_results. }
  assert (invocations LinkedInScraper (snd first)
          = match List.filter is_linkedin_url
                    (List.map url (search_results (fst first))) with
            | [] => 0
            | _ :: _ => 1
            end) as Hfirst.
  { subst first. rewrite PipelineFacts.andthen_snd, invocations_app.
    rewrite PipelineFacts.andthen_fst,
      PipelineFacts.scrape_linkedin_search_results.
    subst searched.
    by rewrite perform_web_search_no_session, scrape_linkedin_sessions. }
  set (second := match List.filter is_linkedin_url
                         (List.map url (search_results (fst first))) with
                 | [] => _
                 | _ :: _ => first
                 end).
  assert (invocations LinkedInScraper (snd second) <= 1) as Hsecond.
  { subst second.
    destruct (List.filter is_linkedin_url
                (List.map url (search_results (fst first)))); [|lia].
    rewrite !PipelineFacts.andthen_snd, !invocations_app, Hfirst,
      perform_web_search_no_session, scrape_linkedin_sessions.
    destruct (List.filter _ _); lia. }
  pose proof (PipelineFacts.andthen_snd second
                (_scrape_other_websites enrich_record max_results)) as Hs.
  destruct (andthen second _) as [self' t]. cbn [fst snd] in *. subst t.
  rewrite !invocations_app, scrape_other_no_session.
  change (invocations LinkedInScraper [QueryGenerator]) with 0. lia.
Qed.

Lemma execute_data_scraping_sessions input max_results self :
  (0 <= max_results)%Z ->
  invocations LinkedInScraper
    (snd (_execute_data_scraping re_findall llm_queries web_search
            scrape_profile enrich_record input max_results self))
  <= Z.to_nat max_results.
Proof.
  intros H. unfold _execute_data_scraping.
  destruct (_extract_urls_from_input _ _) as [|u urls].
  - rewrite execute_search_sessions. lia.
  - unfold _scrape_specific_urls.
    pose proof (scrape_specific_sessions (py_take max_results (u :: urls))
                  (scraped_data self, [])) as Hs.
    destruct (fold_left _ _ _) as [data t]. cbn [fst snd] in *.
    change (invocations LinkedInScraper []) with 0 in Hs.
    pose proof (py_take_length max_results (u :: urls) H). lia.
Qed.

(** X5. Whatever the request and the answers of the outside world, one
    call of [execute_tasks] classifies the request once, generates queries
    at most once, runs at most four web searches and, for a bound
    [max_results] that is not negative, opens at most max(max_results, 1)
    browser sessions. *)
Theorem execute_tasks_search_budget input max_results self :
  let t := snd (execute_tasks lower re_findall llm_queries web_search
                  scrape_profile enrich_record now input max_results self) in
  invocations IntentClassifier t = 1 /\
  invocations QueryGenerator t <= 1 /\
  invocations WebSearchExecutor t <= 4 /\
  ((0 <= max_results)%Z ->
   invocations LinkedInScraper t <= Z.to_nat (Z.max max_results 1)).
Proof.
  pose proof (PipelineFacts.execute_tasks_staged lower re_findall llm_queries
                web_search scrape_profile enrich_record now input
                max_results self) as Hst.
  unfold execute_tasks in *.
  pose proof (execute_linkedin_search_budget input max_results self) as H1.
  pose proof (execute_web_only_budget input max_results self) as H2.
  pose proof (execute_search_budget (lit "web") input max_results self) as H3.
  pose proof (execute_data_scraping_budget input max_results self) as H4.
  set (branch := if bool_decide (_ = lit "linkedin_search") then _ else _)
    in *.
  assert (invocations QueryGenerator (snd branch) <= 1 /\
          invocations WebSearchExecutor (snd branch) <= 4) as [Hq Hw].
  { subst branch. cbn zeta in *. repeat case_bool_decide; lia. }
  assert ((0 <= max_results)%Z ->
          invocations LinkedInScraper (snd branch)
          <= Z.to_nat (Z.max max_results 1)) as Hs.
  { intros H.
    pose proof (execute_linkedin_search_sessions input max_results self).
    pose proof (execute_web_only_sessions input max_results self).
    pose proof (execute_search_sessions (lit "web") input max_results self).
    pose proof (execute_data_scraping_sessions input max_results self H).
    subst branch. repeat case_bool_decide; lia. }
  destruct branch as [self' t]. cbn [fst snd] in *.
  change (IntentClassifier :: t) with ([IntentClassifier] ++ t).
  rewrite !invocations_app.
  change (invocations IntentClassifier [IntentClassifier]) with 1.
  change (invocations QueryGenerator [IntentClassifier]) with 0.
  change (invocations WebSearchExecutor [IntentClassifier]) with 0.
  change (invocations LinkedInScraper [IntentClassifier]) with 0.
  split; [|split; [lia | split; [lia | done]]].
  destruct Hst as (rest & E & Hrest). injection E as <-.
  rewrite (invocations_staged IntentClassifier 1 4 t Hrest); [done|].
  simpl. lia.
Qed.

(** *** A scraping request that names pages *)

Lemma scrape_specific_plain urls :
  Forall (fun u => is_linkedin_url u = false) urls ->
  forall acc, fold_left (scrape_specific scrape_profile) urls acc = acc.
Proof.
  induction 1 as [|u urls Hu _ IH]; intros acc; simpl; [done|].
  unfold scrape_specific at 2. rewrite Hu. apply IH.
Qed.

Lemma execute_data_scraping_plain input max_results self :
  _extract_urls_from_input re_findall input <> [] ->
  Forall (fun u => is_linkedin_url u = false)
         (_extract_urls_from_input re_findall input) ->
  _execute_data_scraping re_findall llm_queries web_search scrape_profile
    enrich_record input max_results self
  = (self, []).
Proof.
  intros Hne Hall. unfold _execute_data_scraping.
  destruct (_extract_urls_from_input re_findall input) as [|u urls]; [done|].
  unfold _scrape_specific_urls. rewrite scrape_specific_plain.
  - by destruct self.
  - unfold py_take. destruct (0 <=? max_results)%Z; by apply Forall_take.
Qed.

(** *** The entries of a web-only run *)




(** *** The scraping loops *)



Lemma scrape_specific_fold urls :
  forall acc,
    fst (fold_left (scrape_specific scrape_profile) urls acc)
    = fst acc ++ omap scrape_profile (List.filter is_linkedin_url urls).
Proof.
  induction urls as [|u urls IH]; intros acc; simpl.
  { by rewrite app_nil_r. }
  rewrite IH. unfold scrape_specific.
  destruct (is_linkedin_url u); [|done].
  cbn [fst omap list_omap]. rewrite <- app_assoc. f_equal.
  by destruct (scrape_profile u).
Qed.

(** X23. [_scrape_specific_urls] looks at the first [max_results] links
    only and appends the profiles scraped from those of them that are
    LinkedIn profile URLs, in their order; every other link is passed
    over. The search results and the search context are unchanged. *)
Theorem scrape_specific_urls_records (urls : list pystr) (max_results : Z)
    (self : Executor) :
  let out := fst (_scrape_specific_urls scrape_profile urls max_results self)
  in
  scraped_data out
  = scraped_data self
    ++ omap scrape_profile
         (List.filter is_linkedin_url (py_take max_results urls)) /\
  search_results out = search_results self /\
  last_search_context out = last_search_context self.
Proof.
  unfold _scrape_specific_urls.
  pose proof (scrape_specific_fold (py_take max_results urls)
                (scraped_data self, [])) as H.
  by destruct (fold_left _ _ _) as [data t].
Qed.
End World.
End ExecutorFacts.

(** The bound of X4 on the sample search. *)
Lemma execute_tasks_record_bound_witness :
  (0 <= 1)%Z /\
  appended_at_most (2 * Z.to_nat 1)
    (Pipeline.scraped_data Pipeline.Executor_init)
    (Pipeline.scraped_data (fst SampleSearch.executed)).
Proof.
  split; [lia|].
  apply (ExecutorFacts.execute_tasks_record_bound ascii_lower (fun _ _ => [])
           (fun _ _ => None) SampleSearch.web_search
           SampleSearch.scrape_profile (fun _ => None)
           (lit "2026-01-01 00:00:00") (lit "what is rocq") 1
           Pipeline.Executor_init).
  lia.
Defined.

(** On the sample search the bound is reached: with [max_results] 1 the
    run collects a profile and a minimal entry. *)
Example execute_tasks_record_bound_reached :
  length (Pipeline.scraped_data (fst SampleSearch.executed)) = 2 /\
  List.map Scraped.source (Pipeline.scraped_data (fst SampleSearch.executed))
  = [lit "LinkedIn"; lit "Compound-Beta"].
Proof. by vm_compute. Qed.

(* --------------------------------------------------------------------- *)
(** ** The links taken from a raw response *)

Lemma unique_links_spec (max_n : Z) (urls : list pystr) :
  forall (seen : gset pystr) (unique : list pystr),
    (forall u, u ∈ seen <-> u ∈ unique) ->
    NoDup unique ->
    (Z.of_nat (length unique) < max_n)%Z \/ unique = [] ->
    let found := unique_links max_n urls seen unique in
    NoDup found /\
    (exists added, found = unique ++ added /\ sublist added urls) /\
    (Z.of_nat (length found) <= Z.max max_n 1)%Z /\
    ((Z.of_nat (length found) < max_n)%Z -> forall u, u ∈ urls -> u ∈ found) /\
    (urls <> [] -> found <> []).
Proof.
  induction urls as [|u urls IH]; intros seen unique Hseen Hnd Hlen; simpl.
  { split; [done|]. split; [exists []; by rewrite app_nil_r|].
    split; [destruct Hlen as [?| ->]; simpl; lia|].
    split; [by intros _ ? ?%elem_of_nil | done]. }
  case_bool_decide as Hin.
  - destruct (IH seen unique Hseen Hnd Hlen)
      as (Hnd' & (added & E & Hsub) & Hb & Hall & _).
    split; [done|]. split; [exists added; split; [done | by apply sublist_cons]|].
    split; [done|]. split.
    + intros Hl v [->|Hv]%elem_of_cons; [|by apply Hall].
      rewrite E. apply elem_of_app. left. by apply Hseen.
    + intros _ E'. rewrite E' in E. symmetry in E.
      apply app_eq_nil in E as [-> _]. apply Hseen in Hin.
      by apply elem_of_nil in Hin.
  - assert (NoDup (unique ++ [u])) as Hnd1.
    { apply NoDup_app. split; [done|]. split; [|apply NoDup_singleton].
      intros v Hv ->%list_elem_of_singleton. by apply Hin, Hseen. }
    destruct (max_n <=? Z.of_nat (length (unique ++ [u])))%Z eqn:E.
    + apply Z.leb_le in E. rewrite length_app in *. simpl in *.
      split; [done|].
      split; [exists [u]; split; [done|]; apply sublist_skip, sublist_nil_l|].
      split; [destruct Hlen as [?| ->]; simpl; lia|].
      split; [lia | by destruct unique].
    + apply Z.leb_gt in E.
      destruct (IH ({[u]} ∪ seen) (unique ++ [u]))
        as (Hnd' & (added & E' & Hsub) & Hb & Hall & _); [|done|by left|].
      { intros v. rewrite elem_of_union, elem_of_singleton, elem_of_app,
          list_elem_of_singleton, Hseen. tauto. }
      split; [done|].
      split.
      { exists (u :: added). rewrite E', <- app_assoc.
        split; [done | by apply sublist_skip]. }
      split; [done|]. split.
      * intros Hl v [->|Hv]%elem_of_cons; [|by apply Hall].
        rewrite E'. rewrite !elem_of_app, list_elem_of_singleton. tauto.
      * intros _ E''. rewrite E'' in E'. symmetry in E'.
        apply app_eq_nil in E' as [E' _]. by destruct unique.
Qed.

(** X7. [_extract_search_results_from_text] returns one result per link,
    built from the link alone; the links are pairwise distinct and in the
    order in which [re.findall] found them; there are at most [max_n] of
    them, but one when [max_n] is below 1 (the bound is tested after a
    link has been appended); when fewer than [max_n] are returned, every
    link found is among them; and the result is empty exactly when no link
    is found. *)
Theorem extract_search_results_from_text_links
    (re_findall : pystr -> pystr -> list pystr) (text : pystr) (max_n : Z) :
  let links := re_findall link_pattern text in
  let results := _extract_search_results_from_text re_findall text max_n in
  results = List.map link_result (List.map url results) /\
  NoDup (List.map url results) /\
  sublist (List.map url results) links /\
  (Z.of_nat (length results) <= Z.max max_n 1)%Z /\
  ((Z.of_nat (length results) < max_n)%Z ->
   forall u, u ∈ links -> u ∈ List.map url results) /\
  (results = [] <-> links = []).
Proof.
  intros links results. subst results links.
  unfold _extract_search_results_from_text.
  set (links := re_findall link_pattern text).
  destruct (unique_links_spec max_n links ∅ [])
    as (Hnd & (added & E & Hsub) & Hb & Hall & Hne);
    [set_solver | constructor | by right |].
  assert (List.map url (List.map link_result (unique_links max_n links ∅ []))
          = unique_links max_n links ∅ []) as Hurl.
  { rewrite List.map_map. apply List.map_id. }
  rewrite Hurl, length_map. simpl in E. rewrite <- E in Hsub.
  split; [done|]. split; [done|]. split; [done|]. split; [done|].
  split; [done|]. split.
  - intros H. apply (f_equal (List.map url)) in H. rewrite Hurl in H.
    destruct links; [done|]. by destruct Hne.
  - intros H. rewrite H. reflexivity.
Qed.

(* --------------------------------------------------------------------- *)
(** ** The results of a run *)

Lemma prepare_dataframe_size (scraped_data : list Item) (ans : pystr) :
  df_len (prepare_dataframe scraped_data ans)
  = match scraped_data with
    | [] => if str_truthy ans then 1 else 0
    | _ :: _ => length scraped_data
    end /\
  df_empty (prepare_dataframe scraped_data ans)
  = match scraped_data with
    | [] => negb (str_truthy ans)
    | _ :: _ => false
    end.
Proof.
  destruct scraped_data as [|item items].
  { destruct ans as [|c ans]; by vm_compute. }
  set (l := item :: items). unfold prepare_dataframe.
  rewrite <- (List.map_map item_row record_of).
  rewrite DataFrame_of_records_assembled by done.
  assert (df_empty {| columns := kept_fields;
                      rows := List.map record_of (List.map item_row l) |}
          = false) as He by reflexivity.
  rewrite He. cbn [negb].
  assert (df_empty
            (set_column {| columns := kept_fields;
                           rows := List.map record_of (List.map item_row l) |}
               (lit "all_skills")
               (List.map to_list_safe
                  (column {| columns := kept_fields;
                             rows := List.map record_of (List.map item_row l) |}
                          (lit "skills")))) = false) as He' by reflexivity.
  rewrite He', andb_false_r. split; [|done].
  unfold set_column, column, df_len. cbn [columns rows].
  rewrite (List.map_map _ to_list_safe), zip_with_map_same.
  by rewrite !length_map.
Qed.

Module RunFacts.
Import Pipeline.

Section World.
Variable lower : pystr -> pystr.
Variable re_findall : pystr -> pystr -> list pystr.
Variable llm_queries : pystr -> pystr -> option (list pystr).
Variable web_search : pystr -> Z -> list Sections * list SearchResult.
Variable scrape_profile : pystr -> option Scraped.ScrapedData.
Variable enrich_record : pystr -> option Scraped.ScrapedData.
Variable llm_analysis : pydict -> DataFrame -> PyVal.
Variable render_template : ReportContext -> pystr + pystr.
Variable str_of_raised : Raised -> pystr.
Variable now : pystr.

(** X8. The results [_prepare_final_results] builds after a run of
    [execute_workflow]: they carry the request; report_generated is true;
    scraped_data_count is the number of records of the executor;
    cleaned_data_count is that number when it is not 0, and otherwise 1
    when the search left an answer and 0 when it left none; the report is
    the no-data text when there is neither record nor answer; and the
    preview agrees with the report on its first 300 characters, is the
    report itself when that has at most 300 characters, and never has more
    than 303. *)
Theorem run_results (input : pystr) (max_results : Z) (self : Workflow)
    (stamp : pystr) :
  let out := fst (execute_workflow lower re_findall llm_queries web_search
                    scrape_profile enrich_record llm_analysis
                    render_template str_of_raised now input max_results
                    self) in
  let executor := task_executor_agent out in
  let results := _prepare_final_results stamp out in
  fr_user_input results = input /\
  report_generated results = true /\
  scraped_data_count results = length (scraped_data executor) /\
  cleaned_data_count results
  = match scraped_data executor with
    | [] => if str_truthy (answer (last_search_context executor))
            then 1 else 0
    | _ :: _ => length (scraped_data executor)
    end /\
  (scraped_data executor = [] ->
   answer (last_search_context executor) = [] ->
   fr_final_report results = Some no_data_report) /\
  exists report preview,
    fr_final_report results = Some report /\
    final_report_preview results = Some preview /\
    length preview <= 303 /\
    take 300 preview = take 300 report /\
    (length report <= 300 -> preview = report).
Proof.
  rewrite WorkflowFacts.execute_workflow_unfold.
  cbn [fst task_executor_agent].
  set (executor := fst (execute_tasks _ _ _ _ _ _ _ _ _ _)).
  unfold _prepare_final_results.
  cbn [fr_user_input report_generated scraped_data_count cleaned_data_count
       fr_final_report final_report_preview user_input wf_scraped_data
       cleaned_data final_report].
  destruct (prepare_dataframe_size (List.map ItemModel (scraped_data executor))
              (answer (last_search_context executor))) as [Hlen Hempty].
  split; [done|]. split; [done|]. split; [done|]. split.
  { rewrite Hlen. destruct (scraped_data executor); [done|].
    by rewrite length_map. }
  split.
  { intros Hs Ha. rewrite Hempty, Hs, Ha. reflexivity. }
  set (report := if df_empty _ then _ else _).
  exists report. destruct (str_truthy report && (300 <? length report)) eqn:E.
  - apply andb_prop in E as [_ E%Nat.ltb_lt].
    exists (take 300 report ++ lit "..."). split; [done|]. split; [done|].
    split.
    { rewrite length_app, length_take.
      change (length (lit "...")) with 3. lia. }
    split; [|lia].
    rewrite take_app_le by (rewrite length_take; lia).
    by rewrite take_take, Nat.min_id.
  - exists report. split; [done|]. split; [done|].
    apply andb_false_iff in E as [E|E%Nat.ltb_ge]; [|split; [lia | done]].
    destruct report; [|done]. simpl. split; [lia|done].
Qed.

(** X9. After every run of [execute_workflow] the tracker holds the
    three tasks task_execution, prepare_dataframe and report_generation,
    in this order, whatever it held before; [get_workflow_summary] counts
    3 tasks, 3 completed, none failed and none in progress, and
    [get_failed_tasks] is empty. *)
Theorem run_tracker_summary (input : pystr) (max_results : Z)
    (self : Workflow) :
  let tracker :=
    task_updater_agent
      (fst (execute_workflow lower re_findall llm_queries web_search
              scrape_profile enrich_record llm_analysis render_template
              str_of_raised now input max_results self)) in
  List.map fst (TaskUpdater.tasks tracker)
  = [lit "task_execution"; lit "prepare_dataframe"; lit "report_generation"] /\
  TaskQueries.total_tasks (TaskQueries.get_workflow_summary tracker) = 3 /\
  TaskQueries.completed_tasks (TaskQueries.get_workflow_summary tracker) = 3 /\
  TaskQueries.failed_tasks (TaskQueries.get_workflow_summary tracker) = 0 /\
  TaskQueries.in_progress_tasks (TaskQueries.get_workflow_summary tracker)
  = 0 /\
  TaskQueries.get_failed_tasks tracker = [].
Proof.
  rewrite WorkflowFacts.execute_workflow_unfold.
  cbn [fst task_updater_agent]. by vm_compute.
Qed.

(** X10. A request classified as data scraping that names links, none of
    them a LinkedIn profile URL, collects nothing on a new workflow: the
    call of the removed [_scrape_with_firecrawl] raises for each link and
    no search is run. The only components invoked are the intent
    classifier and the data assembler, the table is empty and the report
    is the fixed no-data text. *)
Theorem scrape_request_plain_links (input : pystr) (max_results : Z) :
  _analyze_task_type lower input = lit "data_scraping" ->
  _extract_urls_from_input re_findall input <> [] ->
  Forall (fun u => is_linkedin_url u = false)
         (_extract_urls_from_input re_findall input) ->
  let out := execute_workflow lower re_findall llm_queries web_search
               scrape_profile enrich_record llm_analysis render_template
               str_of_raised now input max_results Workflow_init in
  snd out = [IntentClassifier; DataAssembler] /\
  wf_scraped_data (fst out) = [] /\
  cleaned_data (fst out) = Some {| columns := []; rows := [] |} /\
  final_report (fst out) = Some no_data_report.
Proof.
  intros Htype Hne Hall.
  rewrite WorkflowFacts.execute_workflow_unfold.
  assert (execute_tasks lower re_findall llm_queries web_search
            scrape_profile enrich_record now input max_results
            (task_executor_agent Workflow_init)
          = (Executor_init, [IntentClassifier])) as ->.
  { unfold execute_tasks. rewrite Htype.
    rewrite (bool_decide_false (lit "data_scraping" = lit "linkedin_search"))
      by discriminate.
    rewrite (bool_decide_false (lit "data_scraping" = lit "web_only"))
      by discriminate.
    rewrite (bool_decide_false (lit "data_scraping" = lit "web_search"))
      by discriminate.
    rewrite bool_decide_true by done.
    by rewrite ExecutorFacts.execute_data_scraping_plain. }
  by vm_compute.
Qed.
End World.
End RunFacts.

(** X10 on the sample request. *)
Lemma scrape_request_plain_links_witness :
  _analyze_task_type ascii_lower SampleScrape.input = lit "data_scraping" /\
  snd SampleScrape.run = [IntentClassifier; DataAssembler] /\
  Pipeline.wf_scraped_data (fst SampleScrape.run) = [] /\
  Pipeline.cleaned_data (fst SampleScrape.run)
  = Some {| columns := []; rows := [] |} /\
  Pipeline.final_report (fst SampleScrape.run) = Some no_data_report.
Proof.
  split; [by vm_compute|].
  apply (RunFacts.scrape_request_plain_links ascii_lower
           SampleScrape.re_findall (fun _ _ => None) SampleRun.web_search
           (fun _ => None) (fun _ => None) (fun _ _ => PNone)
           (fun _ => inl (lit "Research Report")) (fun _ => [])
           (lit "2026-01-01 00:00:00") SampleScrape.input 10).
  - by vm_compute.
  - discriminate.
  - repeat constructor.
Defined.

(* --------------------------------------------------------------------- *)
(** ** The task tracker *)

Lemma dict_get_set_eq {V : Type} (d : list (pystr * V)) k v :
  dict_get (dict_set d k v) k = Some v.
Proof.
  induction d as [|[k' v'] d IH]; simpl.
  - by rewrite bool_decide_true.
  - case_bool_decide as E; simpl.
    + by rewrite bool_decide_true.
    + by rewrite bool_decide_false.
Qed.

Lemma dict_get_set_ne {V : Type} (d : list (pystr * V)) k k' v :
  k' <> k -> dict_get (dict_set d k v) k' = dict_get d k'.
Proof.
  intros Hne. induction d as [|[k0 v0] d IH]; simpl.
  - by rewrite bool_decide_false.
  - case_bool_decide as E; simpl.
    + subst k0. by rewrite !bool_decide_false by done.
    + by rewrite IH.
Qed.

Lemma dict_set_keys {V : Type} (d : list (pystr * V)) k v :
  List.map fst (dict_set d k v)
  = match dict_get d k with
    | Some _ => List.map fst d
    | None => List.map fst d ++ [k]
    end.
Proof.
  induction d as [|[k' v'] d IH]; simpl; [done|].
  case_bool_decide as E; simpl.
  - by subst k'.
  - rewrite IH. by destruct (dict_get d k).
Qed.

Lemma dict_get_elem_of {V : Type} (d : list (pystr * V)) k v :
  dict_get d k = Some v -> v ∈ List.map snd d.
Proof.
  induction d as [|[k' v'] d IH]; simpl; [done|].
  case_bool_decide.
  - intros [= ->]. by left.
  - intros Hg. right. by apply IH.
Qed.

Module TrackerFacts.
Import TaskUpdater TaskQueries.

(** X11. [create_task] followed by [get_task_status]: the task just
    created is found under its id, pending, at progress 0, without end
    time or error, also when the id was in use (the earlier task is
    replaced and the id keeps its place); every other id is answered as
    before; a new id is added last; and the overall progress is not
    recomputed. *)
Theorem create_task_lookup (id id' : pystr) (ty : TaskType)
    (self : TaskUpdaterAgent) :
  let after := create_task id ty self in
  get_task_status id after
  = Some {| task_id := id; task_type := ty; status := PENDING;
            progress_percentage := 0.0; ended := false;
            error_message := None |} /\
  (id' <> id -> get_task_status id' after = get_task_status id' self) /\
  List.map fst (tasks after)
  = match get_task_status id self with
    | Some _ => List.map fst (tasks self)
    | None => List.map fst (tasks self) ++ [id]
    end /\
  overall_progress after = overall_progress self.
Proof.
  unfold get_task_status, create_task. simpl.
  split; [apply dict_get_set_eq|].
  split; [apply dict_get_set_ne|].
  split; [apply dict_set_keys | done].
Qed.

(** X12. [update_task_status] changes one task only: for an unknown id
    the tracker is unchanged; otherwise the ids and their order are
    unchanged, every other id is answered as before, and the task keeps
    its id and type, takes the new status, keeps its progress when none is
    given, and has an end time exactly when the new status is final or it
    had one before. *)
Theorem update_task_status_frame (id id' : pystr) (new_status : TaskStatus)
    (progress : option float) (error : option pystr)
    (self : TaskUpdaterAgent) :
  let after := update_task_status id new_status progress error self in
  (get_task_status id self = None -> after = self) /\
  List.map fst (tasks after) = List.map fst (tasks self) /\
  (id' <> id -> get_task_status id' after = get_task_status id' self) /\
  (forall task,
     get_task_status id self = Some task ->
     exists task',
       get_task_status id after = Some task' /\
       status task' = new_status /\
       task_id task' = task_id task /\
       task_type task' = task_type task /\
       (progress = None ->
        progress_percentage task' = progress_percentage task) /\
       (ended task' = true <-> is_final new_status = true \/ ended task = true)).
Proof.
  unfold get_task_status, update_task_status.
  destruct (dict_get (tasks self) id) as [task|] eqn:Hg.
  - rewrite TaskUpdaterFacts.update_overall_tasks. simpl.
    split; [done|]. split; [by rewrite dict_set_keys, Hg|].
    split; [apply dict_get_set_ne|].
    intros ? [= <-]. eexists. split; [apply dict_get_set_eq|]. simpl.
    split; [done|]. split; [done|]. split; [done|].
    split; [by intros ->|]. by rewrite orb_true_iff.
  - split; [done|]. split; [done|]. split; [done|]. by intros.
Qed.

(** X13. [log_error] on a tracked task: the task is then failed, has an
    end time, keeps its progress, carries the error text (its earlier
    message when the text is empty) and is listed by [get_failed_tasks];
    no task is added or removed. *)
Theorem log_error_marks_failed (id error : pystr) (task : TaskProgress)
    (self : TaskUpdaterAgent) :
  get_task_status id self = Some task ->
  let after := log_error id error self in
  exists task',
    get_task_status id after = Some task' /\
    task' ∈ get_failed_tasks after /\
    status task' = FAILED /\
    ended task' = true /\
    progress_percentage task' = progress_percentage task /\
    error_message task' = match error with
                          | [] => error_message task
                          | _ :: _ => Some error
                          end /\
    length (get_all_tasks after) = length (get_all_tasks self).
Proof.
  unfold get_task_status, log_error, update_task_status, get_failed_tasks,
    get_all_tasks.
  intros H. rewrite H, TaskUpdaterFacts.update_overall_tasks. simpl.
  eexists. split; [apply dict_get_set_eq|].
  split.
  { rewrite list_elem_of_In, List.filter_In, <- list_elem_of_In.
    split; [|by rewrite bool_decide_true].
    eapply dict_get_elem_of, dict_get_set_eq. }
  simpl. split; [done|]. split; [done|]. split; [done|].
  split; [by destruct error|].
  rewrite !length_map.
  rewrite <- (length_map fst (dict_set _ _ _)), dict_set_keys.
  rewrite H. by rewrite length_map.
Qed.

Lemma count_status_partition (l : list TaskProgress) :
  length (List.filter (fun t => bool_decide (status t = COMPLETED)) l)
  + length (List.filter (fun t => bool_decide (status t = FAILED)) l)
  + length (List.filter (fun t => bool_decide (status t = IN_PROGRESS)) l)
  + length (List.filter (fun t => bool_decide (status t = PENDING)) l)
  + length (List.filter (fun t => bool_decide (status t = CANCELLED)) l)
  = length l.
Proof.
  induction l as [|t l IH]; simpl; [done|].
  destruct (status t); simpl; lia.
Qed.

(** X14. In the summary of [get_workflow_summary] the completed, failed
    and in-progress counts, with the pending and the cancelled tasks, add
    up to total_tasks; total_tasks is the number of tasks of
    [get_all_tasks], failed_tasks the number of tasks of
    [get_failed_tasks], and the overall progress is that of
    [get_overall_progress]. *)
Theorem workflow_summary_counts (self : TaskUpdaterAgent) :
  let summary := get_workflow_summary self in
  completed_tasks summary + failed_tasks summary + in_progress_tasks summary
  + count_status PENDING self + count_status CANCELLED self
  = total_tasks summary /\
  total_tasks summary = length (get_all_tasks self) /\
  failed_tasks summary = length (get_failed_tasks self) /\
  summary_overall_progress summary = get_overall_progress self.
Proof.
  unfold get_workflow_summary, count_status, get_failed_tasks,
    get_overall_progress. simpl.
  rewrite count_status_partition. unfold get_all_tasks.
  by rewrite length_map.
Qed.

Lemma dict_get_None {V : Type} (d : list (pystr * V)) k :
  dict_get d k = None <-> k ∉ List.map fst d.
Proof.
  induction d as [|[k' v'] d IH]; simpl.
  - split; [|done]. intros _. apply not_elem_of_nil.
  - rewrite not_elem_of_cons. case_bool_decide as E.
    + split; [done|]. by intros [? _].
    + rewrite IH. naive_solver.
Qed.

Lemma dict_set_well_keyed (self : TaskUpdaterAgent) id task p :
  well_keyed self -> task_id task = id ->
  well_keyed {| tasks := dict_set (tasks self) id task;
                overall_progress := p |}.
Proof.
  intros [Hnd Hk] Hid. split; simpl.
  - rewrite dict_set_keys.
    destruct (dict_get (tasks self) id) eqn:Hg; [done|].
    apply NoDup_app. split; [done|]. split; [|apply NoDup_singleton].
    intros k Hin ->%list_elem_of_singleton. by apply dict_get_None in Hg.
  - by apply TaskUpdaterFacts.dict_set_Forall.
Qed.

Lemma step_well_keyed (self : TaskUpdaterAgent) (op : Op) :
  well_keyed self -> well_keyed (step self op).
Proof.
  intros H.
  assert (forall id s p e, well_keyed (update_task_status id s p e self))
    as Hupd.
  { intros id s p e. unfold update_task_status.
    destruct (dict_get (tasks self) id) as [task|] eqn:Hg; [|done].
    unfold well_keyed. rewrite TaskUpdaterFacts.update_overall_tasks.
    apply (dict_set_well_keyed self id _ (overall_progress self) H). simpl.
    destruct H as [_ H].
    apply (TaskUpdaterFacts.dict_get_Forall _ _ _ _ H Hg). }
  destruct op as [id ty | id s p e | id e | ]; simpl.
  - by apply dict_set_well_keyed.
  - apply Hupd.
  - apply Hupd.
  - split; simpl; constructor.
Qed.

(** X15. After any sequence of [create_task], [update_task_status],
    [log_error] and [reset_workflow] on a new tracker, every task is filed
    under its own id and no two tasks have the same id: [get_task_status]
    answers an id with a task of that id. *)
Theorem run_well_keyed (ops : list Op) :
  let agent := run ops init in
  well_keyed agent /\
  NoDup (List.map task_id (get_all_tasks agent)) /\
  (forall id task, get_task_status id agent = Some task -> task_id task = id).
Proof.
  assert (forall self, well_keyed self -> well_keyed (run ops self)) as H.
  { induction ops as [|op ops IH]; intros self Hs; simpl; [done|].
    apply IH, step_well_keyed, Hs. }
  specialize (H init). simpl. destruct H as [Hnd Hk].
  { split; simpl; constructor. }
  split; [done|]. split.
  - unfold get_all_tasks. rewrite List.map_map.
    erewrite List.map_ext_Forall; [exact Hnd|].
    eapply Forall_impl; [exact Hk|]. by intros [k t].
  - intros id task Hg.
    apply (TaskUpdaterFacts.dict_get_Forall _ _ _ _ Hk Hg).
Qed.
End TrackerFacts.

(** X13 on a tracker with one pending task. *)
Lemma log_error_marks_failed_witness :
  let self := TaskUpdater.create_task (lit "task_execution")
                TaskUpdater.LINKEDIN_SCRAPING TaskUpdater.init in
  let after := TaskUpdater.log_error (lit "task_execution") (lit "timeout")
                 self in
  exists task',
    TaskQueries.get_task_status (lit "task_execution") after = Some task' /\
    task' ∈ TaskQueries.get_failed_tasks after /\
    TaskUpdater.status task' = TaskUpdater.FAILED /\
    TaskUpdater.ended task' = true /\
    TaskUpdater.progress_percentage task' = 0%float /\
    TaskUpdater.error_message task' = Some (lit "timeout") /\
    length (TaskQueries.get_all_tasks after) = 1.
Proof.
  intros self after.
  apply (TrackerFacts.log_error_marks_failed (lit "task_execution")
           (lit "timeout")
           {| TaskUpdater.task_id := lit "task_execution";
              TaskUpdater.task_type := TaskUpdater.LINKEDIN_SCRAPING;
              TaskUpdater.status := TaskUpdater.PENDING;
              TaskUpdater.progress_percentage := 0%float;
              TaskUpdater.ended := false;
              TaskUpdater.error_message := None |} self).
  reflexivity.
Defined.

(* --------------------------------------------------------------------- *)
(** ** The jobs of the API server *)

Module ApiFacts.
Import ApiServer ApiJobs.

Lemma api_run_accepts (job_id now : pystr) (req : RunRequest) (srv : Server) :
  strip (input req) <> [] ->
  api_run job_id now req srv
  = (inr job_id,
     {| jobs :=
          <[ job_id :=
               {| id := job_id;
                  status := lit "queued";
                  created_at := now;
                  updated_at := now;
                  job_input := strip (input req);
                  job_max_results := Z.max (max_results req) 1;
                  job_verbose := verbose req;
                  progress := 0.0;
                  logs := [lit "Job queued";
                           lit "Input: " ++ strip (input req)];
                  results := None;
                  error := None |} ]> (jobs srv);
        scheduled := scheduled srv ++ [job_id] |}).
Proof.
  intros H. unfold api_run.
  destruct (input req) as [|c s] eqn:Hi; [done|].
  destruct (strip (c :: s)); [done|]. reflexivity.
Qed.

(** X16. After [api_run] has accepted a request (its input is not blank)
    the read endpoints see the job: [api_status] returns it, queued, with
    the stripped input and a max_results of at least 1; [api_logs] returns
    its two log lines, the status queued and progress 0; [api_report]
    answers 404 'Report not available' and [api_results] raises 404
    'results not available'; and every other job id is answered by the
    four endpoints as before. *)
Theorem api_run_then_read (job_id now other : pystr) (req : RunRequest)
    (srv : Server) :
  strip (input req) <> [] ->
  let after := jobs (snd (api_run job_id now req srv)) in
  (exists job,
     api_status job_id after = inr job /\
     id job = job_id /\
     status job = lit "queued" /\
     job_input job = strip (input req) /\
     job_max_results job = Z.max (max_results req) 1 /\
     error job = None) /\
  api_logs job_id after
  = inr ([lit "Job queued"; lit "Input: " ++ strip (input req)],
         lit "queued", 0%float) /\
  api_report job_id after
  = inr {| response_status := 404; body := lit "Report not available" |} /\
  api_results job_id after
  = inl {| status_code := 404; detail := lit "results not available" |} /\
  (other <> job_id ->
   api_status other after = api_status other (jobs srv) /\
   api_logs other after = api_logs other (jobs srv) /\
   api_report other after = api_report other (jobs srv) /\
   api_results other after = api_results other (jobs srv)).
Proof.
  intros H. rewrite (api_run_accepts _ _ _ _ H). cbn [snd jobs].
  unfold api_status, api_logs, api_report, api_results.
  rewrite lookup_insert_eq. cbv beta iota.
  cbn [results logs status progress].
  split; [by eexists|]. split; [done|]. split; [done|]. split; [done|].
  intros Hne. by rewrite lookup_insert_ne.
Qed.

(** X17. The life of an accepted job: [_run_workflow_background] finds
    the job, keeps its id, input and creation time, stamps it with the
    time of its end and touches no other job. When the workflow returns,
    the job is completed at progress 100 with five log lines,
    [api_results] returns the results and [api_report] their report, or
    404 'Report not available' when the report is empty. When the
    constructor or the workflow raises, the job is failed with the error
    text, its progress stays 0, its last log line is 'Error: ' and the
    text, and both endpoints answer 404. *)
Theorem job_lifecycle (job_id now started finished : pystr)
    (req : RunRequest) (srv : Server) (outcome : Outcome) :
  strip (input req) <> [] ->
  let queued := jobs (snd (api_run job_id now req srv)) in
  let text := strip (input req) in
  let unavailable :=
    {| response_status := 404; body := lit "Report not available" |} in
  exists after job,
    _run_workflow_background started finished outcome job_id queued
    = Some after /\
    api_status job_id after = inr job /\
    id job = job_id /\ job_input job = text /\
    created_at job = now /\ updated_at job = finished /\
    (forall other, other <> job_id -> after !! other = jobs srv !! other) /\
    match outcome with
    | WorkflowReturned report =>
        status job = lit "completed" /\ progress job = 100%float /\
        error job = None /\
        logs job = [ lit "Job queued"; lit "Input: " ++ text;
                     lit "Job created"; lit "Workflow initialized";
                     lit "Workflow completed" ] /\
        api_results job_id after = inr report /\
        api_report job_id after
        = inr match report with
              | [] => unavailable
              | _ :: _ => {| response_status := 200; body := report |}
              end
    | WorkflowRaised e =>
        status job = lit "failed" /\ progress job = 0%float /\
        error job = Some e /\
        logs job = [ lit "Job queued"; lit "Input: " ++ text;
                     lit "Job created"; lit "Workflow initialized";
                     lit "Error: " ++ e ] /\
        api_results job_id after
        = inl {| status_code := 404;
                 detail := lit "results not available" |} /\
        api_report job_id after = inr unavailable
    | ConstructorRaised e =>
        status job = lit "failed" /\ progress job = 0%float /\
        error job = Some e /\
        logs job = [ lit "Job queued"; lit "Input: " ++ text;
                     lit "Job created"; lit "Error: " ++ e ] /\
        api_results job_id after
        = inl {| status_code := 404;
                 detail := lit "results not available" |} /\
        api_report job_id after = inr unavailable
    end.
Proof.
  intros H. rewrite (api_run_accepts _ _ _ _ H). cbn [snd jobs].
  unfold _run_workflow_background. rewrite lookup_insert_eq.
  eexists. eexists. split; [reflexivity|].
  unfold api_status, api_results, api_report. rewrite lookup_insert_eq.
  split; [reflexivity|].
  split; [by destruct outcome|]. split; [by destruct outcome|].
  split; [by destruct outcome|]. split; [by destruct outcome|].
  split.
  { intros other Hne. by rewrite !lookup_insert_ne. }
  destruct outcome as [e|e|report]; cbn; try done.
  by destruct report.
Qed.
End ApiFacts.

(** X16 on the sample request to an empty server. *)
Lemma api_run_then_read_witness :
  strip (ApiServer.input SampleJob.req) = lit "find rocq users" /\
  (exists job,
     ApiJobs.api_status (lit "0123456789ab") SampleJob.queued = inr job /\
     ApiServer.id job = lit "0123456789ab" /\
     ApiServer.status job = lit "queued" /\
     ApiServer.job_input job = lit "find rocq users" /\
     ApiServer.job_max_results job = 1%Z /\
     ApiServer.error job = None) /\
  ApiJobs.api_logs (lit "0123456789ab") SampleJob.queued
  = inr ([lit "Job queued"; lit "Input: find rocq users"],
         lit "queued", 0%float) /\
  ApiJobs.api_report (lit "0123456789ab") SampleJob.queued
  = inr {| ApiJobs.response_status := 404;
           ApiJobs.body := lit "Report not available" |} /\
  ApiJobs.api_results (lit "0123456789ab") SampleJob.queued
  = inl {| ApiServer.status_code := 404;
           ApiServer.detail := lit "results not available" |} /\
  ApiJobs.api_status (lit "ffffffffffff") SampleJob.queued
  = inl ApiJobs.job_not_found.
Proof.
  split; [by vm_compute|].
  destruct (ApiFacts.api_run_then_read (lit "0123456789ab")
              (lit "2026-01-01T00:00:00") (lit "ffffffffffff")
              SampleJob.req SampleJob.srv)
    as (Hstatus & Hlogs & Hreport & Hresults & Hother); [by vm_compute|].
  split; [exact Hstatus|]. split; [exact Hlogs|]. split; [exact Hreport|].
  split; [exact Hresults|].
  destruct Hother as [Hs _]; [discriminate | exact Hs].
Defined.

(** X17 on the sample job, whose workflow returns a report. *)
Lemma job_lifecycle_witness :
  exists after job,
    ApiJobs._run_workflow_background (lit "2026-01-01T00:00:01")
      (lit "2026-01-01T00:00:09") (ApiJobs.WorkflowReturned (lit "# Report"))
      (lit "0123456789ab") SampleJob.queued = Some after /\
    ApiJobs.api_status (lit "0123456789ab") after = inr job /\
    ApiServer.status job = lit "completed" /\
    ApiServer.progress job = 100%float /\
    ApiServer.logs job
    = [ lit "Job queued"; lit "Input: find rocq users"; lit "Job created";
        lit "Workflow initialized"; lit "Workflow completed" ] /\
    ApiJobs.api_report (lit "0123456789ab") after
    = inr {| ApiJobs.response_status := 200;
             ApiJobs.body := lit "# Report" |}.
Proof.
  destruct (ApiFacts.job_lifecycle (lit "0123456789ab")
              (lit "2026-01-01T00:00:00") (lit "2026-01-01T00:00:01")
              (lit "2026-01-01T00:00:09") SampleJob.req SampleJob.srv
              (ApiJobs.WorkflowReturned (lit "# Report")))
    as (after & job & Hrun & Hstatus & _ & _ & _ & _ & _
        & Hs & Hp & _ & Hl & _ & Hr); [by vm_compute|].
  exists after, job.
  split; [exact Hrun|]. split; [exact Hstatus|]. split; [exact Hs|].
  split; [exact Hp|]. split; [exact Hl | exact Hr].
Defined.

(* --------------------------------------------------------------------- *)
(** ** The analysis read from plain text *)

Section ManualAnalysisFacts.
Variable lower : pystr -> pystr.

Lemma manual_line_items (P : pystr -> Prop) (st : ManualState) (raw : pystr) :
  (names_section lower (strip raw) = false ->
   (startswith (lit "-") (strip raw) || startswith [bullet] (strip raw)
    || startswith (lit "*") (strip raw)) = true ->
   P (strip (drop 1 (strip raw)))) ->
  Forall P (insights st) /\ Forall P (trends st)
  /\ Forall P (recommendations st) ->
  Forall P (insights (manual_line lower st raw))
  /\ Forall P (trends (manual_line lower st raw))
  /\ Forall P (recommendations (manual_line lower st raw)).
Proof.
  intros Hitem (Hi & Ht & Hr). unfold manual_line, names_section in *.
  destruct (contains (lit "insight") (lower (strip raw))); [done|].
  destruct (contains (lit "key") (lower (strip raw))); [done|].
  destruct (contains (lit "trend") (lower (strip raw))); [done|].
  destruct (contains (lit "recommendation") (lower (strip raw))); [done|].
  destruct (contains (lit "suggestion") (lower (strip raw))); [done|].
  cbn [orb] in *.
  destruct (startswith (lit "-") (strip raw) || startswith [bullet] (strip raw)
            || startswith (lit "*") (strip raw)); [|done].
  specialize (Hitem eq_refl eq_refl).
  destruct (current_section st) as [[| |]|]; cbn; try done;
    repeat split; try done; apply Forall_app; by repeat constructor.
Qed.

Lemma manual_fold_items (P : pystr -> Prop) (lines : list pystr) :
  forall st,
    Forall (fun raw =>
              names_section lower (strip raw) = false ->
              (startswith (lit "-") (strip raw)
               || startswith [bullet] (strip raw)
               || startswith (lit "*") (strip raw)) = true ->
              P (strip (drop 1 (strip raw)))) lines ->
    Forall P (insights st) /\ Forall P (trends st)
    /\ Forall P (recommendations st) ->
    let final := fold_left (manual_line lower) lines st in
    Forall P (insights final) /\ Forall P (trends final)
    /\ Forall P (recommendations final).
Proof.
  induction lines as [|raw lines IH]; intros st Hl Hst; simpl; [done|].
  inversion Hl as [|? ? Hraw Hrest]; subst.
  apply IH; [done|]. by apply manual_line_items.
Qed.

Lemma first_or_list (content : pystr) (n : nat) (default : pystr)
    (items : list pystr) :
  1 <= n -> Forall (reported_item lower content) items ->
  analysis_list lower content n default (first_or n default items).
Proof.
  intros Hn Hitems. unfold first_or, analysis_list.
  destruct items as [|x items]; [simpl; split; [lia | by left]|].
  split.
  - rewrite length_take. simpl. lia.
  - right. by apply Forall_take.
Qed.

(** X18. [_parse_ai_response_manually] returns three lists that are
    never empty: between one and three key insights, one or two trends,
    one or two recommendations. Each list is its default text alone, or is
    made of bullet texts of the content: the text, stripped, that follows
    the first character of a line which starts with '-', '*' or the bullet
    and mentions none of the words insight, key, trend, recommendation and
    suggestion (a line that mentions one is read as a header and is never
    reported). *)
Theorem parse_ai_response_manually_lists (content : pystr) :
  let analysis := _parse_ai_response_manually lower content in
  analysis_list lower content 3 (lit "Data analysis completed")
                (key_insights analysis) /\
  analysis_list lower content 2 (lit "No specific trends identified")
                (an_trends analysis) /\
  analysis_list lower content 2
                (lit "Consider expanding your search criteria")
                (an_recommendations analysis).
Proof.
  unfold _parse_ai_response_manually. cbn [key_insights an_trends
                                           an_recommendations].
  destruct (manual_fold_items (reported_item lower content)
              (str_split 10%N content)
              {| insights := []; trends := []; recommendations := [];
                 current_section := None |}) as (Hi & Ht & Hr).
  - apply Forall_forall. intros raw Hin Hn Hb. by exists raw.
  - by repeat split.
  - split; [|split]; apply first_or_list; (lia || done).
Qed.
End ManualAnalysisFacts.

(* --------------------------------------------------------------------- *)
(** ** The rows of the report *)

Section ReportRows.
Variable lower : pystr -> pystr.

Lemma rows_partition (records : list pydict) (lis webs : list pydict) :
  build_li_rows lower records = inr lis ->
  build_web_rows lower records = inr webs ->
  length lis + length webs = length records.
Proof.
  revert lis webs. induction records as [|r records IH]; intros lis webs; simpl.
  { by intros [= <-] [= <-]. }
  destruct (source_is_linkedin lower r) as [e|keep]; [done|].
  destruct (build_li_rows lower records) as [e|lis']; [done|].
  intros [= <-]. destruct keep.
  - intros Hw. simpl. by rewrite (IH lis' webs).
  - destruct (web_row r) as [e|w]; [done|].
    destruct (build_web_rows lower records) as [e|webs']; [done|].
    intros [= <-]. simpl. rewrite <- (IH lis' webs') by done. lia.
Qed.

Lemma any_linkedin_rows (records : list pydict) (b : bool)
    (lis : list pydict) :
  any_linkedin lower records = inr b ->
  build_li_rows lower records = inr lis ->
  b = true <-> lis <> [].
Proof.
  revert b lis. induction records as [|r records IH]; intros b lis; simpl.
  { by intros [= <-] [= <-]. }
  destruct (source_is_linkedin lower r) as [e|keep]; [done|].
  destruct (build_li_rows lower records) as [e|lis']; [done|].
  destruct keep.
  - by intros [= <-] [= <-].
  - intros Ha [= <-]. by apply IH.
Qed.

Lemma web_rows_snippets (records : list pydict) (webs : list pydict) :
  build_web_rows lower records = inr webs ->
  Forall (fun w => exists snippet n,
            dict_get w (lit "snippet") = Some snippet /\
            py_len snippet = Some n /\ n <= 220) webs.
Proof.
  revert webs. induction records as [|r records IH]; intros webs; simpl.
  { intros [= <-]. constructor. }
  destruct (source_is_linkedin lower r) as [e|[|]]; [done | apply IH |].
  unfold web_row.
  destruct (py_slice 220 _) as [e|snippet] eqn:Hs; [done|].
  destruct (build_web_rows lower records) as [e|webs']; [done|].
  intros [= <-]. constructor; [|by apply IH].
  exists snippet. unfold py_slice in Hs.
  destruct (py_or _ _) as [|s|x|items|members]; try done;
    injection Hs as <-; eexists; (split; [reflexivity|]);
    (split; [reflexivity|]); rewrite length_take; lia.
Qed.

(** X19. When [_create_report] gets as far as its template, the
    dictionary it renders has: as sample_data the first 8 rows of the
    table (none when the table is empty); in li_rows and web_rows together
    one row per sample record; has_linkedin true exactly when li_rows is
    not empty; in every web row a snippet of at most 220 characters; and
    as total_records the number of rows of the table. *)
Theorem report_context_rows (now : pystr) (self : ReportGeneratorAgent)
    (data : DataFrame) (analysis : PyVal) (stats : SummaryStats)
    (format : pydict) (ctx : ReportContext) :
  report_context lower now self data analysis stats format = inr ctx ->
  sample_data ctx = (if df_empty data then [] else take 8 (rows data)) /\
  length (sample_data ctx) <= 8 /\
  length (li_rows ctx) + length (web_rows ctx) = length (sample_data ctx) /\
  (has_linkedin ctx = true <-> li_rows ctx <> []) /\
  Forall (fun w => exists snippet n,
            dict_get w (lit "snippet") = Some snippet /\
            py_len snippet = Some n /\ n <= 220) (web_rows ctx) /\
  rc_total_records ctx = df_len data.
Proof.
  unfold report_context.
  set (sample := if negb (df_empty data) then take 8 (rows data) else []).
  assert (sample = if df_empty data then [] else take 8 (rows data)) as Hs
    by (subst sample; by destruct (df_empty data)).
  assert (length sample <= 8) as Hl.
  { subst sample. destruct (negb _); [|simpl; lia]. rewrite length_take. lia. }
  destruct (any_linkedin lower sample) as [e|b] eqn:Ha; [done|].
  destruct (build_li_rows lower sample) as [e|lis] eqn:Hli; [done|].
  destruct (build_web_rows lower sample) as [e|webs] eqn:Hweb; [done|].
  intros [= <-]. cbn [sample_data li_rows web_rows has_linkedin
                      rc_total_records].
  split; [done|]. split; [done|].
  split; [by apply rows_partition|].
  split; [by apply (any_linkedin_rows sample)|].
  split; [by apply (web_rows_snippets sample) | done].
Qed.
End ReportRows.

(** X19 on a table of two records, one of them a profile. *)
Lemma report_context_rows_witness :
  exists ctx,
    report_context ascii_lower (lit "2026-01-01 00:00:00")
      {| report_data := None; generated_charts := []; search_context := [] |}
      two_sources PNone zero_stats [] = inr ctx /\
    length (sample_data ctx) = 2 /\
    length (li_rows ctx) + length (web_rows ctx) = length (sample_data ctx) /\
    (has_linkedin ctx = true <-> li_rows ctx <> []) /\
    rc_total_records ctx = 2.
Proof.
  eexists. split; [by vm_compute|].
  destruct (report_context_rows ascii_lower (lit "2026-01-01 00:00:00")
              {| report_data := None; generated_charts := [];
                 search_context := [] |}
              two_sources PNone zero_stats [] _ eq_refl)
    as (_ & _ & Hp & Hl & _ & Ht).
  split; [reflexivity|]. split; [exact Hp|]. split; [exact Hl | exact Ht].
Defined.

(* --------------------------------------------------------------------- *)
(** ** The skills of a profile *)

Lemma contains_trans (a b t : pystr) :
  contains a b = true -> contains b t = true -> contains a t = true.
Proof.
  rewrite !contains_spec. intros (p1 & q1 & ->) (p2 & q2 & ->).
  exists (p2 ++ p1), (q1 ++ q2). by rewrite <- !app_assoc.
Qed.

Section ProfileSkillsFacts.
Variable lower : pystr -> pystr.

Lemma extract_skills_from_text_spec (text skill : pystr) :
  skill ∈ _extract_skills_from_text lower text
  <-> skill ∈ common_skills /\ contains (lower skill) (lower text) = true.
Proof.
  unfold _extract_skills_from_text.
  by rewrite elem_of_list_to_set, !list_elem_of_In, List.filter_In.
Qed.

Lemma skills_closed_empty : skills_closed lower ∅.
Proof. split; intros; set_solver. Qed.

Lemma skills_closed_union (x y : gset pystr) :
  skills_closed lower x -> skills_closed lower y -> skills_closed lower (x ∪ y).
Proof.
  intros [Hx1 Hx2] [Hy1 Hy2]. split.
  - intros s [?|?]%elem_of_union; auto.
  - intros a b Ha [Hb|Hb]%elem_of_union Hc; apply elem_of_union; eauto.
Qed.

Lemma skills_closed_text (text : pystr) :
  skills_closed lower (_extract_skills_from_text lower text).
Proof.
  split.
  - intros s Hs. by apply extract_skills_from_text_spec in Hs as [? _].
  - intros a b Ha Hb Hc. apply extract_skills_from_text_spec in Hb as [_ Hb].
    apply extract_skills_from_text_spec. split; [done|].
    by apply (contains_trans _ (lower b)).
Qed.

Lemma skills_closed_field (v : PyVal) (skills : gset pystr) :
  skills_of_field lower v = Some skills -> skills_closed lower skills.
Proof.
  unfold skills_of_field. destruct (py_truthy v).
  - destruct v; try done. intros [= <-]. apply skills_closed_text.
  - intros [= <-]. apply skills_closed_empty.
Qed.

Lemma skills_closed_experience (items : list PyVal) :
  forall found,
    mapM (skills_of_experience lower) items = Some found ->
    skills_closed lower (⋃ found).
Proof.
  induction items as [|exp items IH]; intros found; simpl.
  - intros [= <-]. apply skills_closed_empty.
  - destruct (skills_of_experience lower exp) as [s|] eqn:Hs; [|done].
    simpl. destruct (mapM _ items) as [rest|]; [|done]. simpl.
    intros [= <-]. simpl. apply skills_closed_union; [|by apply IH].
    unfold skills_of_experience in Hs. destruct exp; try done.
    by apply skills_closed_field in Hs.
Qed.

(** X20. When [_extract_skills_from_data] returns, every skill it reports
    is one of the common skills, and with a skill it reports every common
    skill whose lowered name occurs in the lowered name of that skill:
    with 'javascript' also 'java', with 'github' also 'git', and 'r' with
    every skill spelled with an r. *)
Theorem extract_skills_from_data_closed (raw_data : pydict)
    (skills : gset pystr) :
  _extract_skills_from_data lower raw_data = Some skills ->
  (forall s, s ∈ skills -> s ∈ common_skills) /\
  (forall a b, a ∈ common_skills -> b ∈ skills ->
               contains (lower a) (lower b) = true -> a ∈ skills).
Proof.
  unfold _extract_skills_from_data.
  destruct (skills_of_field lower (get_default raw_data (lit "headline") _))
    as [h|] eqn:Hh; [|done].
  destruct (skills_of_field lower (get_default raw_data (lit "about") _))
    as [a|] eqn:Ha; [|done].
  simpl.
  destruct (match get_default raw_data (lit "experience") (PList []) with
            | PList items => mapM (skills_of_experience lower) items
            | PStr [] | PDict [] => Some []
            | _ => None
            end) as [e|] eqn:He; [|done].
  simpl. intros [= <-].
  change (skills_closed lower (h ∪ a ∪ ⋃ e)).
  apply skills_closed_union; [apply skills_closed_union|].
  - by apply skills_closed_field in Hh.
  - by apply skills_closed_field in Ha.
  - destruct (get_default raw_data (lit "experience") (PList []))
      as [|[|]|?|items|[|]]; try done.
    + injection He as <-. apply skills_closed_empty.
    + by apply skills_closed_experience in He.
    + injection He as <-. apply skills_closed_empty.
Qed.
End ProfileSkillsFacts.

(** X20 on a profile with a headline and one position. *)
Lemma extract_skills_from_data_closed_witness :
  exists skills,
    _extract_skills_from_data ascii_lower
      [ (lit "headline", PStr (lit "JavaScript developer"));
        (lit "experience",
         PList [PDict [(lit "title", PStr (lit "GitHub admin"))]]) ]
    = Some skills /\
    (forall s, s ∈ skills -> s ∈ common_skills) /\
    lit "javascript" ∈ skills /\ lit "java" ∈ skills /\
    lit "github" ∈ skills /\ lit "git" ∈ skills /\ lit "r" ∈ skills.
Proof.
  eexists. split; [reflexivity|].
  destruct (extract_skills_from_data_closed ascii_lower
              [ (lit "headline", PStr (lit "JavaScript developer"));
                (lit "experience",
                 PList [PDict [(lit "title", PStr (lit "GitHub admin"))]]) ]
              _ eq_refl) as [Hsub Hclosed].
  split; [exact Hsub|].
  assert (lit "javascript"
            ∈ _extract_skills_from_text ascii_lower
                (lit "JavaScript developer")) as Hjs.
  { apply extract_skills_from_text_spec. split; [|by vm_compute].
    apply list_elem_of_In. vm_compute. tauto. }
  assert (lit "github"
            ∈ _extract_skills_from_text ascii_lower (lit "GitHub admin"))
    as Hgh.
  { apply extract_skills_from_text_spec. split; [|by vm_compute].
    apply list_elem_of_In. vm_compute. tauto. }
  assert (forall s, s ∈ common_skills <-> In s common_skills) as Hin
    by (intros s; apply list_elem_of_In).
  split; [set_solver|].
  split.
  { apply (Hclosed (lit "java") (lit "javascript")); [|set_solver|by vm_compute].
    apply Hin. vm_compute. tauto. }
  split; [set_solver|].
  split.
  { apply (Hclosed (lit "git") (lit "github")); [|set_solver|by vm_compute].
    apply Hin. vm_compute. tauto. }
  apply (Hclosed (lit "r") (lit "javascript")); [|set_solver|by vm_compute].
  apply Hin. vm_compute. tauto.
Defined.

(* --------------------------------------------------------------------- *)
(** ** The parsed request *)

Module RequestFacts.
Import UserRequirementAnalysis.

Section Agent.
Variable lower : pystr -> pystr.
Variable re_search_group : pystr -> pystr -> option pystr.
Variable py_int : pystr -> option Z.

Lemma terms_of_typed type priority words user_input :
  Forall (fun t => term_type t = type /\ term_priority t = priority /\
                   term_value t ∈ words /\
                   contains (lower (term_value t)) (lower user_input) = true)
         (terms_of lower type priority words user_input).
Proof.
  unfold terms_of. apply Forall_forall. intros t Ht.
  apply list_elem_of_In, List.in_map_iff in Ht as (w & <- & Hw).
  apply List.filter_In in Hw as [Hw Hc]. simpl.
  by rewrite list_elem_of_In.
Qed.

Lemma contact_preference_short (s : pystr) :
  any_in contact_indicators s
  = any_in [lit "contact"; lit "email"; lit "phone"; lit "reach out";
            lit "connect"] s.
Proof.
  unfold any_in, contact_indicators.
  change (existsb (fun w => contains w s)
            ([lit "contact"; lit "email"; lit "phone"; lit "reach out";
              lit "connect"]
             ++ [lit "contact information"; lit "contact details"])
          = existsb (fun w => contains w s)
              [lit "contact"; lit "email"; lit "phone"; lit "reach out";
               lit "connect"]).
  rewrite existsb_app. simpl.
  destruct (contains (lit "contact") s) eqn:Hc; [done|]. simpl.
  assert (contains (lit "contact information") s = false) as ->.
  { destruct (contains (lit "contact information") s) eqn:E; [|done].
    rewrite <- Hc. symmetry.
    by apply (contains_trans _ (lit "contact information")). }
  assert (contains (lit "contact details") s = false) as ->.
  { destruct (contains (lit "contact details") s) eqn:E; [|done].
    rewrite <- Hc. symmetry.
    by apply (contains_trans _ (lit "contact details")). }
  simpl. by rewrite !orb_false_r.
Qed.

(** X21. A request parsed by [parse_request] has: at least one search
    term, either the single general term that carries the input as typed
    or only role, skill and location terms (of priority 3, 2 and 4) whose
    lowered value occurs in the lowered input; LinkedIn as first target
    website, followed by at most two others; a max_results of at most 50;
    and a contact preference decided by the five indicators contact,
    email, phone, reach out and connect alone (the two others contain
    'contact'). *)
Theorem parse_request_shape (user_input : pystr) (request : ParsedRequest) :
  parse_request lower re_search_group py_int user_input = Some request ->
  search_terms request <> [] /\
  (search_terms request
   = [ {| term_type := lit "general"; term_value := user_input;
          term_priority := 1 |} ]
   \/ Forall (fun t =>
                contains (lower (term_value t)) (lower user_input) = true /\
                (term_type t = lit "role" /\ term_priority t = 3%Z /\
                 term_value t ∈ job_roles
                 \/ term_type t = lit "skill" /\ term_priority t = 2%Z /\
                    term_value t ∈ skills
                 \/ term_type t = lit "location" /\ term_priority t = 4%Z /\
                    term_value t ∈ locations))
             (search_terms request)) /\
  (exists others,
     target_websites request
     = {| site_name := lit "LinkedIn";
          site_url := lit "https://www.linkedin.com";
          site_priority := 1 |} :: others /\
     length others <= 2) /\
  (pr_max_results request <= 50)%Z /\
  include_contact_info request
  = any_in [lit "contact"; lit "email"; lit "phone"; lit "reach out";
            lit "connect"] (lower user_input).
Proof.
  unfold parse_request.
  destruct (_extract_max_results lower re_search_group py_int user_input)
    as [n|] eqn:Hn; [|done].
  simpl. intros [= <-]. simpl.
  split; [|split; [|split; [|split]]].
  - unfold _extract_search_terms. by destruct (_ ++ _).
  - unfold _extract_search_terms.
    pose proof (terms_of_typed (lit "role") 3 job_roles user_input) as Hr.
    pose proof (terms_of_typed (lit "skill") 2 skills user_input) as Hs.
    pose proof (terms_of_typed (lit "location") 4 locations user_input) as Hl.
    assert (Forall (fun t =>
                contains (lower (term_value t)) (lower user_input) = true /\
                (term_type t = lit "role" /\ term_priority t = 3%Z /\
                 term_value t ∈ job_roles
                 \/ term_type t = lit "skill" /\ term_priority t = 2%Z /\
                    term_value t ∈ skills
                 \/ term_type t = lit "location" /\ term_priority t = 4%Z /\
                    term_value t ∈ locations))
             (terms_of lower (lit "role") 3 job_roles user_input
              ++ terms_of lower (lit "skill") 2 skills user_input
              ++ terms_of lower (lit "location") 4 locations user_input))
      as Hall.
    { rewrite !Forall_app. repeat split;
        (eapply Forall_impl; [eassumption|]); naive_solver. }
    destruct (_ ++ _); [by left | by right].
  - unfold _determine_target_websites. eexists. split; [reflexivity|].
    destruct (any_in _ _), (any_in _ _); simpl; lia.
  - unfold _extract_max_results in Hn.
    destruct (first_group _ _ _) as [g|]; [|injection Hn as <-; lia].
    destruct (py_int g) as [k|]; [|done]. simpl in Hn. injection Hn as <-. lia.
  - apply contact_preference_short.
Qed.
End Agent.
End RequestFacts.

(** X21 on a request that no pattern of [_extract_max_results] matches;
    the skill 'ai' is found in 'email'. *)
Lemma parse_request_shape_witness :
  exists request,
    UserRequirementAnalysis.parse_request ascii_lower (fun _ _ => None)
      (fun _ => None) (lit "Find Python developers in London, with email")
    = Some request /\
    List.map UserRequirementAnalysis.term_value
             (UserRequirementAnalysis.search_terms request)
    = [lit "developer"; lit "python"; lit "ai"; lit "london"] /\
    length (UserRequirementAnalysis.target_websites request) = 1 /\
    (UserRequirementAnalysis.pr_max_results request <= 50)%Z /\
    UserRequirementAnalysis.include_contact_info request = true.
Proof.
  eexists. split; [by vm_compute|].
  destruct (RequestFacts.parse_request_shape ascii_lower (fun _ _ => None)
              (fun _ => None)
              (lit "Find Python developers in London, with email") _ eq_refl)
    as (_ & _ & _ & Hmax & _).
  split; [reflexivity|]. split; [reflexivity|]. split; [exact Hmax|].
  reflexivity.
Defined.

(* --------------------------------------------------------------------- *)
(** ** One web search *)

Section WebSearchFacts.
Variable lower : pystr -> pystr.
Variable re_search : pystr -> pystr -> option pystr.
Variable json_loads : pystr -> option JSON.
Variable re_findall : pystr -> pystr -> list pystr.
Variable coerce_str : JSON -> option pystr.
Variable llm_search : pystr -> nat -> option pystr.

Lemma json_result_web (item : JSON) (r : SearchResult) :
  json_result coerce_str item = Some r -> source r = lit "web".
Proof.
  unfold json_result. destruct item as [| | | | |members]; try done.
  destruct (str_field coerce_str
              (if json_truthy (item_get members (lit "title"))
               then item_get members (lit "title")
               else item_get members (lit "url"))) as [t|]; simpl; [|done].
  destruct (str_field coerce_str (item_get members (lit "url"))) as [u|];
    simpl; [|done].
  destruct (str_field coerce_str (item_get members (lit "snippet"))) as [s|];
    simpl; [|done].
  by intros [= <-].
Qed.

Lemma json_results_web (items : list JSON) (results : list SearchResult) :
  mapM (json_result coerce_str) items = Some results ->
  length results = length items /\
  Forall (fun r => source r = lit "web") results.
Proof.
  intros H%mapM_Some. split; [symmetry; by eapply Forall2_length|].
  induction H as [|item r items results Hr _ IH]; constructor; [|done].
  by eapply json_result_web.
Qed.

Lemma section_results_web (parsed : Sections) (max_results : Z) :
  (0 <= max_results)%Z ->
  web_results (2 * or_else max_results 3)
              (section_results parsed max_results).
Proof.
  intros H. unfold section_results, web_results.
  assert (0 <= or_else max_results 3)%Z as H3
    by (unfold or_else; destruct (max_results =? 0)%Z; lia).
  pose proof (ExecutorFacts.py_take_length (or_else max_results 3)
                (sources parsed) H3).
  pose proof (ExecutorFacts.py_take_length (or_else max_results 3)
                (linkedin_profiles parsed) H3).
  split.
  - rewrite length_app, !length_map. lia.
  - apply Forall_app. split; apply Forall_forall; intros r Hr;
      apply list_elem_of_In, List.in_map_iff in Hr as (u & <- & _); done.
Qed.

Lemma text_results_web (content : pystr) :
  web_results 3 (_extract_search_results_from_text re_findall content 3).
Proof.
  unfold _extract_search_results_from_text, web_results.
  destruct (unique_links_spec 3 (re_findall link_pattern content) ∅ [])
    as (_ & _ & Hb & _); [|constructor | by right |].
  { intros u. by rewrite elem_of_empty, elem_of_nil. }
  rewrite length_map. split; [lia|].
  apply Forall_forall. intros r Hr.
  by apply list_elem_of_In, List.in_map_iff in Hr as (u & <- & _).
Qed.

Lemma filter_web (limit : Z) (f : SearchResult -> bool)
    (results : list SearchResult) :
  web_results limit results -> web_results limit (List.filter f results).
Proof.
  intros [Hl Hw]. split.
  - pose proof (List.filter_length_le f results). lia.
  - apply Forall_forall. intros r Hr.
    apply list_elem_of_In, List.filter_In in Hr as [Hr _].
    rewrite Forall_forall in Hw. by apply Hw, list_elem_of_In.
Qed.

Lemma web_results_weaken (a b : Z) (results : list SearchResult) :
  web_results a results -> (a <= b)%Z -> web_results b results.
Proof. intros [Hl Hw] H. split; [lia | done]. Qed.

Lemma search_attempt_web (content : pystr) (max_results : Z)
    (results : list SearchResult) :
  (0 <= max_results)%Z ->
  snd (search_attempt lower re_search json_loads re_findall coerce_str
         content max_results) = Some results ->
  web_results (search_limit max_results) results /\
  (Forall (fun r => url r <> []) results
   \/ results = _extract_search_results_from_text re_findall content 3).
Proof.
  intros H. unfold search_attempt. cbn [snd].
  set (items := py_take (or_else max_results 5) _).
  assert (0 <= or_else max_results 5)%Z as H5
    by (unfold or_else; destruct (max_results =? 0)%Z; lia).
  assert (length items <= Z.to_nat (or_else max_results 5)) as Hitems
    by (subst items; by apply ExecutorFacts.py_take_length).
  destruct (mapM (json_result coerce_str) items) as [found|] eqn:Hm; [|done].
  simpl. apply json_results_web in Hm as [Hl Hw].
  set (chosen := match found with
                 | [] => section_results _ max_results
                 | _ :: _ => found
                 end).
  assert (web_results (search_limit max_results) chosen) as Hchosen.
  { subst chosen. destruct found as [|r found].
    - eapply web_results_weaken; [by apply section_results_web|].
      unfold search_limit, or_else. destruct (max_results =? 0)%Z; lia.
    - split; [|done]. rewrite Hl. unfold search_limit, or_else in *.
      destruct (max_results =? 0)%Z; lia. }
  pose proof (filter_web _ (fun r => str_truthy (url r)) _ Hchosen) as Hkept.
  assert (Forall (fun r => url r <> [])
                 (List.filter (fun r => str_truthy (url r)) chosen)) as Hurl.
  { apply Forall_forall. intros r Hr.
    apply list_elem_of_In, List.filter_In in Hr as [_ Hr].
    by destruct (url r). }
  destruct (List.filter _ chosen) as [|r kept].
  - intros [= <-]. split; [|by right].
    eapply web_results_weaken; [apply text_results_web|].
    unfold search_limit. destruct (max_results =? 0)%Z; lia.
  - intros [= <-]. split; [done | by left].
Qed.

(** The bounds on what one search merges and returns. *)
Lemma web_search_with_retry_bounds (query : pystr) (max_results : Z) :
  (0 <= max_results)%Z ->
  let out := _execute_web_search_with_retry lower re_search json_loads
               re_findall coerce_str llm_search query max_results in
  length (fst out) <= 2 /\
  (Z.of_nat (length (snd out)) <= search_limit max_results)%Z /\
  Forall (fun r => source r = lit "web") (snd out) /\
  (Forall (fun r => url r <> []) (snd out)
   \/ exists content,
        snd out = _extract_search_results_from_text re_findall content 3) /\
  (llm_search query 0 = None -> llm_search query 1 = None -> out = ([], [])).
Proof.
  intros H. unfold _execute_web_search_with_retry.
  assert (forall merged,
            length merged <= 1 ->
            let out := match llm_search query 1 with
                       | Some content =>
                           let '(parsed, results) :=
                             search_attempt lower re_search json_loads
                               re_findall coerce_str (strip content)
                               max_results in
                           (merged ++ [parsed], default [] results)
                       | None => (merged, [])
                       end in
            length (fst out) <= 2 /\
            (Z.of_nat (length (snd out)) <= search_limit max_results)%Z /\
            Forall (fun r => source r = lit "web") (snd out) /\
            (Forall (fun r => url r <> []) (snd out)
             \/ exists content,
                  snd out
                  = _extract_search_results_from_text re_findall content 3))
    as Hsecond.
  { intros merged Hmerged.
    assert (0 <= search_limit max_results)%Z as Hpos
      by (unfold search_limit; destruct (max_results =? 0)%Z; lia).
    destruct (llm_search query 1) as [content|]; cbn zeta.
    - pose proof (search_attempt_web (strip content) max_results) as Ha.
      destruct (search_attempt _ _ _ _ _ _ _) as [parsed [results|]].
      + destruct (Ha results H eq_refl) as [[Hl Hw] Hu]. cbn [fst snd default].
        rewrite length_app. simpl. split; [lia|]. split; [done|].
        split; [done|]. destruct Hu as [Hu| ->]; [by left | right; eauto].
      + cbn [fst snd default]. rewrite length_app. simpl.
        split; [lia|]. split; [lia|]. split; [constructor | left; constructor].
    - cbn [fst snd]. split; [lia|]. simpl. split; [lia|].
      split; [constructor | left; constructor]. }
  destruct (llm_search query 0) as [content|] eqn:H0.
  - pose proof (search_attempt_web (strip content) max_results) as Ha.
    destruct (search_attempt _ _ _ _ _ _ _) as [parsed [results|]].
    + destruct (Ha results H eq_refl) as [[Hl Hw] Hu]. cbn [fst snd].
      split; [simpl; lia|]. split; [done|]. split; [done|].
      split; [|done]. destruct Hu as [Hu| ->]; [by left | right; eauto].
    + destruct (Hsecond [parsed]) as (H1 & H2 & H3 & H4); [simpl; lia|].
      split; [done|]. split; [done|]. split; [done|]. split; [done|]. done.
  - destruct (Hsecond []) as (H1 & H2 & H3 & H4); [simpl; lia|].
    split; [done|]. split; [done|]. split; [done|]. split; [done|].
    intros _ ->. reflexivity.
Qed.

(** X24. For a bound that is not negative, [_execute_web_search_with_retry]
    merges the sections of at most two responses, one per attempt. It
    returns at most max(2 * max_results, 3) results, and at most 6 when the
    bound is 0, which is read as no bound given ([max_results or 5]); every
    result has the source 'web'; the results all have a URL that is not
    empty, or are the links taken from the raw text of a response; and
    nothing is merged or returned when both calls of the hosted model
    raise. The second attempt is made only when the first raises: when the
    first attempt returns, its sections and its results are the outcome,
    whatever the hosted model would answer to a second call; when the
    first attempt raises (the call itself, or the body of the [try] block
    after the sections are read), the outcome is what the second attempt
    gives, after the sections of the first when it got that far, and
    nothing is returned when the second raises too. *)
Theorem web_search_with_retry_results (query : pystr) (max_results : Z) :
  (0 <= max_results)%Z ->
  let attempt content :=
    search_attempt lower re_search json_loads re_findall coerce_str
      (strip content) max_results in
  let retry llm :=
    _execute_web_search_with_retry lower re_search json_loads re_findall
      coerce_str llm query max_results in
  let out := retry llm_search in
  length (fst out) <= 2 /\
  (Z.of_nat (length (snd out)) <= search_limit max_results)%Z /\
  Forall (fun r => source r = lit "web") (snd out) /\
  (Forall (fun r => url r <> []) (snd out)
   \/ exists content,
        snd out = _extract_search_results_from_text re_findall content 3) /\
  (llm_search query 0 = None -> llm_search query 1 = None -> out = ([], [])) /\
  (forall content parsed results,
     llm_search query 0 = Some content ->
     attempt content = (parsed, Some results) ->
     out = ([parsed], results) /\
     forall llm, llm query 0 = Some content -> retry llm = out) /\
  (forall first,
     llm_search query 0 = None /\ first = []
     \/ (exists content parsed,
           llm_search query 0 = Some content /\
           attempt content = (parsed, None) /\ first = [parsed]) ->
     out = match llm_search query 1 with
           | Some content =>
               (first ++ [fst (attempt content)],
                default [] (snd (attempt content)))
           | None => (first, [])
           end).
Proof.
  intros H attempt retry out.
  destruct (web_search_with_retry_bounds query max_results H)
    as (H1 & H2 & H3 & H4 & H5).
  do 5 (split; [assumption|]).
  subst out retry attempt. unfold _execute_web_search_with_retry. split.
  - intros content parsed results -> Ha. rewrite Ha. split; [done|].
    intros llm ->. by rewrite Ha.
  - intros first [[-> ->] | (content & parsed & -> & Ha & ->)].
    + destruct (llm_search query 1) as [c|]; [|done].
      by destruct (search_attempt _ _ _ _ _ _ _).
    + rewrite Ha. destruct (llm_search query 1) as [c|]; [|done].
      by destruct (search_attempt _ _ _ _ _ (strip c) _).
Qed.
End WebSearchFacts.

(** X24 on the sample search with the bound 0, which is read as no bound
    given: five results are returned. *)
Lemma web_search_with_retry_results_witness :
  (0 <= 0)%Z /\
  List.map url (snd (SampleWebSearch.search 0))
  = [ lit "https://a.example"; lit "https://b.example";
      lit "https://c.example"; lit "https://d.example";
      lit "https://e.example" ] /\
  List.map title (snd (SampleWebSearch.search 0))
  = List.map url (snd (SampleWebSearch.search 0)) /\
  length (fst (SampleWebSearch.search 0)) <= 2 /\
  (Z.of_nat (length (snd (SampleWebSearch.search 0))) <= search_limit 0)%Z /\
  Forall (fun r => source r = lit "web") (snd (SampleWebSearch.search 0)).
Proof.
  split; [lia|]. split; [by vm_compute|]. split; [by vm_compute|].
  destruct (web_search_with_retry_results ascii_lower
              (fun _ _ => Some (lit "{")) SampleWebSearch.json_loads
              (fun _ _ => []) (fun _ => None)
              (fun _ _ => Some (lit "RESULTS_JSON")) (lit "rocq") 0)
    as (Hm & Hl & Hw & _); [lia|].
  split; [exact Hm|]. split; [exact Hl | exact Hw].
Defined.

(* --------------------------------------------------------------------- *)
(** ** The records of enriched URLs *)

Section EnrichmentFacts.
Variable llm_enrich : pystr -> option pystr.
Variable json_loads : pystr -> option JSON.
Variable coerce_str : JSON -> option pystr.
Variable now : pystr.





End EnrichmentFacts.

(** On the sample results with [max_results] 2: the first page, whose
    enrichment fails, gives a record named by its URL; the second, whose
    answer is no JSON, one named by its host; the third is not looked at. *)
Example scrape_other_websites_sample :
  List.map (fun d => (Scraped.name d, Scraped.summary d))
    (Pipeline.scraped_data
       (fst (Pipeline._scrape_other_websites
               (enriched_record SampleEnrichment.llm_enrich (fun _ => None)
                  (fun _ => None) (lit "2026-01-01 00:00:00"))
               2 SampleEnrichment.executor)))
  = [ (lit "https://a.example/x", []); (lit "b.example", lit "A page.") ].
Proof. vm_compute. reflexivity. Qed.
